(** * OpenCallsBot: the ingestion and merge pipeline of [ingest.py]

    A shallow embedding of [ingest.py] (stub-API scraper, PDF deadline
    miner, chunker/indexer and merge step), of [utils.embed_text] and
    [utils.load_deadlines], and of the deadline listing of the bot
    ([extract_month_alias] and [fmt_deadlines] of [bot.py] and
    [api/bot.py]), followed by the properties of the pipeline and of the
    listing.

    Python values are modelled as follows.
    - [str] is a list of Unicode code points ([pystr]); [len], slicing and
      the window and chunk sizes count code points, as in Python.
    - [datetime.date] is a record of year, month and day, compared
      lexicographically.
    - exceptions are explicit: a computation that can raise returns a
      [result].
    - [dict]s that are only looked up are [gmap]s; the [latest] dictionary
      of the merge step, whose iteration order decides the order of the
      output, is an insertion-ordered association list.
    - library calls whose behaviour is not fixed by the repository
      ([float], [datetime.fromisoformat], [dateparser.parse], the sentence
      encoder) are the fields of the class [PyLib]; the run date, the
      network and the PDF directory are the fields of [world]. *)

From Stdlib Require Import ZArith NArith List Ascii String Lia Bool.
From Stdlib Require Import Sorting.Sorted Sorting.Permutation.
From stdpp Require Import base option list gmap sorting.
Import ListNotations.

Set Warnings "-register-all".
#[local] Open Scope Z_scope.

(* ================================================================== *)
(** * Part I: the model *)
(* ================================================================== *)

(** ** Python strings *)

Abbreviation pystr := (list N).

(** An ASCII literal as a Python string. *)
Definition lit (s : string) : pystr := map N_of_ascii (list_ascii_of_string s).

(** [str.isspace] on one character, which is also [\s] of [re] on [str]
    patterns: the code points CPython's [_PyUnicode_IsWhitespace] lists. *)
Definition isspace (c : N) : bool :=
  ((9 <=? c) && (c <=? 13) || (28 <=? c) && (c <=? 32) || (c =? 133) || (c =? 160)
   || (c =? 5760) || (8192 <=? c) && (c <=? 8202) || (c =? 8232) || (c =? 8233)
   || (c =? 8239) || (c =? 8287) || (c =? 12288))%N.

(** The decimal digits ([str.isdecimal], category [Nd]) come in runs of
    ten, a zero followed by its digits one to nine. The zeros of Unicode
    14.0, the version of CPython 3.11: ASCII, then the other scripts. *)
Definition digit_zeros : list N :=
  [48; 1632; 1776; 1984; 2406; 2534; 2662; 2790; 2918; 3046; 3174; 3302;
   3430; 3558; 3664; 3792; 3872; 4160; 4240; 6112; 6160; 6470; 6608; 6784;
   6800; 6992; 7088; 7232; 7248; 42528; 43216; 43264; 43472; 43504; 43600;
   44016; 65296; 66720; 68912; 69734; 69872; 69942; 70096; 70384; 70736;
   70864; 71248; 71360; 71472; 71904; 72016; 72784; 73040; 73120; 92768;
   92864; 93008; 120782; 120792; 120802; 120812; 120822; 123200; 123632;
   125264; 130032]%N.

(** The zero of the run of digits [c] is in. *)
Definition digit_zero (c : N) : option N :=
  List.find (fun z => (z <=? c) && (c <=? z + 9))%N digit_zeros.

(** [\d] of [re] on [str] patterns: a decimal digit of any script. *)
Definition isdigit (c : N) : bool :=
  match digit_zero c with
  | Some _ => true
  | None => false
  end.

Fixpoint lstrip (s : pystr) : pystr :=
  match s with
  | c :: r => if isspace c then lstrip r else s
  | [] => []
  end.

Definition rstrip (s : pystr) : pystr := rev (lstrip (rev s)).

(** [s.strip()] *)
Definition strip (s : pystr) : pystr := rstrip (lstrip s).

(** [s.replace(old, new)] for a one-character [old]. *)
Definition replace1 (old : N) (new : pystr) (s : pystr) : pystr :=
  flat_map (fun c => if (c =? old)%N then new else [c]) s.

(** [s[a:b]] for [0 <= a]; the slice is clamped to the string. *)
Definition slice (a b : nat) (s : pystr) : pystr := firstn (b - a) (skipn a s).

(** The digit character of a value below ten. *)
Definition digit_char (k : Z) : N := (48 + Z.to_N k)%N.

(** The value [int] gives a decimal digit, of whatever script. *)
Definition digit_val (c : N) : Z :=
  match digit_zero c with
  | Some z => Z.of_N (c - z)
  | None => 0
  end.

Fixpoint decimal_aux (fuel : nat) (n : Z) (acc : pystr) : pystr :=
  match fuel with
  | O => acc
  | S f =>
      let acc' := digit_char (n mod 10) :: acc in
      if n / 10 =? 0 then acc' else decimal_aux f (n / 10) acc'
  end.

(** [str(n)] for an [int]. *)
Definition str_int (n : Z) : pystr :=
  if n <? 0 then 45%N :: decimal_aux (S (Z.to_nat (Z.log2 (- n)))) (- n) []
  else decimal_aux (S (Z.to_nat (Z.log2 n))) n [].

(** ** Exceptions *)

Inductive exn : Type :=
| ValueError | AttributeError | TypeError | JSONDecodeError
| ConnectionError | HTTPError | ParseError.

Inductive result (A : Type) : Type :=
| Ret (a : A)
| Raise (e : exn).
Arguments Ret {A} a.
Arguments Raise {A} e.

#[global] Instance result_ret : MRet result := fun A a => Ret a.
#[global] Instance result_bind : MBind result := fun A B k m =>
  match m with
  | Ret a => k a
  | Raise e => Raise e
  end.

(** [try: m  except Exception: h] *)
Definition try_except {A} (m : result A) (h : A) : A :=
  match m with
  | Ret a => a
  | Raise _ => h
  end.

Definition of_option {A} (e : exn) (o : option A) : result A :=
  match o with
  | Some a => Ret a
  | None => Raise e
  end.

(** A loop whose body can raise: the first exception ends it. *)
Fixpoint map_result {A B} (f : A -> result B) (l : list A) : result (list B) :=
  match l with
  | [] => Ret []
  | x :: t => y ← f x; ys ← map_result f t; Ret (y :: ys)
  end.

(** ** Dates *)

Record date : Type := Date { year : Z; month : Z; day : Z }.

#[global] Instance date_eq_dec : EqDecision date.
Proof. solve_decision. Defined.

Definition is_leap (y : Z) : bool :=
  (y mod 4 =? 0) && (negb (y mod 100 =? 0) || (y mod 400 =? 0)).

Definition days_in_month (y m : Z) : Z :=
  if m =? 2 then (if is_leap y then 29 else 28)
  else if (m =? 4) || (m =? 6) || (m =? 9) || (m =? 11) then 30
  else 31.

(** The dates [datetime.date] can hold. *)
Definition valid_date (d : date) : bool :=
  (1 <=? year d) && (year d <=? 9999) && (1 <=? month d) && (month d <=? 12)
  && (1 <=? day d) && (day d <=? days_in_month (year d) (month d)).

(** [a < b] and [a <= b] on [datetime.date]. *)
Definition date_ltb (a b : date) : bool :=
  (year a <? year b)
  || (year a =? year b) && ((month a <? month b)
                            || (month a =? month b) && (day a <? day b)).

Definition date_leb (a b : date) : bool := negb (date_ltb b a).

(** ** Sorting

    [sorted] and [list.sort] are stable; insertion that keeps an element
    before the elements it is not greater than gives the same list. *)

Section Sort.
Context {A : Type} (key : A -> date).

Fixpoint insert_by (x : A) (l : list A) : list A :=
  match l with
  | [] => [x]
  | y :: t => if date_ltb (key y) (key x) then y :: insert_by x t else x :: y :: t
  end.

Definition sort_by (l : list A) : list A := fold_right insert_by [] l.

(** [x] is not after [y] by their keys. *)
Definition key_le (x y : A) : Prop := date_leb (key x) (key y) = true.
End Sort.

(** ** Regular expressions

    A pattern is a backtracking matcher: on a string it lists, in the
    order [re] tries them, the ways it can match a prefix, each with the
    value of its groups and the rest of the string. [re] takes the first. *)

Definition rx (A : Type) : Type := pystr -> list (A * pystr).

Definition rx_ret {A} (a : A) : rx A := fun s => [(a, s)].
Definition rx_bind {A B} (p : rx A) (k : A -> rx B) : rx B :=
  fun s => flat_map (fun ar => k (fst ar) (snd ar)) (p s).
Definition rx_alt {A} (p q : rx A) : rx A := fun s => p s ++ q s.
Definition rx_fail {A} : rx A := fun _ => [].

Declare Scope rx_scope.
Delimit Scope rx_scope with rx.
Notation "p >>= k" := (rx_bind p k) (at level 58, left associativity) : rx_scope.
Notation "p >> q" := (rx_bind p (fun _ => q)) (at level 58, left associativity) : rx_scope.
Notation "p <|> q" := (rx_alt p q) (at level 59, right associativity) : rx_scope.
#[local] Open Scope rx_scope.

(** One character of a class. *)
Definition rx_cls (P : N -> bool) : rx N := fun s =>
  match s with
  | c :: r => if P c then [(c, r)] else []
  | [] => []
  end.

(** [p?], greedy. *)
Definition rx_opt (p : rx unit) : rx unit := p <|> rx_ret tt.

Fixpoint run_length (P : N -> bool) (s : pystr) : nat :=
  match s with
  | c :: r => if P c then S (run_length P r) else O
  | [] => O
  end.

(** [[P]+], greedy: the longest run first, then shorter ones. *)
Definition rx_plus (P : N -> bool) : rx unit := fun s =>
  map (fun k => (tt, skipn k s)) (rev (seq 1 (run_length P s))).

Definition rx_alts {A} (ps : list (rx A)) : rx A := fold_right rx_alt rx_fail ps.

(** Lower case and the case-insensitive equivalents of [re.IGNORECASE], for
    the characters of the patterns of this program: a pattern character
    [c] matches [x] when [x] lower-cased is [c] lower-cased or one of its
    equivalents in [sre]'s table. *)
Definition tolower (c : N) : N :=
  (if (65 <=? c) && (c <=? 90) then c + 32
   else if (192 <=? c) && (c <=? 222) && negb (c =? 215) then c + 32
   else if c =? 304 then 105
   else if c =? 401 then 402
   else if (913 <=? c) && (c <=? 939) && negb (c =? 930) then c + 32
   else if c =? 8490 then 107
   else c)%N.

Definition ci_fixes (lo : N) : list N :=
  (if lo =? 105 then [305]
   else if lo =? 115 then [383]
   else if lo =? 181 then [956]
   else if lo =? 956 then [181]
   else [])%N.

Definition ci_eqb (c x : N) : bool :=
  let lo := tolower c in
  let lx := tolower x in
  (lx =? lo)%N || existsb (N.eqb lx) (ci_fixes lo).

Definition rx_chr (c : N) : rx unit := rx_cls (N.eqb c) >> rx_ret tt.
Definition rx_ci (c : N) : rx unit := rx_cls (ci_eqb c) >> rx_ret tt.

(** A literal, and a literal under [re.I]. *)
Definition rx_lit (w : pystr) : rx unit := fold_right (fun c p => rx_chr c >> p) (rx_ret tt) w.
Definition rx_lit_ci (w : pystr) : rx unit := fold_right (fun c p => rx_ci c >> p) (rx_ret tt) w.

(** The length of the first match of [p] at the start of [s]. *)
Definition match_len {A} (p : rx A) (s : pystr) : option nat :=
  match p s with
  | (_, r) :: _ => Some (length s - length r)%nat
  | [] => None
  end.

(** The first match of [p] at the start of [s]: the value of its groups and
    the rest of the string. *)
Definition first_match {A} (p : rx A) (s : pystr) : option (A * pystr) := head (p s).

(** [p.finditer(s)]: the spans of the matches, scanning left to right;
    [skip] characters are still inside the previous match. *)
Fixpoint finditer_from {A} (p : rx A) (pos skip : nat) (s : pystr) : list (nat * nat) :=
  match skip with
  | S k =>
      match s with
      | [] => []
      | _ :: t => finditer_from p (S pos) k t
      end
  | O =>
      match match_len p s with
      | Some n =>
          (pos, (pos + n)%nat) ::
          match s with
          | [] => []
          | _ :: t => finditer_from p (S pos) (n - 1) t
          end
      | None =>
          match s with
          | [] => []
          | _ :: t => finditer_from p (S pos) 0 t
          end
      end
  end.

Definition finditer {A} (p : rx A) (s : pystr) : list (nat * nat) := finditer_from p 0 0 s.

(** ** [strftime] and [strptime] with the format ["%d %b %Y"] *)

Definition month_abbrs : list pystr :=
  map lit ["Jan"; "Feb"; "Mar"; "Apr"; "May"; "Jun";
           "Jul"; "Aug"; "Sep"; "Oct"; "Nov"; "Dec"]%string.

Definition two_digits (n : Z) : pystr := [digit_char (n / 10); digit_char (n mod 10)].

(** [d.strftime("%d %b %Y")] in the C locale: the day on two digits, the
    abbreviated month name, the year in decimal. *)
Definition strftime (d : date) : pystr :=
  two_digits (day d) ++ [32%N] ++ nth (Z.to_nat (month d - 1)) month_abbrs []
  ++ [32%N] ++ str_int (year d).

Definition in_range (lo hi : N) (c : N) : bool := ((lo <=? c) && (c <=? hi))%N.

(** The pattern [_strptime] builds for [%d]:
    [3[0-1]|[1-2]\d|0[1-9]|[1-9]| [1-9]]. *)
Definition re_d : rx Z :=
  (rx_chr 51 >> rx_cls (in_range 48 49) >>= fun c => rx_ret (30 + digit_val c))
  <|> (rx_cls (in_range 49 50) >>= fun a => rx_cls isdigit >>= fun b =>
       rx_ret (10 * digit_val a + digit_val b))
  <|> (rx_chr 48 >> rx_cls (in_range 49 57) >>= fun c => rx_ret (digit_val c))
  <|> (rx_cls (in_range 49 57) >>= fun c => rx_ret (digit_val c))
  <|> (rx_chr 32 >> rx_cls (in_range 49 57) >>= fun c => rx_ret (digit_val c)).

(** A literal up to [str.lower]. *)
Definition rx_low (c : N) : rx unit :=
  rx_cls (fun x => (tolower x =? tolower c)%N) >> rx_ret tt.
Definition rx_lit_low (w : pystr) : rx unit :=
  fold_right (fun c p => rx_low c >> p) (rx_ret tt) w.

(** [%b]: [_strptime] matches the abbreviated month names with
    [re.IGNORECASE], then lower-cases the text matched and looks it up
    among the lower-cased names. The look-up raises [ValueError] for the
    one text the pattern accepts that is no name in lower case, [sep]
    written with [U+017F]; the month stands at the same place in every
    way of matching, so the two steps accept the texts that are a name up
    to [str.lower] and fail on the others. *)
Definition re_b : rx Z :=
  rx_alts (imap (fun i w => rx_lit_low w >> rx_ret (Z.of_nat i + 1)) month_abbrs).

(** [%Y]: [\d\d\d\d]. *)
Definition re_Y : rx Z :=
  rx_cls isdigit >>= fun a => rx_cls isdigit >>= fun b =>
  rx_cls isdigit >>= fun c => rx_cls isdigit >>= fun d =>
  rx_ret (1000 * digit_val a + 100 * digit_val b + 10 * digit_val c + digit_val d).

Definition re_dbY : rx date :=
  re_d >>= fun d => rx_plus isspace >> re_b >>= fun b =>
  rx_plus isspace >> re_Y >>= fun y => rx_ret (Date y b d).

(** [dt.datetime.strptime(s, "%d %b %Y").date()]: the first match of the
    pattern must use the whole string, and the fields must make a date. *)
Definition to_d (s : pystr) : result date :=
  match re_dbY s with
  | (d, []) :: _ => if valid_date d then Ret d else Raise ValueError
  | _ => Raise ValueError
  end.

(** ** JSON values, XML elements, HTTP *)

(** What [json] decoding produces; [F] is the type of Python floats. *)
Inductive json (F : Type) : Type :=
| JNull
| JBool (b : bool)
| JInt (z : Z)
| JFloat (f : F)
| JStr (s : pystr)
| JArr (l : list (json F))
| JObj (m : gmap pystr (json F)).
Arguments JNull {F}.
Arguments JBool {F} b.
Arguments JInt {F} z.
Arguments JFloat {F} f.
Arguments JStr {F} s.
Arguments JArr {F} l.
Arguments JObj {F} m.

(** An [xml.etree.ElementTree.Element]: tag, text and children. *)
Inductive element : Type :=
| Element (tag : pystr) (text : option pystr) (children : list element).

Definition el_text (e : element) : option pystr := let (_, x, _) := e in x.
Definition el_children (e : element) : list element := let (_, _, c) := e in c.

(** The first result of [f] along a list. *)
Definition first_some {A B} (f : A -> option B) : list A -> option B :=
  fix go (l : list A) : option B :=
    match l with
    | [] => None
    | x :: r => match f x with
                | Some y => Some y
                | None => go r
                end
    end.

(** The first of [e] and its descendants, in document order, with the tag. *)
Fixpoint find_in (tag : pystr) (e : element) : option element :=
  match e with
  | Element t _ kids =>
      if decide (t = tag) then Some e else first_some (find_in tag) kids
  end.

(** [root.find(".//tag")]: the first proper descendant with the tag. *)
Definition find_desc (tag : pystr) (root : element) : option element :=
  first_some (find_in tag) (el_children root).

(** ** Library functions and the outside world *)

Class PyLib : Type := {
  (** Python's [float], [float(s)] on a [str] ([None]: [ValueError]),
      [str(x)] and [x == 0] on a [float] *)
  float : Type;
  float_of_str : pystr -> option float;
  float_str : float -> pystr;
  float_is_zero : float -> bool;
  (** [dt.datetime.fromisoformat(s).date()]; [None]: it raises *)
  fromisoformat : pystr -> option date;
  (** [dateparser.parse(s, languages=["en","el"],
      settings={"DATE_ORDER":"DMY"})] followed by [.date()]; [None]: the
      parser returned [None] *)
  dateparser_parse : pystr -> option date;
  (** the sentence encoder and the normalisation of [embed_text] *)
  vector : Type;
  encode : pystr -> vector;
  normalize : vector -> vector;
  (** the dates a library returns are [datetime.date]s *)
  fromisoformat_valid : forall s d, fromisoformat s = Some d -> valid_date d = true;
  dateparser_valid : forall s d, dateparser_parse s = Some d -> valid_date d = true
}.

(** A PDF of [PDF_DIR]: its file name, its stem and the text of its pages
    (text layer or OCR) joined with newlines. *)
Record pdf_file : Type := PdfFile {
  pdf_name : pystr;
  pdf_stem : pystr;
  pdf_text : pystr
}.

(** ** Constants *)

Definition CHUNK_SZ : nat := 400.
Definition DIM : nat := 384.
Definition WIN : nat := 300.

Definition API_URL : pystr := lit "https://iris.research.org.cy/api/call/stub?owned=false".

(** ** Helpers *)

Definition normalize_code (code : pystr) : pystr :=
  replace1 92 (lit "_") (replace1 47 (lit "_") code).

Inductive status : Type := OPEN | CLOSED.

(** The budget cleaning shared by the stub field and the detail body:
    [.replace(" ", "").replace(",", "")]. *)
Definition clean_number (s : pystr) : pystr := replace1 44 [] (replace1 32 [] s).

(** [needle in hay] on strings. *)
Fixpoint contains (needle hay : pystr) : bool :=
  match hay with
  | [] => bool_decide (needle = [])
  | _ :: t => bool_decide (firstn (length needle) hay = needle) || contains needle t
  end.

(** ** 1. The stub API and the budgets ([scrape_api]) *)

(** A raw item of the stub list: a JSON object. *)
Abbreviation item := (gmap pystr (json float)).

Section Scrape.
Context `{PyLib}.

(** An HTTP response: its status, its [Content-Type] header, and its
    body as [r.json()] and as [ET.fromstring(r.text)] read it ([None]:
    the decoder raises). *)
Record response : Type := Response {
  status_code : Z;
  content_type : option pystr;
  r_json : option (json float);
  r_xml : option element
}.

(** The outcome of [requests.get]: an exception of the transport, or a
    response. *)
Inductive http_outcome : Type :=
| TransportError
| Received (r : response).

(** What a run depends on: the date, the network and the PDFs. *)
Record world : Type := World {
  TODAY : date;
  http_get : pystr -> http_outcome;
  pdf_dir : list pdf_file
}.

Definition THIS_YEAR (w : world) : Z := year (TODAY w).

(** [resp.raise_for_status()]: [HTTPError] for the 4xx and 5xx statuses. *)
Definition raise_for_status (r : response) : result unit :=
  if (400 <=? status_code r) && (status_code r <? 600) then Raise HTTPError else Ret tt.

Definition requests_get (w : world) (url : pystr) : result response :=
  match http_get w url with
  | TransportError => Raise ConnectionError
  | Received r => Ret r
  end.

(** A record of [fresh_rows]. *)
Record row : Type := Row {
  code : pystr;
  title : pystr;
  deadline : pystr;
  row_status : status;
  budget : option float
}.

(** [bool(v)] *)
Definition truthy (v : json float) : bool :=
  match v with
  | JNull => false
  | JBool b => b
  | JInt z => negb (z =? 0)
  | JFloat f => negb (float_is_zero f)
  | JStr s => negb (bool_decide (s = []))
  | JArr l => negb (bool_decide (l = []))
  | JObj m => negb (bool_decide (m = ∅))
  end.

(** [a or b] *)
Definition py_or (a b : json float) : json float := if truthy a then a else b.

(** [it.get(k)]: an absent key gives [None], as a JSON [null] does. *)
Definition get (it : item) (k : string) : json float := default JNull (it !! lit k).

(** [v.strip()] *)
Definition str_strip (v : json float) : result pystr :=
  match v with
  | JStr s => Ret (strip s)
  | _ => Raise AttributeError
  end.

Definition iso_to_date (s : json float) : option date :=
  try_except
    (match s with
     | JStr t => d ← of_option ValueError (fromisoformat t); Ret (Some d)
     | _ => Raise TypeError
     end)
    None.

Definition call_url (call_id : pystr) : pystr :=
  lit "https://iris.research.org.cy/api/call/" ++ call_id.

(** [fetch_budget]; [call_id] is the identifier as the f-string formats
    it. *)
Definition fetch_budget_body (w : world) (call_id : pystr) : result (option float) :=
  resp ← requests_get w (call_url call_id);
  _ ← raise_for_status resp;
  root ← of_option ParseError (r_xml resp);
  match find_desc (lit "Budget") root with
  | Some node =>
      match el_text node with
      | Some (c :: t) =>
          f ← of_option ValueError (float_of_str (clean_number (strip (c :: t))));
          Ret (Some f)
      | _ => Ret None
      end
  | None => Ret None
  end.

Definition fetch_budget (w : world) (call_id : pystr) : option float :=
  try_except (fetch_budget_body w call_id) None.

(** [v in (None, "", 0)] *)
Definition none_empty_zero (v : json float) : bool :=
  match v with
  | JNull => true
  | JStr s => bool_decide (s = [])
  | JInt z => z =? 0
  | JFloat f => float_is_zero f
  | JBool b => negb b
  | _ => false
  end.

(** [str(v)] where [float] can accept it: the text of a list or of an
    object starts with a bracket, which [float] rejects. *)
Definition py_str (v : json float) : option pystr :=
  match v with
  | JNull => Some (lit "None")
  | JBool b => Some (lit (if b then "True" else "False"))
  | JInt z => Some (str_int z)
  | JFloat f => Some (float_str f)
  | JStr s => Some s
  | JArr _ | JObj _ => None
  end.

(** Step 1 of the budget: the stub's own [Budget] field. *)
Definition stub_budget (it : item) : option float :=
  match it !! lit "Budget" with
  | Some v =>
      if none_empty_zero v then None
      else s ← py_str v; float_of_str (clean_number s)
  | None => None
  end.

(** Step 2: the detail XML, when step 1 gave nothing and [Id] is an
    [int] (a [bool] is one). *)
Definition detail_budget (w : world) (it : item) : option float :=
  match get it "Id" with
  | JInt z => fetch_budget w (str_int z)
  | JBool b => fetch_budget w (lit (if b then "True" else "False"))
  | _ => None
  end.

Definition resolve_budget (w : world) (it : item) : option float :=
  match stub_budget it with
  | Some b => Some b
  | None => detail_budget w it
  end.

Definition status_of (w : world) (d : date) : status :=
  if date_leb (TODAY w) d then OPEN else CLOSED.

(** The code and the deadline the loop reads from an item. *)
Definition raw_code (it : item) : result pystr :=
  str_strip (py_or (get it "Code") (py_or (get it "callCode") (JStr []))).

Definition item_deadline (it : item) : option date :=
  iso_to_date (py_or (get it "deadline_date") (get it "EndDate")).

(** One turn of the loop of [scrape_api]: [Ret None] is [continue],
    [Ret (Some r)] appends [r]. *)
Definition scrape_item (w : world) (it : item) : result (option row) :=
  raw ← raw_code it;
  if bool_decide (raw = []) then Ret None
  else
    match item_deadline it with
    | None => Ret None
    | Some ddl =>
        if year ddl <? THIS_YEAR w then Ret None
        else
          let budget := resolve_budget w it in
          ttl ← str_strip (py_or (get it "call_title") (py_or (get it "Title") (JStr [])));
          Ret (Some {| code := normalize_code raw;
                       title := ttl;
                       deadline := strftime ddl;
                       row_status := status_of w ddl;
                       budget := budget |})
    end.

(** The items [for it in r.json()] visits; a value that is not a list of
    objects fails on the first [it.get]. *)
Definition json_items (v : json float) : result (list item) :=
  match v with
  | JArr l => map_result (fun x => match x with
                             | JObj m => Ret m
                             | _ => Raise AttributeError
                             end) l
  | JObj m => if bool_decide (m = ∅) then Ret [] else Raise AttributeError
  | JStr s => if bool_decide (s = []) then Ret [] else Raise AttributeError
  | _ => Raise TypeError
  end.

Fixpoint scrape_rows (w : world) (items : list item) : result (list row) :=
  match items with
  | [] => Ret []
  | it :: rest =>
      o ← scrape_item w it;
      rows ← scrape_rows w rest;
      Ret (match o with
           | Some r => r :: rows
           | None => rows
           end)
  end.

(** [scrape_api]: the rows returned, or the exception that leaves it, and
    what it wrote to [FRESH_JSON] (the rows the JSON text holds; ["[]"] is
    the empty list), if anything. The write of the rows is taken to go
    through: [write_text] failing, on a file system that refuses the file
    or on a code or a title that UTF-8 cannot encode (a lone surrogate),
    is outside the model. *)
Definition scrape_api (w : world) : result (list row) * option (list row) :=
  match (r ← requests_get w API_URL; _ ← raise_for_status r; Ret r) with
  | Raise _ => (Ret [], Some [])
  | Ret r =>
      if negb (contains (lit "application/json") (default [] (content_type r)))
      then (Ret [], Some [])
      else
        match (v ← of_option JSONDecodeError (r_json r);
               items ← json_items v;
               scrape_rows w items) with
        | Ret rows => (Ret rows, Some rows)
        | Raise e => (Raise e, None)
        end
  end.
End Scrape.

(** ** 2. The PDFs: deadline mining and chunking *)

(** [KW_RE], with [re.I]. The second and the fifth alternative are the two
    Greek keywords as [ingest.py] stores them, each UTF-8 byte of the word
    kept as one character; they are given by the code points the pattern
    has when Python reads the file. *)
Definition KW_RE : rx unit :=
  rx_lit_ci (lit "deadline")
  <|> rx_lit_ci [207; 8364; 207; 206; 191; 206; 184; 206; 181; 207; 402; 206; 188]%N
  <|> rx_lit_ci (lit "submission")
  <|> rx_lit_ci (lit "closing date")
  <|> rx_lit_ci [206; 187; 206; 174; 206; 190; 206; 183]%N.

(** [\d{1,2}] *)
Definition rx_d12 : rx unit :=
  rx_cls isdigit >> rx_opt (rx_cls isdigit >> rx_ret tt).

(** [[./-]] *)
Definition rx_sep : rx unit :=
  rx_cls (fun c => (c =? 46) || (c =? 47) || (c =? 45))%N >> rx_ret tt.

(** [20\d{2}] *)
Definition rx_20dd : rx unit :=
  rx_lit (lit "20") >> rx_cls isdigit >> rx_cls isdigit >> rx_ret tt.

(** A month name with its optional ending: [jan(?:uary)?]. *)
Definition rx_mon (stem ending : string) : rx unit :=
  rx_lit_ci (lit stem) >> rx_opt (rx_lit_ci (lit ending)).

Definition rx_month_name : rx unit :=
  rx_mon "jan" "uary" <|> rx_mon "feb" "ruary" <|> rx_mon "mar" "ch"
  <|> rx_mon "apr" "il" <|> rx_lit_ci (lit "may") <|> rx_mon "jun" "e"
  <|> rx_mon "jul" "y" <|> rx_mon "aug" "ust"
  <|> (rx_lit_ci (lit "sep") >> rx_opt (rx_lit_ci (lit "t") >> rx_opt (rx_lit_ci (lit "ember"))))
  <|> rx_mon "oct" "ober" <|> rx_mon "nov" "ember" <|> rx_mon "dec" "ember".

(** [DATE_RE], with [re.I]. *)
Definition DATE_RE : rx unit :=
  (rx_d12 >> rx_sep >> rx_d12 >> rx_sep >> rx_20dd)
  <|> (rx_d12 >> rx_plus isspace >> rx_month_name >> rx_plus isspace >> rx_20dd).

(** [[m.group() for m in p.finditer(s)]] *)
Definition findall {A} (p : rx A) (s : pystr) : list pystr :=
  map (fun m => slice (fst m) (snd m) s) (finditer p s).

(** [txt[max(0, km.start()-WIN) : km.end()+WIN]] *)
Definition window (txt : pystr) (km : nat * nat) : pystr :=
  slice (fst km - WIN) (snd km + WIN) txt.

(** The date-like substrings the comprehension visits, in its order. *)
Definition date_mentions (txt : pystr) : list pystr :=
  flat_map (fun km => findall DATE_RE (window txt km)) (finditer KW_RE txt).

(** [range(0, stop, step)] for a positive step, with the length CPython
    computes for it. *)
Definition range_len (stop step : nat) : nat :=
  match stop with
  | O => O
  | S n => S (n / step)
  end.

Definition py_range (stop step : nat) : list nat :=
  map (fun k => (k * step)%nat) (seq 0 (range_len stop step)).

(** The slices [txt[i:i+sz]] the chunking loop visits. *)
Definition doc_windows (sz : nat) (txt : pystr) : list pystr :=
  map (fun i => slice i (i + sz) txt) (py_range (length txt) sz).

Fixpoint fold_result {S X} (f : S -> X -> result S) (l : list X) (s : S) : result S :=
  match l with
  | [] => Ret s
  | x :: t => s' ← f s x; fold_result f t s'
  end.

(** The states a loop goes through, one per turn. *)
Fixpoint scan_left {S X} (f : S -> X -> S) (l : list X) (s : S) : list S :=
  match l with
  | [] => []
  | x :: t => f s x :: scan_left f t (f s x)
  end.

(** A record of [pdf_rows]. *)
Record pdf_row : Type := PdfRow {
  pr_code : pystr;
  pr_deadline : pystr
}.

(** A record of [meta]. *)
Record meta_rec : Type := MetaRec {
  m_text : pystr;
  m_source : pystr
}.

Section Pdf.
Context `{PyLib}.

(** [utils.embed_text] *)
Definition embed_text (txt : pystr) : vector := normalize (encode txt).

(** The set comprehension [found]: the parsed dates in the order they
    are produced; [.date()] on a [None] raises. *)
Definition found (txt : pystr) : result (list date) :=
  map_result (fun m => of_option AttributeError (dateparser_parse m)) (date_mentions txt).

(** [sorted(found)[:2]] *)
Definition candidates (txt : pystr) : result (list date) :=
  ds ← found txt; Ret (firstn 2 (sort_by id (remove_dups ds))).

(** The FAISS index (its vectors, in order) and the metadata list. *)
Record index_state : Type := IndexState {
  idx : list vector;
  meta : list meta_rec
}.

(** One turn of the chunking loop on the slice [w] of the document
    [source]. *)
Definition add_chunk (source : pystr) (st : index_state) (w : pystr) : index_state :=
  match strip w with
  | [] => st
  | chunk =>
      {| idx := idx st ++ [embed_text chunk];
         meta := meta st ++ [{| m_text := chunk; m_source := source |}] |}
  end.

(** The chunking loop of one document, for a chunk size [sz]. *)
Definition index_doc (sz : nat) (source txt : pystr) (st : index_state) : index_state :=
  fold_left (add_chunk source) (doc_windows sz txt) st.

Record pdf_state : Type := PdfState {
  pdf_rows : list pdf_row;
  index : index_state
}.

(** The body of [for pdf in PDF_DIR.glob("*.pdf")]. *)
Definition pdf_step (st : pdf_state) (pdf : pdf_file) : result pdf_state :=
  let code := normalize_code (pdf_stem pdf) in
  ds ← candidates (pdf_text pdf);
  Ret {| pdf_rows := pdf_rows st
                     ++ map (fun d => {| pr_code := code; pr_deadline := strftime d |}) ds;
         index := index_doc CHUNK_SZ (pdf_name pdf) (pdf_text pdf) (index st) |}.

Definition pdf_init : pdf_state :=
  {| pdf_rows := []; index := {| idx := []; meta := [] |} |}.

Definition pdf_loop (w : world) : result pdf_state :=
  fold_result pdf_step (pdf_dir w) pdf_init.
End Pdf.

(** ** 3. Merge *)

(** The dictionary [latest]: keys in insertion order; assigning to a key
    that is present keeps its place. *)
Fixpoint dict_get {V} (k : pystr) (d : list (pystr * V)) : option V :=
  match d with
  | [] => None
  | (k', v) :: t => if decide (k = k') then Some v else dict_get k t
  end.

Fixpoint dict_set {V} (k : pystr) (v : V) (d : list (pystr * V)) : list (pystr * V) :=
  match d with
  | [] => [(k, v)]
  | (k', v') :: t => if decide (k = k') then (k, v) :: t else (k', v') :: dict_set k v t
  end.

Section Merge.
Context `{PyLib}.

(** A record of [merged]. *)
Record merged_row : Type := MergedRow {
  mr_code : pystr;
  mr_deadline : pystr;
  mr_status : status;
  mr_budget : option float
}.

(** [for r in pdf_rows: latest[r["code"]] = to_d(r["deadline"])] *)
Definition seed_step (latest : list (pystr * date)) (r : pdf_row)
  : result (list (pystr * date)) :=
  d ← to_d (pr_deadline r); Ret (dict_set (pr_code r) d latest).

(** The body of [for r in fresh_rows]. *)
Definition overlay_step (st : list (pystr * date) * gmap pystr float) (r : row)
  : result (list (pystr * date) * gmap pystr float) :=
  let c := code r in
  d ← to_d (deadline r);
  let latest :=
    match dict_get c (fst st) with
    | None => dict_set c d (fst st)
    | Some cur => if date_ltb cur d then dict_set c d (fst st) else fst st
    end in
  let budgets :=
    match budget r with
    | Some b => <[c := b]> (snd st)
    | None => snd st
    end in
  Ret (latest, budgets).

Definition build_merged (w : world) (latest : list (pystr * date))
    (budgets : gmap pystr float) : list merged_row :=
  map (fun cd => {| mr_code := fst cd;
                    mr_deadline := strftime (snd cd);
                    mr_status := status_of w (snd cd);
                    mr_budget := budgets !! fst cd |}) latest.

(** [merged.sort(key=lambda x: to_d(x["deadline"]))]: the keys are
    computed first, then the list is sorted on them. *)
Definition sort_merged (merged : list merged_row) : result (list merged_row) :=
  keys ← map_result (fun x => to_d (mr_deadline x)) merged;
  Ret (map snd (sort_by fst (combine keys merged))).

Definition merge_latest (pdf_rows : list pdf_row) (fresh_rows : list row)
  : result (list (pystr * date) * gmap pystr float) :=
  latest ← fold_result seed_step pdf_rows [];
  fold_result overlay_step fresh_rows (latest, ∅).

(** Section 3 of the script: from [pdf_rows] and [fresh_rows] to the list
    written to [MERGED_JSON]. *)
Definition merge (w : world) (pdf_rows : list pdf_row) (fresh_rows : list row)
  : result (list merged_row) :=
  st ← merge_latest pdf_rows fresh_rows;
  sort_merged (build_merged w (fst st) (snd st)).

(** ** The whole run *)

(** What a run that completes has written. *)
Record artifacts : Type := Artifacts {
  FRESH_JSON : list row;
  PDF_JSON : list pdf_row;
  INDEX_F : list vector;
  META_F : list meta_rec;
  MERGED_JSON : list merged_row
}.

(** The script from top to bottom; an exception of the fetch, of the PDF
    loop or of the merge ends it. The four writes of the files
    ([PDF_JSON], the index, the metadata, [MERGED_JSON]) are taken to go
    through, as the one of [scrape_api] is: the value is what the run
    computes and, when no write fails, leaves in the files. *)
Definition ingest (w : world) : result artifacts :=
  fresh_rows ← fst (scrape_api w);
  st ← pdf_loop w;
  merged ← merge w (pdf_rows st) fresh_rows;
  Ret {| FRESH_JSON := fresh_rows;
         PDF_JSON := pdf_rows st;
         INDEX_F := idx (index st);
         META_F := meta (index st);
         MERGED_JSON := merged |}.
End Merge.

(** ** A library instance for the examples

    Stand-ins for the library functions, on the inputs the examples use:
    [float] on decimal numerals without exponent, kept exactly as a
    mantissa and a number of decimal places; [fromisoformat] on the form
    [YYYY-MM-DD]; [dateparser.parse] on the two forms [DATE_RE] matches,
    day first, with English month names; the encoder as the identity. *)

Module Ref.

Record dec : Type := Dec { mant : Z; places : nat }.

Fixpoint norm (m : Z) (k : nat) : dec :=
  match k with
  | O => Dec m 0
  | S k' => if m mod 10 =? 0 then norm (m / 10) k' else Dec m k
  end.

Definition digits_val (ds : pystr) : Z :=
  fold_left (fun acc c => 10 * acc + digit_val c) ds 0.

Definition unsigned_of_str (u : pystr) : option dec :=
  let n := run_length isdigit u in
  let ip := firstn n u in
  match skipn n u with
  | [] => if bool_decide (ip = []) then None else Some (Dec (digits_val ip) 0)
  | 46%N :: fr =>
      if forallb isdigit fr && negb (bool_decide (ip ++ fr = []))
      then Some (norm (digits_val (ip ++ fr)) (length fr))
      else None
  | _ => None
  end.

Definition dec_of_str (s : pystr) : option dec :=
  match strip s with
  | 45%N :: u => d ← unsigned_of_str u; Some (Dec (- mant d) (places d))
  | 43%N :: u => unsigned_of_str u
  | u => unsigned_of_str u
  end.

Fixpoint pad_left (k : nat) (s : pystr) : pystr :=
  match k with
  | O => s
  | S k' => if (length s <? k)%nat then 48%N :: pad_left k' s else s
  end.

Definition dec_str (d : dec) : pystr :=
  let a := Z.abs (mant d) in
  let p := 10 ^ Z.of_nat (places d) in
  (if mant d <? 0 then [45%N] else [])
  ++ str_int (a / p) ++ [46%N]
  ++ match places d with
     | O => [48%N]
     | k => pad_left k (str_int (a mod p))
     end.

Definition dec_is_zero (d : dec) : bool := mant d =? 0.

Definition rx_digits (n : nat) : rx Z :=
  Nat.iter n (fun p => p >>= fun acc => rx_cls isdigit >>= fun c =>
                       rx_ret (10 * acc + digit_val c)) (rx_ret 0).

Definition rx_num12 : rx Z := rx_digits 2 <|> rx_digits 1.

(** The first way to match the whole string. *)
Definition full_match {A} (p : rx A) (s : pystr) : option A :=
  fst <$> head (filter (fun r => snd r = []) (p s)).

Definition checked (d : date) : option date :=
  if valid_date d then Some d else None.

Definition iso_date (s : pystr) : option date :=
  full_match (rx_digits 4 >>= fun y => rx_chr 45 >> rx_digits 2 >>= fun m =>
              rx_chr 45 >> rx_digits 2 >>= fun d => rx_ret (Date y m d)) s
  ≫= checked.

Definition rx_month : rx Z :=
  rx_alts (imap (fun i w => rx_lit_ci w >> rx_plus (in_range 97 122) >> rx_ret (Z.of_nat i + 1))
             month_abbrs)
  <|> rx_alts (imap (fun i w => rx_lit_ci w >> rx_ret (Z.of_nat i + 1)) month_abbrs).

Definition dmy_date (s : pystr) : option date :=
  full_match
    ((rx_num12 >>= fun d => rx_sep >> rx_num12 >>= fun m => rx_sep >>
      rx_digits 4 >>= fun y => rx_ret (Date y m d))
     <|> (rx_num12 >>= fun d => rx_plus isspace >> rx_month >>= fun m =>
          rx_plus isspace >> rx_digits 4 >>= fun y => rx_ret (Date y m d))) s
  ≫= checked.

Definition checked_valid (o : option date) (d : date) :
  o ≫= checked = Some d -> valid_date d = true.
Proof.
  destruct o as [x|]; simpl; [|discriminate].
  unfold checked. destruct (valid_date x) eqn:E; [|discriminate].
  intros [= <-]. exact E.
Qed.

#[export] Instance lib : PyLib := {|
  float := dec;
  float_of_str := dec_of_str;
  float_str := dec_str;
  float_is_zero := dec_is_zero;
  fromisoformat := iso_date;
  dateparser_parse := dmy_date;
  vector := pystr;
  encode := fun s => s;
  normalize := fun v => v;
  fromisoformat_valid := fun s => checked_valid _;
  dateparser_valid := fun s => checked_valid _
|}.

End Ref.

(** ** Vocabulary of the properties *)

(** The date a deadline string of a row stands for. *)
Definition date_of (s : pystr) : option date :=
  match to_d s with
  | Ret d => Some d
  | Raise _ => None
  end.

(** The same, with a default that is never used on the rows of a run. *)
Definition the_date (s : pystr) : date := default (Date 1 1 1) (date_of s).

(** A date that [strftime] prints so that [to_d] reads it back: a
    [datetime.date] with a year of four digits. *)
Definition printable (d : date) : Prop := valid_date d = true /\ 1000 <= year d.

(** A deadline string as the pipeline writes it: [strftime] of a date with
    a year of four digits. *)
Definition well_dated (s : pystr) : bool :=
  match date_of s with
  | Some d => (1000 <=? year d) && bool_decide (strftime d = s)
  | None => false
  end.

(** The override rule: one API deadline against the deadline recorded so
    far for its code. It replaces it when the code is absent or when it is
    strictly later. *)
Definition override (cur : option date) (d : date) : option date :=
  match cur with
  | None => Some d
  | Some x => if date_ltb x d then Some d else Some x
  end.

(** The deadlines [pdf_rows] holds for a code, in order. *)
Definition pdf_dates (c : pystr) (pdf_rows : list pdf_row) : list date :=
  omap (fun r => if decide (pr_code r = c) then date_of (pr_deadline r) else None) pdf_rows.

(** A slice that [strip] empties: white space only. *)
Definition blank (w : pystr) : bool := forallb isspace w.

(** The turns of the chunking loop over the documents: the source and the
    slice of each. *)
Definition turns (docs : list pdf_file) : list (pystr * pystr) :=
  flat_map (fun pdf => map (fun w => (pdf_name pdf, w))
                         (doc_windows CHUNK_SZ (pdf_text pdf))) docs.

Section Vocabulary.
Context `{PyLib}.

(** The deadlines [fresh_rows] holds for a code, in order. *)
Definition api_dates (c : pystr) (fresh_rows : list row) : list date :=
  omap (fun r => if decide (code r = c) then date_of (deadline r) else None) fresh_rows.

(** The deadline of a code by the override rule: the PDF deadline seeded
    for it (the last one assigned), then each API deadline of the code in
    turn. *)
Definition rule_deadline (pdf_rows : list pdf_row) (fresh_rows : list row) (c : pystr)
  : option date :=
  fold_left override (api_dates c fresh_rows) (last (pdf_dates c pdf_rows)).

(** The record of a code in the merged list. *)
Definition merged_for (c : pystr) (merged : list merged_row) : option merged_row :=
  snd <$> list_find (fun r => mr_code r = c) merged.

(** [a] is not after [b] by the dates of their deadlines. *)
Definition deadline_le (a b : merged_row) : Prop :=
  exists da db, to_d (mr_deadline a) = Ret da /\ to_d (mr_deadline b) = Ret db
                /\ date_leb da db = true.

(** The loops of the merge without their exceptions. *)
Definition seed_pure (latest : list (pystr * date)) (r : pdf_row) : list (pystr * date) :=
  dict_set (pr_code r) (the_date (pr_deadline r)) latest.

Definition overlay_pure (st : list (pystr * date) * gmap pystr float) (r : row)
  : list (pystr * date) * gmap pystr float :=
  (match dict_get (code r) (fst st) with
   | None => dict_set (code r) (the_date (deadline r)) (fst st)
   | Some cur => if date_ltb cur (the_date (deadline r))
                 then dict_set (code r) (the_date (deadline r)) (fst st) else fst st
   end,
   match budget r with
   | Some b => <[code r := b]> (snd st)
   | None => snd st
   end).

Definition final_state (pdf_rows : list pdf_row) (fresh_rows : list row)
  : list (pystr * date) * gmap pystr float :=
  fold_left overlay_pure fresh_rows (fold_left seed_pure pdf_rows [], ∅).

Definition merged_of (w : world) (st : list (pystr * date) * gmap pystr float)
  : list merged_row :=
  let m := build_merged w (fst st) (snd st) in
  map snd (sort_by fst (map (fun x => (the_date (mr_deadline x), x)) m)).

(** A dictionary with distinct keys and printable dates. *)
Definition good_dict (latest : list (pystr * date)) : Prop :=
  NoDup (map fst latest) /\ Forall (fun kv => printable (snd kv)) latest.

Definition index_init : index_state := {| idx := []; meta := [] |}.

(** The index and the metadata after each turn of the chunking loop, over
    all the documents. *)
Definition index_trace (docs : list pdf_file) : list index_state :=
  scan_left (fun st t => add_chunk (fst t) st (snd t)) (turns docs) index_init.

(** The index and the metadata list are parallel: as many vectors as
    records, and the vector at a position is the embedding of the text of
    the record at that position. *)
Definition parallel (st : index_state) : Prop :=
  length (idx st) = length (meta st)
  /\ forall i m, meta st !! i = Some m -> idx st !! i = Some (embed_text (m_text m)).

Definition in_step (st : index_state) : Prop :=
  idx st = map (fun m => embed_text (m_text m)) (meta st).

(** The records the chunking loop appends for the slices [ws]. *)
Definition new_meta (src : pystr) (ws : list pystr) : list meta_rec :=
  map (fun w => {| m_text := strip w; m_source := src |})
    (filter (fun w => blank w = false) ws).




End Vocabulary.

(** ** 4. The deadline list of the bot ([utils.load_deadlines], [bot.py]) *)

(** [str.lower], which Unicode fixes and the repository does not. *)
Class PyText : Type := { lower : pystr -> pystr }.

(** [sep.join(l)] *)
Fixpoint str_join (sep : pystr) (l : list pystr) : pystr :=
  match l with
  | [] => []
  | x :: t =>
      match t with
      | [] => x
      | _ :: _ => x ++ sep ++ str_join sep t
      end
  end.

(** [html.escape(s)]: [&] first, then [<], [>] and the two quotes. *)
Definition html_escape (s : pystr) : pystr :=
  replace1 39 (lit "&#x27;") (replace1 34 (lit "&quot;") (replace1 62 (lit "&gt;")
    (replace1 60 (lit "&lt;") (replace1 38 (lit "&amp;") s)))).

(** The text of a status. *)
Definition status_str (s : status) : pystr :=
  match s with
  | OPEN => lit "OPEN"
  | CLOSED => lit "CLOSED"
  end.

(** A loop whose body appends a record or goes on to the next turn, and
    can raise. *)
Fixpoint collect {A B} (f : A -> result (option B)) (l : list A) : result (list B) :=
  match l with
  | [] => Ret []
  | x :: t =>
      o ← f x;
      ys ← collect f t;
      Ret (match o with
           | Some y => y :: ys
           | None => ys
           end)
  end.

(** [MONTH_ALIAS], a dictionary in the order it is written. *)
Definition MONTH_ALIAS : list (pystr * Z) :=
  map (fun kv => (lit (fst kv), snd kv))
    [("jan", 1); ("january", 1); ("feb", 2); ("february", 2); ("mar", 3); ("march", 3);
     ("apr", 4); ("april", 4); ("may", 5); ("jun", 6); ("june", 6);
     ("jul", 7); ("july", 7); ("aug", 8); ("august", 8);
     ("sep", 9); ("sept", 9); ("september", 9); ("oct", 10); ("october", 10);
     ("nov", 11); ("november", 11); ("dec", 12); ("december", 12)]%string.

(** [extract_month_alias]: the first key of [MONTH_ALIAS] that occurs in
    the lower-cased text. *)
Definition extract_month_alias `{PyText} (text : pystr) : option pystr :=
  let tl := lower text in
  first_some (fun kv => if contains (fst kv) tl then Some (fst kv) else None) MONTH_ALIAS.

Section Bot.
Context `{PyLib}.

(** A JSON file: absent, or present with what [json.load] reads from it
    ([None]: the decoder raises). *)
Inductive json_file : Type :=
| NoFile
| FileOf (v : option (json float)).

(** The object [json.dumps] writes for a record of [merged], as
    [json.load] reads it back: a budget is a number or [null]. *)
Definition merged_obj (r : merged_row) : item :=
  <[lit "code" := JStr (mr_code r)]>
    (<[lit "deadline" := JStr (mr_deadline r)]>
    (<[lit "status" := JStr (status_str (mr_status r))]>
    (<[lit "budget" := match mr_budget r with
                       | Some b => JFloat b
                       | None => JNull
                       end]> ∅))).

Definition merged_json (r : merged_row) : json float := JObj (merged_obj r).

(** [MERGED_JSON] after the run wrote [merged] to it. *)
Definition merged_file (merged : list merged_row) : json_file :=
  FileOf (Some (JArr (map merged_json merged))).

(** A record of [load_deadlines]: [{"code", "deadline", "status"}]. The
    code and the deadline are the values of the file; the status is one
    of the two strings. *)
Record deadline_row : Type := DeadlineRow {
  dl_code : json float;
  dl_deadline : json float;
  dl_status : status
}.

(** [status in ("OPEN", "CLOSED")], with the status it is. *)
Definition known_status (v : json float) : option status :=
  match v with
  | JStr s =>
      if decide (s = lit "OPEN") then Some OPEN
      else if decide (s = lit "CLOSED") then Some CLOSED
      else None
  | _ => None
  end.

(** [datetime.datetime.strptime(v, "%d %b %Y").date()] on a value of the
    file: a value that is not a string is a [TypeError]. *)
Definition strptime_date (v : json float) : result date :=
  match v with
  | JStr s => to_d s
  | _ => Raise TypeError
  end.

(** One turn of the loop of [load_deadlines] on the object [d]. *)
Definition load_item (today : date) (d : item) : result (option deadline_row) :=
  let code := py_or (get d "code") (get d "programme") in
  let dl := get d "deadline" in
  if negb (truthy code) || negb (truthy dl) then Ret None
  else
    st ← match known_status (get d "status") with
         | Some st => Ret st
         | None =>
             match strptime_date dl with
             | Ret dt_obj => Ret (if date_leb today dt_obj then OPEN else CLOSED)
             | Raise ValueError => Ret OPEN
             | Raise e => Raise e
             end
         end;
    Ret (Some {| dl_code := code; dl_deadline := dl; dl_status := st |}).

(** [d.get] on an element of the file that is not an object raises. *)
Definition as_dict (x : json float) : result item :=
  match x with
  | JObj m => Ret m
  | _ => Raise AttributeError
  end.

(** [load_deadlines], on the day [today]. Iterating an object or a string
    gives strings, on which [d.get] raises; the other values are not
    iterable. *)
Definition load_deadlines (today : date) (f : json_file) : result (list deadline_row) :=
  match f with
  | NoFile => Ret []
  | FileOf None => Raise JSONDecodeError
  | FileOf (Some raw) =>
      match raw with
      | JArr l => collect (fun x => d ← as_dict x; load_item today d) l
      | JObj m => if bool_decide (m = ∅) then Ret [] else Raise AttributeError
      | JStr s => if bool_decide (s = []) then Ret [] else Raise AttributeError
      | _ => Raise TypeError
      end
  end.

(** An element of [entries]: the date, the code and the status. *)
Definition entry : Type := date * json float * status.

(** [month_num and d.month != month_num] *)
Definition other_month (month_num : option Z) (d : date) : bool :=
  match month_num with
  | Some n => negb (n =? 0) && negb (month d =? n)
  | None => false
  end.

(** One turn of the loop of [fmt_deadlines] of [bot.py]: only a
    [ValueError] of [strptime] is caught. *)
Definition fmt_entry (month_num : option Z) (row : deadline_row) : result (option entry) :=
  match strptime_date (dl_deadline row) with
  | Ret d =>
      if other_month month_num d then Ret None
      else Ret (Some (d, dl_code row, dl_status row))
  | Raise ValueError => Ret None
  | Raise e => Raise e
  end.

(** A line of the listing; [html.escape] needs a string. *)
Definition fmt_line (e : entry) : result pystr :=
  let '(d, code, st) := e in
  match code with
  | JStr c =>
      Ret ([8226%N] ++ lit " <b>" ++ html_escape c ++ lit "</b> " ++ [8212%N] ++ lit " "
           ++ strftime d ++ lit " <i>(" ++ status_str st ++ lit ")</i>")
  | _ => Raise AttributeError
  end.

Definition no_deadlines_loaded : pystr :=
  [9888%N; 65039%N] ++ lit " No deadlines loaded. Please run ingest.py.".

Definition deadlines_header : pystr := [128197%N] ++ lit " <b>Deadlines</b>" ++ [10%N].

(** [MONTH_ALIAS.get(month_alias) if month_alias else None] *)
Definition month_number (month_alias : option pystr) : option Z :=
  match month_alias with
  | Some a => if bool_decide (a = []) then None else dict_get a MONTH_ALIAS
  | None => None
  end.

(** The end of [fmt_deadlines], from the entries the loop gathered. *)
Definition fmt_listing (entries : list entry) : result pystr :=
  if bool_decide (entries = []) then Ret (lit "No matching deadlines.")
  else
    lines ← map_result fmt_line (sort_by (fun e : entry => fst (fst e)) entries);
    Ret (deadlines_header ++ str_join [10%N] lines).

(** [fmt_deadlines] of [bot.py], on the list [DEADLINES] the module
    loaded. *)
Definition fmt_deadlines (DEADLINES : list deadline_row) (month_alias : option pystr)
  : result pystr :=
  if bool_decide (DEADLINES = []) then Ret no_deadlines_loaded
  else
    entries ← collect (fmt_entry (month_number month_alias)) DEADLINES;
    fmt_listing entries.
End Bot.

(** [api/bot.py]: the same listing, with a bare [except] around
    [strptime]. *)
Module Api.
Section Bot.
Context `{PyLib}.

Definition fmt_entry (mn : option Z) (r : deadline_row) : result (option entry) :=
  match strptime_date (dl_deadline r) with
  | Ret d =>
      if other_month mn d then Ret None
      else Ret (Some (d, dl_code r, dl_status r))
  | Raise _ => Ret None
  end.

Definition fmt_deadlines (DEADLINES : list deadline_row) (month_alias : option pystr)
  : result pystr :=
  if bool_decide (DEADLINES = []) then Ret no_deadlines_loaded
  else
    out ← collect (fmt_entry (month_number month_alias)) DEADLINES;
    fmt_listing out.
End Bot.
End Api.

(** ** Vocabulary of the further properties *)

(** The rows a document contributes for the dates [ds]. *)
Definition rows_of (pdf : pdf_file) (ds : list date) : list pdf_row :=
  map (fun d => {| pr_code := normalize_code (pdf_stem pdf); pr_deadline := strftime d |}) ds.

(** The characters of a text that are not white space, in order. *)
Definition visible (s : pystr) : pystr := filter (fun c => isspace c = false) s.

(** The records the chunking loop appends for a document. *)
Definition doc_meta (pdf : pdf_file) : list meta_rec :=
  new_meta (pdf_name pdf) (doc_windows CHUNK_SZ (pdf_text pdf)).

(** The elements of a list in the order they are first seen. *)
Fixpoint first_seen (l : list pystr) : list pystr :=
  match l with
  | [] => []
  | x :: t => x :: filter (fun y => y <> x) (first_seen t)
  end.

(** The budgets [fresh_rows] carries for a code, in order. *)
Definition api_budgets `{PyLib} (c : pystr) (fresh_rows : list row) : list float :=
  omap (fun r => if decide (code r = c) then budget r else None) fresh_rows.

(** The keys of a dictionary after an assignment to the key [c]. *)
Definition add_key (ks : list pystr) (c : pystr) : list pystr :=
  if decide (c ∈ ks) then ks else ks ++ [c].

(** The parser gives years of four digits for the substrings the miner
    hands it from the documents. *)
Definition four_digit_years `{PyLib} (docs : list pdf_file) : Prop :=
  forall pdf m d, pdf ∈ docs -> m ∈ date_mentions (pdf_text pdf) ->
                  dateparser_parse m = Some d -> 1000 <= year d.

(** Every way [p] matches at the start of a string consumes a prefix of
    it, and the prefix has the property [P]. *)
Definition consumes {A} (p : rx A) (P : pystr -> Prop) : Prop :=
  forall s a r, (a, r) ∈ p s -> exists pre, s = pre ++ r /\ P pre.

(** A text that starts with a digit. *)
Definition digit_first (s : pystr) : Prop :=
  exists c q, s = c :: q /\ isdigit c = true.

(** The text [20dd] of a year of this century. *)
Definition year_20dd (s : pystr) : Prop :=
  exists a b, s = [50%N; 48%N; a; b] /\ isdigit a = true /\ isdigit b = true.

(** The twelve keys of [MONTH_ALIAS] of three letters, in their order. *)
Definition month_keys : list pystr :=
  map lit ["jan"; "feb"; "mar"; "apr"; "may"; "jun";
           "jul"; "aug"; "sep"; "oct"; "nov"; "dec"]%string.

(** [str.lower] on the texts of the examples: the letters [tolower]
    covers. *)
#[export] Instance simple_text : PyText := {| lower := map tolower |}.

Section BotVocabulary.
Context `{PyLib}.

(** The record [load_deadlines] makes of a record of the merged file. *)
Definition loaded (r : merged_row) : deadline_row :=
  {| dl_code := JStr (mr_code r); dl_deadline := JStr (mr_deadline r);
     dl_status := mr_status r |}.

(** The line of the listing for a code, the text of a deadline and a
    status. *)
Definition listing_line (c s : pystr) (st : status) : pystr :=
  [8226%N] ++ lit " <b>" ++ html_escape c ++ lit "</b> " ++ [8212%N] ++ lit " "
  ++ s ++ lit " <i>(" ++ status_str st ++ lit ")</i>".

(** The line of the listing for a merged record. *)
Definition merged_line (r : merged_row) : pystr :=
  listing_line (mr_code r) (mr_deadline r) (mr_status r).
End BotVocabulary.

(** The element of [entries] for a merged record. *)
Definition merged_entry `{PyLib} (r : merged_row) : entry :=
  (the_date (mr_deadline r), JStr (mr_code r), mr_status r).

Section ListingVocabulary.
Context `{PyLib}.

(** The date of a record of [DEADLINES], when its deadline is a string
    that [strptime] reads. *)
Definition row_date (r : deadline_row) : option date :=
  match dl_deadline r with
  | JStr s => date_of s
  | _ => None
  end.

(** The entries of the records whose deadline is a date, of the month
    [mn] when one is given, in the order of the records. *)
Definition dated_in (mn : option Z) (D : list deadline_row) : list entry :=
  omap (fun r =>
          match row_date r with
          | Some d =>
              if match mn with
                 | Some n => bool_decide (month d = n)
                 | None => true
                 end
              then Some (d, dl_code r, dl_status r) else None
          | None => None
          end) D.

(** The line of the listing for an entry whose code is a string. *)
Definition entry_line (e : entry) : pystr :=
  match e with
  | (d, JStr c, st) => listing_line c (strftime d) st
  | _ => []
  end.
End ListingVocabulary.

(** The three English keywords of [KW_RE], in their order. *)
Definition KW_EN : rx unit :=
  rx_lit_ci (lit "deadline") <|> rx_lit_ci (lit "submission")
  <|> rx_lit_ci (lit "closing date").

(* ================================================================== *)
(** * Part II: the properties *)
(* ================================================================== *)

(** ** Results *)

Lemma bind_Ret {A B} (m : result A) (k : A -> result B) (b : B) :
  m ≫= k = Ret b <-> exists a, m = Ret a /\ k a = Ret b.
Proof.
  destruct m as [a|e]; simpl; split.
  - intros Hk. exists a. auto.
  - intros (a' & [= <-] & Hk). exact Hk.
  - discriminate.
  - intros (a' & Hm & _). discriminate.
Qed.

Lemma map_result_Ret {A B} (f : A -> result B) (g : A -> B) (l : list A) :
  Forall (fun x => f x = Ret (g x)) l -> map_result f l = Ret (map g l).
Proof.
  induction 1 as [|x t Hx _ IH]; simpl; [reflexivity|].
  rewrite Hx. simpl. rewrite IH. reflexivity.
Qed.

(** ** The order on dates *)

Lemma date_ltb_irrefl (a : date) : date_ltb a a = false.
Proof. unfold date_ltb. destruct a as [y m d]; simpl. lia. Qed.

Lemma date_ltb_trans (a b c : date) :
  date_ltb a b = true -> date_ltb b c = true -> date_ltb a c = true.
Proof. unfold date_ltb. destruct a, b, c; simpl. lia. Qed.

Lemma date_ltb_asym (a b : date) : date_ltb a b = true -> date_ltb b a = false.
Proof. unfold date_ltb. destruct a, b; simpl. lia. Qed.

Lemma date_ltb_total (a b : date) :
  date_ltb a b = false -> date_ltb b a = false -> a = b.
Proof.
  unfold date_ltb. destruct a as [y m d], b as [y' m' d']; simpl. intros H1 H2.
  assert (y = y' /\ m = m' /\ d = d') as (-> & -> & ->) by lia. reflexivity.
Qed.

Lemma date_leb_refl (a : date) : date_leb a a = true.
Proof. unfold date_leb. rewrite date_ltb_irrefl. reflexivity. Qed.

Lemma date_leb_trans (a b c : date) :
  date_leb a b = true -> date_leb b c = true -> date_leb a c = true.
Proof. unfold date_leb, date_ltb. destruct a, b, c; simpl. lia. Qed.

Lemma date_ltb_leb (a b : date) : date_ltb a b = true -> date_leb a b = true.
Proof. unfold date_leb. intros Hab. rewrite (date_ltb_asym _ _ Hab). reflexivity. Qed.

Lemma date_leb_antisym (a b : date) :
  date_leb a b = true -> date_leb b a = true -> a = b.
Proof.
  unfold date_leb. intros H1 H2. apply date_ltb_total.
  - destruct (date_ltb a b); [discriminate|reflexivity].
  - destruct (date_ltb b a); [discriminate|reflexivity].
Qed.

(** ** Sorting *)

Section SortFacts.
Context {A : Type} (key : A -> date).

Lemma insert_by_perm (x : A) (l : list A) : Permutation (x :: l) (insert_by key x l).
Proof.
  induction l as [|y t IH]; simpl; [reflexivity|].
  destruct (date_ltb (key y) (key x)); [|reflexivity].
  rewrite perm_swap. constructor. exact IH.
Qed.

Lemma sort_by_perm (l : list A) : Permutation l (sort_by key l).
Proof.
  induction l as [|x t IH]; simpl; [reflexivity|].
  rewrite <- insert_by_perm. constructor. exact IH.
Qed.

Lemma insert_by_sorted (x : A) (l : list A) :
  StronglySorted (key_le key) l -> StronglySorted (key_le key) (insert_by key x l).
Proof.
  induction 1 as [|y t Hs IH Hy]; simpl.
  - repeat constructor.
  - destruct (date_ltb (key y) (key x)) eqn:E.
    + constructor; [exact IH|].
      rewrite <- insert_by_perm. constructor; [|exact Hy].
      apply date_ltb_leb, E.
    + assert (key_le key x y) as Hxy by (unfold key_le, date_leb; rewrite E; reflexivity).
      constructor; [constructor; assumption|].
      constructor; [exact Hxy|].
      eapply Forall_impl; [exact Hy|].
      intros z Hz. eapply date_leb_trans; eassumption.
Qed.

Lemma sort_by_sorted (l : list A) : StronglySorted (key_le key) (sort_by key l).
Proof.
  induction l as [|x t IH]; simpl; [constructor|].
  apply insert_by_sorted, IH.
Qed.
End SortFacts.

(** ** [strptime] reads back [strftime] *)

Lemma first_bind {A B} (p : rx A) (k : A -> rx B) s a r x :
  first_match p s = Some (a, r) ->
  first_match (k a) r = Some x ->
  first_match (p >>= k) s = Some x.
Proof.
  unfold first_match, rx_bind. destruct (p s) as [|[a' r'] l]; simpl; [discriminate|].
  intros [= -> ->]. destruct (k a r) as [|y l']; simpl; [discriminate|].
  intros [= ->]. reflexivity.
Qed.

Lemma first_ret {A} (a : A) s : first_match (rx_ret a) s = Some (a, s).
Proof. reflexivity. Qed.

Lemma to_d_first (s : pystr) (d : date) :
  first_match re_dbY s = Some (d, []) -> valid_date d = true -> to_d s = Ret d.
Proof.
  unfold first_match, to_d. destruct (re_dbY s) as [|[d' r] l]; simpl; [discriminate|].
  intros [= -> ->] ->. reflexivity.
Qed.

Lemma first_plus_space (c : N) (t : pystr) :
  isspace c = false -> first_match (rx_plus isspace) (32%N :: c :: t) = Some (tt, c :: t).
Proof. intros Hc. unfold first_match, rx_plus. simpl. rewrite Hc. reflexivity. Qed.

Lemma first_re_d (n : Z) (t : pystr) :
  1 <= n <= 31 -> first_match re_d (two_digits n ++ 32%N :: t) = Some (n, 32%N :: t).
Proof.
  intros Hn.
  assert (In n (map Z.of_nat (seq 1 31))) as Hin.
  { apply in_map_iff. exists (Z.to_nat n). split; [lia|]. apply in_seq. lia. }
  simpl in Hin.
  repeat (destruct Hin as [<-|Hin]; [reflexivity|]). destruct Hin.
Qed.

Lemma first_re_b (m : Z) (t : pystr) :
  1 <= m <= 12 ->
  first_match re_b (nth (Z.to_nat (m - 1)) month_abbrs [] ++ 32%N :: t) = Some (m, 32%N :: t).
Proof.
  intros Hm.
  assert (In m (map Z.of_nat (seq 1 12))) as Hin.
  { apply in_map_iff. exists (Z.to_nat m). split; [lia|]. apply in_seq. lia. }
  simpl in Hin.
  repeat (destruct Hin as [<-|Hin]; [reflexivity|]). destruct Hin.
Qed.

Ltac dlia := Z.div_mod_to_equations; lia.

Lemma digit_cases (k : Z) (P : Z -> Prop) :
  0 <= k <= 9 -> P 0 -> P 1 -> P 2 -> P 3 -> P 4 -> P 5 -> P 6 -> P 7 -> P 8 -> P 9 -> P k.
Proof.
  intros Hk. assert (k = 0 \/ k = 1 \/ k = 2 \/ k = 3 \/ k = 4 \/ k = 5 \/ k = 6 \/ k = 7
                     \/ k = 8 \/ k = 9) as Hc by lia.
  intuition (subst; assumption).
Qed.

Lemma digit_char_facts (k : Z) :
  0 <= k <= 9 ->
  isdigit (digit_char k) = true /\ isspace (digit_char k) = false
  /\ digit_val (digit_char k) = k.
Proof. intros Hk. apply (digit_cases k); [exact Hk|..]; repeat split. Qed.

Lemma str_int_year (y : Z) :
  1000 <= y <= 9999 ->
  str_int y = [digit_char (y / 1000); digit_char (y / 100 mod 10);
               digit_char (y / 10 mod 10); digit_char (y mod 10)].
Proof.
  intros Hy. unfold str_int.
  destruct (Z.ltb_spec y 0) as [?|_]; [lia|].
  assert (9 <= Z.log2 y) as Hlog.
  { change 9 with (Z.log2 1000). apply Z.log2_le_mono. lia. }
  destruct (Z.to_nat (Z.log2 y)) as [|[|[|n]]] eqn:En; try lia.
  cbn [decimal_aux].
  replace (y / 10 =? 0) with false by (symmetry; apply Z.eqb_neq; dlia).
  replace (y / 10 / 10 =? 0) with false by (symmetry; apply Z.eqb_neq; dlia).
  replace (y / 10 / 10 / 10 =? 0) with false by (symmetry; apply Z.eqb_neq; dlia).
  replace (y / 10 / 10 / 10 / 10 =? 0) with true by (symmetry; apply Z.eqb_eq; dlia).
  rewrite !Z.div_div by lia.
  change (10 * (10 * 10)) with 1000. change (10 * 10) with 100.
  replace ((y / 1000) mod 10) with (y / 1000) by dlia. reflexivity.
Qed.

Lemma re_Y_year (y : Z) : 1000 <= y <= 9999 -> re_Y (str_int y) = [(y, [])].
Proof.
  intros Hy. rewrite (str_int_year y Hy).
  destruct (digit_char_facts (y / 1000) ltac:(dlia)) as (Ha & _ & Va).
  destruct (digit_char_facts (y / 100 mod 10) ltac:(dlia)) as (Hb & _ & Vb).
  destruct (digit_char_facts (y / 10 mod 10) ltac:(dlia)) as (Hc & _ & Vc).
  destruct (digit_char_facts (y mod 10) ltac:(dlia)) as (Hd & _ & Vd).
  unfold re_Y, rx_bind, rx_cls, rx_ret. simpl.
  rewrite Ha. simpl. rewrite Hb. simpl. rewrite Hc. simpl. rewrite Hd. simpl.
  rewrite Va, Vb, Vc, Vd. repeat f_equal. dlia.
Qed.

Lemma first_month_nospace (m : Z) (t : pystr) :
  1 <= m <= 12 ->
  exists c u, nth (Z.to_nat (m - 1)) month_abbrs [] ++ t = c :: u /\ isspace c = false.
Proof.
  intros Hm.
  assert (In m (map Z.of_nat (seq 1 12))) as Hin.
  { apply in_map_iff. exists (Z.to_nat m). split; [lia|]. apply in_seq. lia. }
  simpl in Hin.
  repeat (destruct Hin as [<-|Hin]; [eexists _, _; split; reflexivity|]). destruct Hin.
Qed.

(** [strptime] reads back what [strftime] wrote, for years of four digits. *)
Lemma to_d_strftime (d : date) :
  valid_date d = true -> 1000 <= year d -> to_d (strftime d) = Ret d.
Proof.
  intros Hv Hy. destruct d as [y m dd]. unfold valid_date in Hv. simpl in *.
  assert (y <= 9999 /\ 1 <= m <= 12 /\ 1 <= dd <= 31) as (Hy' & Hm & Hd).
  { unfold days_in_month in Hv. repeat case_match; lia. }
  apply to_d_first; [|unfold valid_date; simpl; exact Hv].
  pose proof (re_Y_year y (conj Hy Hy')) as HY.
  pose proof (str_int_year y (conj Hy Hy')) as Ey. rewrite Ey in HY.
  destruct (digit_char_facts (y / 1000) ltac:(dlia)) as (_ & Hc & _).
  set (c := digit_char (y / 1000)) in *.
  set (u := [digit_char (y / 100 mod 10); digit_char (y / 10 mod 10);
             digit_char (y mod 10)]) in *.
  set (M := nth (Z.to_nat (m - 1)) month_abbrs []).
  assert (strftime (Date y m dd) = two_digits dd ++ 32%N :: (M ++ 32%N :: c :: u)) as ->.
  { unfold strftime. simpl year; simpl month; simpl day. rewrite Ey. reflexivity. }
  destruct (first_month_nospace m (32%N :: c :: u) Hm) as (c' & u' & Em & Hc').
  fold M in Em.
  unfold re_dbY.
  eapply first_bind; [apply first_re_d, Hd|].
  apply (first_bind _ _ _ m (32%N :: c :: u)).
  { apply (first_bind _ _ _ tt (M ++ 32%N :: c :: u)).
    - rewrite Em. apply first_plus_space, Hc'.
    - apply first_re_b, Hm. }
  apply (first_bind _ _ _ y []).
  { apply (first_bind _ _ _ tt (c :: u)).
    - apply first_plus_space, Hc.
    - unfold first_match. rewrite HY. reflexivity. }
  apply first_ret.
Qed.

(** ** The merge *)

Section Dict.
Context {V : Type}.
Implicit Types (d : list (pystr * V)) (k c : pystr) (v : V).

Lemma dict_get_set d k v c :
  dict_get c (dict_set k v d) = if decide (c = k) then Some v else dict_get c d.
Proof.
  induction d as [|[k' v'] t IH]; simpl.
  - repeat case_decide; congruence.
  - repeat (case_decide; simpl); try congruence.
Qed.

Lemma dict_get_None d c : dict_get c d = None <-> c ∉ map fst d.
Proof.
  induction d as [|[k' v'] t IH]; simpl.
  - split; [intros _; apply not_elem_of_nil|reflexivity].
  - rewrite not_elem_of_cons. case_decide; [|tauto].
    split; [discriminate|tauto].
Qed.

Lemma dict_get_Some d c v : dict_get c d = Some v -> (c, v) ∈ d.
Proof.
  induction d as [|[k' v'] t IH]; simpl; [discriminate|].
  case_decide.
  - intros [= ->]. subst. left.
  - intros Hg. right. auto.
Qed.

Lemma dict_set_keys d k v c : c ∈ map fst (dict_set k v d) <-> c = k \/ c ∈ map fst d.
Proof.
  induction d as [|[k' v'] t IH]; simpl.
  - rewrite list_elem_of_singleton. rewrite elem_of_nil. tauto.
  - case_decide; simpl; rewrite !elem_of_cons; [subst; tauto|].
    rewrite IH. tauto.
Qed.

Lemma dict_set_NoDup d k v : NoDup (map fst d) -> NoDup (map fst (dict_set k v d)).
Proof.
  induction d as [|[k' v'] t IH]; simpl; intros Hnd.
  - apply NoDup_singleton.
  - apply NoDup_cons in Hnd as [Hk Hnd]. case_decide; simpl.
    + subst. apply NoDup_cons. auto.
    + apply NoDup_cons. split; [|auto].
      rewrite dict_set_keys. intros [->|Hin]; [congruence|auto].
Qed.

Lemma dict_set_Forall (P : V -> Prop) d k v :
  P v -> Forall (fun kv => P (snd kv)) d -> Forall (fun kv => P (snd kv)) (dict_set k v d).
Proof.
  intros Hv. induction 1 as [|[k' v'] t Hx Ht IH]; simpl.
  - repeat constructor. exact Hv.
  - case_decide; constructor; auto.
Qed.
End Dict.

Lemma date_of_to_d (s : pystr) (d : date) : date_of s = Some d <-> to_d s = Ret d.
Proof. unfold date_of. destruct (to_d s); split; congruence. Qed.

Lemma to_d_valid (s : pystr) (d : date) : to_d s = Ret d -> valid_date d = true.
Proof.
  unfold to_d. destruct (re_dbY s) as [|[d' [|? ?]] l]; try discriminate.
  destruct (valid_date d') eqn:E; [|discriminate]. intros [= <-]. exact E.
Qed.

Lemma well_dated_inv (s : pystr) :
  well_dated s = true -> exists d, to_d s = Ret d /\ printable d /\ strftime d = s.
Proof.
  unfold well_dated. destruct (date_of s) as [d|] eqn:E; [|discriminate].
  intros [Hy Hs]%andb_prop. apply bool_decide_eq_true in Hs.
  apply date_of_to_d in E. exists d. repeat split; auto.
  - eapply to_d_valid, E.
  - lia.
Qed.

Lemma printable_to_d (d : date) : printable d -> to_d (strftime d) = Ret d.
Proof. intros [Hv Hy]. apply to_d_strftime; assumption. Qed.

Lemma fold_result_Ret {S X} (f : S -> X -> result S) (g : S -> X -> S) (l : list X) :
  Forall (fun x => forall s, f s x = Ret (g s x)) l ->
  forall s, fold_result f l s = Ret (fold_left g l s).
Proof.
  induction 1 as [|x t Hx _ IH]; intros s; simpl; [reflexivity|].
  rewrite Hx. simpl. apply IH.
Qed.

Lemma fold_left_inv {S X} (P : S -> Prop) (g : S -> X -> S) (l : list X) :
  (forall s x, x ∈ l -> P s -> P (g s x)) -> forall s, P s -> P (fold_left g l s).
Proof.
  induction l as [|x t IH]; simpl; intros Hg s Hs; [exact Hs|].
  apply IH.
  - intros s' x' Hin. apply Hg. right. exact Hin.
  - apply Hg; [left|exact Hs].
Qed.

Lemma the_date_well (s : pystr) :
  well_dated s = true -> to_d s = Ret (the_date s) /\ printable (the_date s)
                         /\ date_of s = Some (the_date s).
Proof.
  intros (d & Hd & Hp & _)%well_dated_inv.
  unfold the_date. rewrite (proj2 (date_of_to_d s d) Hd). simpl. auto.
Qed.

Section MergeFacts.
Context `{PyLib}.

Lemma merge_latest_Ret (pdf_rows : list pdf_row) (fresh_rows : list row) :
  forallb (fun r => well_dated (pr_deadline r)) pdf_rows = true ->
  forallb (fun r => well_dated (deadline r)) fresh_rows = true ->
  merge_latest pdf_rows fresh_rows = Ret (final_state pdf_rows fresh_rows).
Proof.
  intros Hp Hf. unfold merge_latest, final_state.
  rewrite (fold_result_Ret seed_step seed_pure).
  - simpl. apply (fold_result_Ret overlay_step overlay_pure).
    apply Forall_forall. intros r Hr st.
    rewrite forallb_forall in Hf. apply list_elem_of_In in Hr.
    destruct (the_date_well _ (Hf r Hr)) as (Hd & _).
    unfold overlay_step. rewrite Hd. reflexivity.
  - apply Forall_forall. intros r Hr st.
    rewrite forallb_forall in Hp. apply list_elem_of_In in Hr.
    destruct (the_date_well _ (Hp r Hr)) as (Hd & _).
    unfold seed_step. rewrite Hd. reflexivity.
Qed.
End MergeFacts.

Lemma StronglySorted_map_impl {A B} (R : A -> A -> Prop) (R' : B -> B -> Prop)
    (f : A -> B) (l : list A) :
  (forall a b, a ∈ l -> b ∈ l -> R a b -> R' (f a) (f b)) ->
  StronglySorted R l -> StronglySorted R' (map f l).
Proof.
  intros HR. induction 1 as [|x t Hs IH Hx]; simpl; constructor.
  - apply IH. intros a b Ha Hb. apply HR; right; assumption.
  - apply Forall_forall. intros y Hy.
    apply list_elem_of_In, in_map_iff in Hy as (z & <- & Hz).
    apply list_elem_of_In in Hz. apply HR; [left|right; exact Hz|].
    rewrite Forall_forall in Hx. apply Hx, Hz.
Qed.

Lemma find_unique {A} (f : A -> pystr) (c : pystr) (l : list A) (x : A) :
  NoDup (map f l) -> x ∈ l -> f x = c ->
  snd <$> list_find (fun r => f r = c) l = Some x.
Proof.
  induction l as [|y t IH]; simpl; intros Hnd Hin Hc.
  - inversion Hin.
  - apply NoDup_cons in Hnd as [Hy Hnd]. apply elem_of_cons in Hin as [->|Hin].
    + rewrite decide_True by exact Hc. reflexivity.
    + rewrite decide_False.
      * specialize (IH Hnd Hin Hc).
        destruct (list_find (fun r => f r = c) t) as [[i z]|]; simpl in *; congruence.
      * intros Hyc. apply Hy. rewrite Hyc, <- Hc. apply (list_elem_of_fmap_2 f _ _ Hin).
Qed.

Lemma find_absent {A} (f : A -> pystr) (c : pystr) (l : list A) :
  (forall x, x ∈ l -> f x <> c) -> snd <$> list_find (fun r => f r = c) l = None.
Proof.
  induction l as [|y t IH]; simpl; intros Hl; [reflexivity|].
  rewrite decide_False by (apply Hl; left).
  rewrite <- IH by (intros x Hx; apply Hl; right; exact Hx).
  destruct (list_find (fun r => f r = c) t) as [[i z]|]; reflexivity.
Qed.

Section MergeFacts2.
Context `{PyLib}.

Lemma seed_lookup (c : pystr) (rows : list pdf_row) (acc : list (pystr * date)) :
  forallb (fun r => well_dated (pr_deadline r)) rows = true ->
  dict_get c (fold_left seed_pure rows acc)
  = match last (pdf_dates c rows) with
    | Some d => Some d
    | None => dict_get c acc
    end.
Proof.
  revert acc. induction rows as [|r t IH]; intros acc Hw; simpl in *; [reflexivity|].
  apply andb_prop in Hw as [Hr Ht]. rewrite (IH _ Ht).
  destruct (the_date_well _ Hr) as (_ & _ & Hd).
  unfold seed_pure at 1. rewrite dict_get_set. unfold pdf_dates. simpl.
  fold (pdf_dates c t). case_decide as Hc; case_decide as Hc'; try congruence.
  rewrite Hd. simpl. rewrite last_cons. destruct (last (pdf_dates c t)); reflexivity.
Qed.

Lemma overlay_step_lookup (c : pystr) (st : list (pystr * date) * gmap pystr float) (r : row) :
  dict_get c (fst (overlay_pure st r))
  = if decide (code r = c) then override (dict_get c (fst st)) (the_date (deadline r))
    else dict_get c (fst st).
Proof.
  unfold overlay_pure. simpl. case_decide as Hc.
  - subst c. unfold override. destruct (dict_get (code r) (fst st)) as [cur|] eqn:E.
    + destruct (date_ltb cur (the_date (deadline r))).
      * rewrite dict_get_set, decide_True; reflexivity.
      * exact E.
    + rewrite dict_get_set, decide_True; reflexivity.
  - destruct (dict_get (code r) (fst st)) as [cur|].
    + destruct (date_ltb cur (the_date (deadline r))); [|reflexivity].
      rewrite dict_get_set, decide_False; congruence.
    + rewrite dict_get_set, decide_False; congruence.
Qed.

Lemma overlay_lookup (c : pystr) (rows : list row) (st : list (pystr * date) * gmap pystr float) :
  forallb (fun r => well_dated (deadline r)) rows = true ->
  dict_get c (fst (fold_left overlay_pure rows st))
  = fold_left override (api_dates c rows) (dict_get c (fst st)).
Proof.
  revert st. induction rows as [|r t IH]; intros st Hw; simpl in *; [reflexivity|].
  apply andb_prop in Hw as [Hr Ht]. rewrite (IH _ Ht), overlay_step_lookup.
  destruct (the_date_well _ Hr) as (_ & _ & Hd).
  unfold api_dates. simpl. fold (api_dates c t).
  case_decide; [|reflexivity]. rewrite Hd. reflexivity.
Qed.

Lemma final_lookup (pdf_rows : list pdf_row) (fresh_rows : list row) (c : pystr) :
  forallb (fun r => well_dated (pr_deadline r)) pdf_rows = true ->
  forallb (fun r => well_dated (deadline r)) fresh_rows = true ->
  dict_get c (fst (final_state pdf_rows fresh_rows)) = rule_deadline pdf_rows fresh_rows c.
Proof.
  intros Hp Hf. unfold final_state, rule_deadline.
  rewrite (overlay_lookup _ _ _ Hf). simpl. rewrite (seed_lookup _ _ _ Hp). simpl.
  destruct (last (pdf_dates c pdf_rows)); reflexivity.
Qed.

Lemma seed_pure_good (acc : list (pystr * date)) (r : pdf_row) :
  well_dated (pr_deadline r) = true -> good_dict acc -> good_dict (seed_pure acc r).
Proof.
  intros Hr [Hnd Hall]. destruct (the_date_well _ Hr) as (_ & Hp & _). split.
  - apply dict_set_NoDup, Hnd.
  - apply (dict_set_Forall printable); assumption.
Qed.

Lemma overlay_pure_good (st : list (pystr * date) * gmap pystr float) (r : row) :
  well_dated (deadline r) = true -> good_dict (fst st) -> good_dict (fst (overlay_pure st r)).
Proof.
  intros Hr [Hnd Hall]. destruct (the_date_well _ Hr) as (_ & Hp & _).
  assert (good_dict (dict_set (code r) (the_date (deadline r)) (fst st))) as Hg.
  { split; [apply dict_set_NoDup, Hnd|apply (dict_set_Forall printable); assumption]. }
  unfold overlay_pure. simpl. destruct (dict_get (code r) (fst st)) as [cur|]; [|exact Hg].
  destruct (date_ltb cur (the_date (deadline r))); [exact Hg|split; assumption].
Qed.

Lemma seed_keys (c : pystr) (rows : list pdf_row) (acc : list (pystr * date)) :
  c ∈ map fst (fold_left seed_pure rows acc) <-> c ∈ map pr_code rows \/ c ∈ map fst acc.
Proof.
  revert acc. induction rows as [|r t IH]; intros acc; simpl.
  - rewrite elem_of_nil. tauto.
  - rewrite IH. unfold seed_pure at 1. rewrite dict_set_keys, elem_of_cons. tauto.
Qed.

Lemma overlay_step_keys (c : pystr) (st : list (pystr * date) * gmap pystr float) (r : row) :
  c ∈ map fst (fst (overlay_pure st r)) <-> c = code r \/ c ∈ map fst (fst st).
Proof.
  unfold overlay_pure. simpl.
  destruct (dict_get (code r) (fst st)) as [cur|] eqn:E.
  - assert (code r ∈ map fst (fst st)) as Hin.
    { apply dict_get_Some in E. apply (list_elem_of_fmap_2 fst _ _ E). }
    destruct (date_ltb cur (the_date (deadline r))).
    + rewrite dict_set_keys. tauto.
    + split; [tauto|]. intros [->|Hc]; assumption.
  - rewrite dict_set_keys. tauto.
Qed.

Lemma overlay_keys (c : pystr) (rows : list row) (st : list (pystr * date) * gmap pystr float) :
  c ∈ map fst (fst (fold_left overlay_pure rows st))
  <-> c ∈ map code rows \/ c ∈ map fst (fst st).
Proof.
  revert st. induction rows as [|r t IH]; intros st; simpl.
  - rewrite elem_of_nil. tauto.
  - rewrite IH, overlay_step_keys, elem_of_cons. tauto.
Qed.

Lemma final_keys (pdf_rows : list pdf_row) (fresh_rows : list row) (c : pystr) :
  c ∈ map fst (fst (final_state pdf_rows fresh_rows))
  <-> c ∈ map pr_code pdf_rows \/ c ∈ map code fresh_rows.
Proof.
  unfold final_state. rewrite overlay_keys. simpl. rewrite seed_keys. simpl.
  rewrite elem_of_nil. tauto.
Qed.

Lemma final_good (pdf_rows : list pdf_row) (fresh_rows : list row) :
  forallb (fun r => well_dated (pr_deadline r)) pdf_rows = true ->
  forallb (fun r => well_dated (deadline r)) fresh_rows = true ->
  good_dict (fst (final_state pdf_rows fresh_rows)).
Proof.
  intros Hp Hf. unfold final_state.
  rewrite forallb_forall in Hp. rewrite forallb_forall in Hf.
  apply (fold_left_inv (fun st => good_dict (fst st))).
  - intros st r Hr. apply overlay_pure_good, Hf, list_elem_of_In, Hr.
  - simpl. apply (fold_left_inv good_dict).
    + intros acc r Hr. apply seed_pure_good, Hp, list_elem_of_In, Hr.
    + split; simpl; constructor.
Qed.
End MergeFacts2.

Lemma combine_map_l {A B} (l : list A) (f : A -> B) :
  combine (map f l) l = map (fun x => (f x, x)) l.
Proof. induction l as [|x t IH]; simpl; congruence. Qed.

Section MergeFacts3.
Context `{PyLib}.

Lemma build_merged_dates (w : world) (latest : list (pystr * date)) (budgets : gmap pystr float) :
  Forall (fun kv => printable (snd kv)) latest ->
  Forall (fun x => to_d (mr_deadline x) = Ret (the_date (mr_deadline x)))
    (build_merged w latest budgets).
Proof.
  intros Hall. unfold build_merged. apply Forall_forall. intros x Hx.
  apply list_elem_of_In, in_map_iff in Hx as (kv & <- & Hkv). simpl.
  rewrite Forall_forall in Hall. apply list_elem_of_In in Hkv.
  pose proof (printable_to_d _ (Hall kv Hkv)) as Hd.
  unfold the_date, date_of. rewrite Hd. reflexivity.
Qed.

Lemma sort_merged_Ret (w : world) (st : list (pystr * date) * gmap pystr float) :
  Forall (fun kv => printable (snd kv)) (fst st) ->
  sort_merged (build_merged w (fst st) (snd st)) = Ret (merged_of w st).
Proof.
  intros Hall. unfold sort_merged, merged_of.
  rewrite (map_result_Ret _ (fun x => the_date (mr_deadline x))) by (apply build_merged_dates, Hall).
  simpl. rewrite combine_map_l. reflexivity.
Qed.

Lemma merge_Ret (w : world) (pdf_rows : list pdf_row) (fresh_rows : list row) :
  forallb (fun r => well_dated (pr_deadline r)) pdf_rows = true ->
  forallb (fun r => well_dated (deadline r)) fresh_rows = true ->
  merge w pdf_rows fresh_rows = Ret (merged_of w (final_state pdf_rows fresh_rows)).
Proof.
  intros Hp Hf. unfold merge. rewrite (merge_latest_Ret _ _ Hp Hf). simpl.
  apply sort_merged_Ret. apply (final_good _ _ Hp Hf).
Qed.

Lemma merged_of_perm (w : world) (st : list (pystr * date) * gmap pystr float) :
  Permutation (build_merged w (fst st) (snd st)) (merged_of w st).
Proof.
  unfold merged_of. cbv zeta.
  set (m := build_merged w (fst st) (snd st)).
  rewrite <- (sort_by_perm fst). rewrite map_map. simpl. rewrite map_id. reflexivity.
Qed.

Lemma merged_of_codes (w : world) (st : list (pystr * date) * gmap pystr float) :
  Permutation (map fst (fst st)) (map mr_code (merged_of w st)).
Proof.
  rewrite <- (merged_of_perm w st). unfold build_merged. rewrite map_map. simpl. reflexivity.
Qed.

Lemma merged_of_sorted (w : world) (st : list (pystr * date) * gmap pystr float) :
  Forall (fun kv => printable (snd kv)) (fst st) ->
  StronglySorted deadline_le (merged_of w st).
Proof.
  intros Hall. unfold merged_of. cbv zeta.
  set (m := build_merged w (fst st) (snd st)).
  pose proof (build_merged_dates w _ (snd st) Hall) as Hd. fold m in Hd.
  apply (StronglySorted_map_impl (key_le fst)); [|apply sort_by_sorted].
  intros [ka a] [kb b] Ha Hb Hab.
  assert (forall k x, (k, x) ∈ sort_by fst (map (fun x => (the_date (mr_deadline x), x)) m) ->
                      to_d (mr_deadline x) = Ret k) as Hk.
  { intros k x Hin. rewrite <- (sort_by_perm fst) in Hin.
    apply list_elem_of_In, in_map_iff in Hin as (y & [= <- <-] & Hy).
    rewrite Forall_forall in Hd. apply Hd, list_elem_of_In, Hy. }
  exists ka, kb. simpl. repeat split; [apply Hk, Ha|apply Hk, Hb|exact Hab].
Qed.

Lemma merged_of_for (w : world) (st : list (pystr * date) * gmap pystr float) (c : pystr) :
  NoDup (map fst (fst st)) ->
  mr_deadline <$> merged_for c (merged_of w st) = strftime <$> dict_get c (fst st).
Proof.
  intros Hnd. unfold merged_for.
  destruct (dict_get c (fst st)) as [d|] eqn:E; simpl.
  - set (x := {| mr_code := c; mr_deadline := strftime d;
                 mr_status := status_of w d; mr_budget := snd st !! c |}).
    rewrite (find_unique mr_code c _ x); [reflexivity| | |reflexivity].
    + rewrite <- merged_of_codes. exact Hnd.
    + rewrite <- merged_of_perm. unfold build_merged.
      apply dict_get_Some in E.
      apply (list_elem_of_fmap_2 (fun cd => {| mr_code := fst cd; mr_deadline := strftime (snd cd);
               mr_status := status_of w (snd cd); mr_budget := snd st !! fst cd |}) _ _ E).
  - rewrite find_absent; [reflexivity|].
    intros x Hx Hc. apply dict_get_None in E. apply E.
    rewrite merged_of_codes. rewrite <- Hc. apply (list_elem_of_fmap_2 mr_code _ _ Hx).
Qed.
End MergeFacts3.

(** Claim C1 (merge override rule). For rows dated as the pipeline writes
    them, the merge returns, and for every programme code the deadline of
    its merged record is the one the override rule gives: the PDF deadline
    seeded for the code, replaced by an API deadline of the code exactly
    when no deadline is recorded for the code or the API deadline is
    strictly later than the recorded one ([override]); a code no input
    mentions has no record. In particular, when the PDF rows give
    2025-01-10 for a code and the API gives 2025-02-01, the merged record of
    the code carries "01 Feb 2025". *)
Theorem merge_override_rule `{PyLib} (w : world) (pdf_rows : list pdf_row)
    (fresh_rows : list row) :
  forallb (fun r => well_dated (pr_deadline r)) pdf_rows = true ->
  forallb (fun r => well_dated (deadline r)) fresh_rows = true ->
  exists merged,
    merge w pdf_rows fresh_rows = Ret merged
    /\ (forall c, mr_deadline <$> merged_for c merged
                  = strftime <$> rule_deadline pdf_rows fresh_rows c)
    /\ (forall x, last (pdf_dates x pdf_rows) = Some (Date 2025 1 10) ->
                  api_dates x fresh_rows = [Date 2025 2 1] ->
                  mr_deadline <$> merged_for x merged = Some (lit "01 Feb 2025")).
Proof.
  intros Hp Hf. exists (merged_of w (final_state pdf_rows fresh_rows)).
  assert (forall c, mr_deadline <$> merged_for c (merged_of w (final_state pdf_rows fresh_rows))
                    = strftime <$> rule_deadline pdf_rows fresh_rows c) as Hrule.
  { intros c. rewrite merged_of_for by apply (final_good _ _ Hp Hf).
    rewrite (final_lookup _ _ _ Hp Hf). reflexivity. }
  split; [apply merge_Ret; assumption|]. split; [exact Hrule|].
  intros x Hx Ha. rewrite Hrule. unfold rule_deadline. rewrite Hx, Ha. reflexivity.
Qed.

Lemma merge_override_rule_witness :
  let w : world (H := Ref.lib) :=
    {| TODAY := Date 2025 1 20; http_get := fun _ => TransportError; pdf_dir := [] |} in
  let pdf_rows := [PdfRow (lit "X") (lit "10 Jan 2025")] in
  let fresh_rows := [Row (lit "X") (lit "Call X") (lit "01 Feb 2025") OPEN None] in
  forallb (fun r => well_dated (pr_deadline r)) pdf_rows = true
  /\ forallb (fun r => well_dated (deadline r)) fresh_rows = true
  /\ exists merged,
       merge w pdf_rows fresh_rows = Ret merged
       /\ mr_deadline <$> merged_for (lit "X") merged = Some (lit "01 Feb 2025").
Proof.
  intros w pdf_rows fresh_rows.
  assert (forallb (fun r => well_dated (pr_deadline r)) pdf_rows = true) as Hp by reflexivity.
  assert (forallb (fun r => well_dated (deadline r)) fresh_rows = true) as Hf by reflexivity.
  split; [exact Hp|]. split; [exact Hf|].
  destruct (merge_override_rule w pdf_rows fresh_rows Hp Hf) as (merged & Hm & _ & Hx).
  exists merged. split; [exact Hm|]. apply Hx; reflexivity.
Defined.

(** Claim C2. For rows dated as the pipeline writes them, the merge
    returns a list sorted ascending by the date of the deadline, with no
    code twice, whose codes are exactly the codes of the PDF-mined
    candidates and of the API-fetched records. *)
Theorem merged_sorted_one_per_code `{PyLib} (w : world) (pdf_rows : list pdf_row)
    (fresh_rows : list row) :
  forallb (fun r => well_dated (pr_deadline r)) pdf_rows = true ->
  forallb (fun r => well_dated (deadline r)) fresh_rows = true ->
  exists merged,
    merge w pdf_rows fresh_rows = Ret merged
    /\ StronglySorted deadline_le merged
    /\ NoDup (map mr_code merged)
    /\ (forall c, c ∈ map mr_code merged <-> c ∈ map pr_code pdf_rows \/ c ∈ map code fresh_rows).
Proof.
  intros Hp Hf. exists (merged_of w (final_state pdf_rows fresh_rows)).
  destruct (final_good _ _ Hp Hf) as [Hnd Hall].
  split; [apply merge_Ret; assumption|]. split; [apply merged_of_sorted, Hall|]. split.
  - rewrite <- merged_of_codes. exact Hnd.
  - intros c. rewrite <- merged_of_codes. apply final_keys.
Qed.

Lemma merged_sorted_one_per_code_witness :
  let w : world (H := Ref.lib) :=
    {| TODAY := Date 2025 1 20; http_get := fun _ => TransportError; pdf_dir := [] |} in
  let pdf_rows := [PdfRow (lit "B") (lit "03 Apr 2025"); PdfRow (lit "A") (lit "10 Jan 2025")] in
  let fresh_rows := [Row (lit "C") (lit "Call C") (lit "01 Feb 2025") OPEN None;
                     Row (lit "A") (lit "Call A") (lit "05 Jan 2025") CLOSED None] in
  forallb (fun r => well_dated (pr_deadline r)) pdf_rows = true
  /\ forallb (fun r => well_dated (deadline r)) fresh_rows = true
  /\ exists merged,
       merge w pdf_rows fresh_rows = Ret merged
       /\ map mr_code merged = [lit "A"; lit "C"; lit "B"]
       /\ StronglySorted deadline_le merged.
Proof.
  intros w pdf_rows fresh_rows.
  assert (forallb (fun r => well_dated (pr_deadline r)) pdf_rows = true) as Hp by reflexivity.
  assert (forallb (fun r => well_dated (deadline r)) fresh_rows = true) as Hf by reflexivity.
  split; [exact Hp|]. split; [exact Hf|].
  destruct (merged_sorted_one_per_code w pdf_rows fresh_rows Hp Hf) as (merged & Hm & Hs & _).
  exists merged. split; [exact Hm|]. split; [|exact Hs].
  assert (merge w pdf_rows fresh_rows
          = Ret [MergedRow (lit "A") (lit "10 Jan 2025") CLOSED None;
                 MergedRow (lit "C") (lit "01 Feb 2025") OPEN None;
                 MergedRow (lit "B") (lit "03 Apr 2025") OPEN None]) as Hv by reflexivity.
  rewrite Hv in Hm. injection Hm as <-. reflexivity.
Defined.

(** ** Chunking and the index *)

Lemma lstrip_nil (s : pystr) : lstrip s = [] <-> blank s = true.
Proof.
  unfold blank. induction s as [|c t IH]; simpl; [tauto|].
  destruct (isspace c); simpl; [exact IH|]. split; discriminate.
Qed.

Lemma lstrip_length (s : pystr) : (length (lstrip s) <= length s)%nat.
Proof. induction s as [|c t IH]; simpl; [lia|]. destruct (isspace c); simpl; lia. Qed.

Lemma blank_rev (s : pystr) : blank (rev s) = blank s.
Proof.
  unfold blank. apply eq_true_iff_eq. rewrite !forallb_forall.
  split; intros Hs x Hx; apply Hs; [apply in_rev in Hx|apply in_rev]; assumption.
Qed.

Lemma blank_lstrip (s : pystr) : blank (lstrip s) = blank s.
Proof.
  unfold blank. induction s as [|c t IH]; simpl; [reflexivity|].
  destruct (isspace c) eqn:E; simpl; [exact IH|]. rewrite E. reflexivity.
Qed.

Lemma strip_nil (s : pystr) : strip s = [] <-> blank s = true.
Proof.
  unfold strip, rstrip. split.
  - intros Hs. apply (f_equal (@rev N)) in Hs. rewrite rev_involutive in Hs. simpl in Hs.
    apply lstrip_nil in Hs. rewrite blank_rev, blank_lstrip in Hs. exact Hs.
  - intros Hb. assert (lstrip (rev (lstrip s)) = []) as ->; [|reflexivity].
    apply lstrip_nil. rewrite blank_rev, blank_lstrip. exact Hb.
Qed.

Lemma strip_length (s : pystr) : (length (strip s) <= length s)%nat.
Proof.
  unfold strip, rstrip. rewrite length_rev.
  etransitivity; [apply lstrip_length|]. rewrite length_rev. apply lstrip_length.
Qed.

Lemma slice_window (i sz : nat) (txt : pystr) :
  slice i (i + sz) txt = firstn sz (skipn i txt).
Proof. unfold slice. f_equal. lia. Qed.

Lemma doc_windows_eq (sz : nat) (txt : pystr) :
  doc_windows sz txt
  = map (fun k => firstn sz (skipn (k * sz) txt)) (seq 0 (range_len (length txt) sz)).
Proof.
  unfold doc_windows, py_range. rewrite map_map. apply map_ext.
  intros k. apply slice_window.
Qed.

Lemma range_len_bounds (L sz : nat) :
  (0 < sz)%nat ->
  (L <= range_len L sz * sz /\ range_len L sz * sz < L + sz)%nat.
Proof.
  intros Hsz. destruct L as [|m]; simpl; [lia|].
  pose proof (Nat.div_mod_eq m sz) as Hdm.
  pose proof (Nat.mod_upper_bound m sz ltac:(lia)) as Hmod. nia.
Qed.

Lemma concat_windows (sz n : nat) (txt : pystr) :
  concat (map (fun k => firstn sz (skipn (k * sz) txt)) (seq 0 n)) = firstn (n * sz) txt.
Proof.
  induction n as [|n IH]; [reflexivity|].
  rewrite seq_S, map_app, concat_app, IH. simpl. rewrite app_nil_r.
  replace (sz + n * sz)%nat with (n * sz + sz)%nat by lia.
  rewrite <- take_take_drop. reflexivity.
Qed.

Lemma doc_windows_concat (sz : nat) (txt : pystr) :
  (0 < sz)%nat -> concat (doc_windows sz txt) = txt.
Proof.
  intros Hsz. rewrite doc_windows_eq, concat_windows.
  apply firstn_all2. apply (range_len_bounds (length txt) sz Hsz).
Qed.

Lemma doc_windows_length (sz : nat) (txt : pystr) :
  length (doc_windows sz txt) = range_len (length txt) sz.
Proof. rewrite doc_windows_eq, length_map, length_seq. reflexivity. Qed.

Lemma map_lookup {A B} (f : A -> B) (l : list A) (i : nat) :
  map f l !! i = f <$> l !! i.
Proof. revert i. induction l as [|x t IH]; intros [|i]; simpl; auto. Qed.

Lemma doc_windows_lookup (sz : nat) (txt : pystr) (k : nat) (w : pystr) :
  (0 < sz)%nat -> doc_windows sz txt !! k = Some w ->
  w = firstn sz (skipn (k * sz) txt)
  /\ (0 < length w <= sz)%nat
  /\ ((S k < length (doc_windows sz txt))%nat -> length w = sz).
Proof.
  intros Hsz Hk. pose proof (lookup_lt_Some _ _ _ Hk) as Hlt.
  rewrite doc_windows_length in *. rewrite doc_windows_eq in Hk.
  rewrite map_lookup, lookup_seq_lt in Hk by exact Hlt. simpl in Hk.
  injection Hk as <-. split; [reflexivity|].
  rewrite length_take, length_drop.
  pose proof (range_len_bounds (length txt) sz Hsz) as [Hlo Hhi]. nia.
Qed.

Section IndexFacts.
Context `{PyLib}.

Lemma add_chunk_blank (src : pystr) (st : index_state) (w : pystr) :
  blank w = true -> add_chunk src st w = st.
Proof. intros Hb. unfold add_chunk. apply strip_nil in Hb. rewrite Hb. reflexivity. Qed.

Lemma add_chunk_nonblank (src : pystr) (st : index_state) (w : pystr) :
  blank w = false ->
  add_chunk src st w
  = {| idx := idx st ++ [embed_text (strip w)];
       meta := meta st ++ [{| m_text := strip w; m_source := src |}] |}.
Proof.
  intros Hb. unfold add_chunk. destruct (strip w) as [|c t] eqn:E; [|reflexivity].
  apply strip_nil in E. congruence.
Qed.

Lemma fold_add_chunk (src : pystr) (ws : list pystr) (st : index_state) :
  fold_left (add_chunk src) ws st
  = {| idx := idx st ++ map (fun m => embed_text (m_text m)) (new_meta src ws);
       meta := meta st ++ new_meta src ws |}.
Proof.
  revert st. induction ws as [|w t IH]; intros st; simpl.
  - unfold new_meta. simpl. rewrite !app_nil_r. destruct st; reflexivity.
  - rewrite IH. unfold new_meta. rewrite filter_cons.
    destruct (blank w) eqn:E.
    + rewrite decide_False by discriminate. rewrite add_chunk_blank by exact E. reflexivity.
    + rewrite decide_True by reflexivity. rewrite add_chunk_nonblank by exact E.
      simpl. rewrite <- !app_assoc. reflexivity.
Qed.

Lemma parallel_map (st : index_state) :
  idx st = map (fun m => embed_text (m_text m)) (meta st) -> parallel st.
Proof.
  intros Hst. unfold parallel. rewrite Hst, length_map. split; [reflexivity|].
  intros i m Hm. rewrite map_lookup, Hm. reflexivity.
Qed.

Lemma add_chunk_in_step (src : pystr) (st : index_state) (w : pystr) :
  in_step st -> in_step (add_chunk src st w).
Proof.
  unfold in_step. intros Hst. destruct (blank w) eqn:E.
  - rewrite add_chunk_blank by exact E. exact Hst.
  - rewrite add_chunk_nonblank by exact E. simpl. rewrite map_app, Hst. reflexivity.
Qed.

Lemma scan_left_inv {S X} (P : S -> Prop) (f : S -> X -> S) (l : list X) :
  (forall s x, P s -> P (f s x)) -> forall s, P s -> Forall P (scan_left f l s).
Proof.
  intros Hf. induction l as [|x t IH]; intros s Hs; simpl; constructor; auto.
Qed.

Lemma scan_left_last {S X} (f : S -> X -> S) (l : list X) (s : S) :
  fold_left f l s = default s (last (scan_left f l s)).
Proof.
  revert s. induction l as [|x t IH]; intros s; [reflexivity|].
  simpl fold_left. rewrite IH. simpl scan_left. rewrite last_cons.
  destruct (last (scan_left f t (f s x))); reflexivity.
Qed.

Lemma pdf_step_index (st st' : pdf_state) (pdf : pdf_file) :
  pdf_step st pdf = Ret st' ->
  index st' = index_doc CHUNK_SZ (pdf_name pdf) (pdf_text pdf) (index st).
Proof.
  unfold pdf_step. intros (ds & _ & [= <-])%bind_Ret. reflexivity.
Qed.

Lemma index_doc_turns (src : pystr) (ws : list pystr) (st : index_state) :
  fold_left (add_chunk src) ws st
  = fold_left (fun s t => add_chunk (fst t) s (snd t)) (map (fun w => (src, w)) ws) st.
Proof. revert st. induction ws as [|w t IH]; intros st; simpl; auto. Qed.

Lemma pdf_loop_index (docs : list pdf_file) (st st' : pdf_state) :
  fold_result pdf_step docs st = Ret st' ->
  index st' = fold_left (fun s t => add_chunk (fst t) s (snd t)) (turns docs) (index st).
Proof.
  revert st. induction docs as [|pdf t IH]; intros st; simpl.
  - intros [= <-]. reflexivity.
  - intros (s1 & Hstep & Hrest)%bind_Ret.
    rewrite (IH _ Hrest), (pdf_step_index _ _ _ Hstep).
    unfold turns. simpl. rewrite fold_left_app. f_equal. apply index_doc_turns.
Qed.
End IndexFacts.

(** Claim C3 (index/metadata parallelism). At the start and after every
    turn of the chunking loop, over any list of documents, the index holds
    as many vectors as the metadata list has records, and the vector at
    position [i] is the embedding of the text of the record at position
    [i]; the index and the metadata a run leaves are the last of these
    states. *)
Theorem index_meta_parallel `{PyLib} (docs : list pdf_file) :
  Forall parallel (index_init :: index_trace docs)
  /\ (forall w : world,
        match pdf_loop w with
        | Ret st => parallel (index st)
                    /\ index st = default index_init (last (index_trace (pdf_dir w)))
        | Raise _ => True
        end).
Proof.
  assert (forall ds, Forall in_step (index_init :: index_trace ds)) as Hall.
  { intros ds. constructor; [reflexivity|].
    apply scan_left_inv; [|reflexivity].
    intros s t. apply add_chunk_in_step. }
  split.
  - eapply Forall_impl; [apply Hall|]. intros st. apply parallel_map.
  - intros w. unfold pdf_loop.
    destruct (fold_result pdf_step (pdf_dir w) pdf_init) as [st|e] eqn:E; [|exact I].
    apply pdf_loop_index in E. simpl in E. fold index_init in E.
    rewrite scan_left_last in E. fold (index_trace (pdf_dir w)) in E. split; [|exact E].
    apply parallel_map. rewrite E.
    specialize (Hall (pdf_dir w)). rewrite Forall_forall in Hall. apply Hall.
    destruct (last (index_trace (pdf_dir w))) as [s|] eqn:El; simpl; [|left].
    right. apply last_Some_elem_of, El.
Qed.

Lemma filter_split_length {A} (P : A -> bool) (l : list A) :
  (length (filter (fun x => P x = false) l) + length (filter (fun x => P x = true) l)
   = length l)%nat.
Proof.
  induction l as [|x t IH]; [reflexivity|].
  rewrite !filter_cons. destruct (P x).
  - rewrite decide_False by discriminate. rewrite decide_True by reflexivity. simpl. lia.
  - rewrite decide_True by reflexivity. rewrite decide_False by discriminate. simpl. lia.
Qed.

(** Claim C4 (chunking postcondition). For a document text of length [L]
    and a chunk size [sz > 0], the slices the loop visits are consecutive
    and cover the text, each has between 1 and [sz] characters and each but
    the last exactly [sz]; their number [k] is the ceiling of [L / sz]
    ([L <= k * sz < L + sz]); the loop appends one vector and one record
    for each slice that is not white space only, so the number appended is
    [k] minus the number of blank slices; every text appended is non-empty,
    at most [sz] characters long, and recorded with its source. *)
Theorem chunking_postcondition `{PyLib} (sz : nat) (src txt : pystr) (st : index_state) :
  (0 < sz)%nat ->
  let ws := doc_windows sz txt in
  let st' := index_doc sz src txt st in
  concat ws = txt
  /\ (forall k w, ws !! k = Some w ->
        (0 < length w <= sz)%nat /\ ((S k < length ws)%nat -> length w = sz))
  /\ (length txt <= length ws * sz < length txt + sz)%nat
  /\ exists new,
       meta st' = meta st ++ new
       /\ length (idx st') = (length (idx st) + length new)%nat
       /\ (length new + length (filter (fun w => blank w = true) ws) = length ws)%nat
       /\ Forall (fun m => (0 < length (m_text m) <= sz)%nat /\ m_source m = src) new.
Proof.
  intros Hsz ws st'. split; [apply doc_windows_concat, Hsz|]. split.
  { intros k w Hk. apply (doc_windows_lookup sz txt k w Hsz Hk). }
  split.
  { unfold ws. rewrite doc_windows_length. apply range_len_bounds, Hsz. }
  exists (new_meta src ws). unfold st', index_doc. fold ws. rewrite fold_add_chunk. simpl.
  split; [reflexivity|]. split; [rewrite length_app, length_map; reflexivity|]. split.
  - unfold new_meta. rewrite length_map. apply filter_split_length.
  - unfold new_meta. apply Forall_forall. intros m Hm.
    apply list_elem_of_In, in_map_iff in Hm as (w & <- & Hw). simpl.
    apply list_elem_of_In, list_elem_of_filter in Hw as [Hb Hw].
    apply list_elem_of_lookup in Hw as [k Hk].
    destruct (doc_windows_lookup sz txt k w Hsz Hk) as (_ & [_ Hle] & _).
    pose proof (strip_length w) as Hs.
    split; [|reflexivity]. split; [|lia].
    destruct (strip w) as [|c t] eqn:E; [|simpl; lia].
    apply strip_nil in E. congruence.
Qed.

Lemma chunking_postcondition_witness :
  let src := lit "a.pdf" in
  let txt := lit "call text" in
  concat (doc_windows CHUNK_SZ txt) = txt
  /\ meta (index_doc (H := Ref.lib) CHUNK_SZ src txt index_init)
     = [{| m_text := txt; m_source := src |}].
Proof.
  intros src txt.
  destruct (chunking_postcondition (H := Ref.lib) CHUNK_SZ src txt index_init ltac:(unfold CHUNK_SZ; lia))
    as (Hc & _).
  split; [exact Hc|]. vm_compute. reflexivity.
Defined.

(** ** The stub API *)

Lemma replace1_char (old new : N) (s : pystr) :
  replace1 old [new] s = map (fun c => if (c =? old)%N then new else c) s.
Proof.
  unfold replace1. induction s as [|c t IH]; simpl; [reflexivity|].
  rewrite IH. destruct (c =? old)%N; reflexivity.
Qed.

Lemma replace1_delete (old : N) (s : pystr) :
  replace1 old [] s = filter (fun c => c <> old) s.
Proof.
  unfold replace1. induction s as [|c t IH]; [reflexivity|].
  rewrite filter_cons. simpl. rewrite IH. destruct (N.eqb_spec c old).
  - rewrite decide_False by tauto. reflexivity.
  - rewrite decide_True by assumption. reflexivity.
Qed.

Lemma normalize_code_map (s : pystr) :
  normalize_code s = map (fun c => if ((c =? 47) || (c =? 92))%N then 95%N else c) s.
Proof.
  unfold normalize_code. change (lit "_") with [95%N].
  rewrite !replace1_char, map_map. apply map_ext. intros c.
  destruct (N.eqb_spec c 47) as [->|H47]; simpl; [reflexivity|reflexivity].
Qed.

Lemma normalize_code_clean (s : pystr) :
  (47%N ∉ normalize_code s) /\ (92%N ∉ normalize_code s).
Proof.
  rewrite normalize_code_map. split; intros Hin;
    apply list_elem_of_In, in_map_iff in Hin as (c & Hc & _);
    destruct (N.eqb_spec c 47), (N.eqb_spec c 92); simpl in Hc; lia.
Qed.

Lemma clean_number_filter (s : pystr) :
  clean_number s = filter (fun c => c <> 32%N /\ c <> 44%N) s.
Proof.
  unfold clean_number. rewrite !replace1_delete.
  induction s as [|c t IH]; [reflexivity|].
  rewrite !filter_cons. destruct (decide (c <> 32%N)) as [H32|H32].
  - rewrite filter_cons. destruct (decide (c <> 44%N)) as [H44|H44].
    + rewrite decide_True by tauto. rewrite <- IH. reflexivity.
    + rewrite decide_False by tauto. exact IH.
  - rewrite decide_False by tauto. exact IH.
Qed.

Section ScrapeFacts.
Context `{PyLib}.




Lemma scrape_item_Some (w : world) (it : item) (r : row) :
  scrape_item w it = Ret (Some r) ->
  exists raw d, raw_code it = Ret raw /\ raw <> [] /\ item_deadline it = Some d
                /\ THIS_YEAR w <= year d
                /\ code r = normalize_code raw /\ deadline r = strftime d
                /\ row_status r = status_of w d /\ budget r = resolve_budget w it.
Proof.
  unfold scrape_item. destruct (raw_code it) as [raw|e]; simpl; [|discriminate].
  case_bool_decide as Hraw; [discriminate|].
  destruct (item_deadline it) as [d|]; [|discriminate].
  destruct (Z.ltb_spec (year d) (THIS_YEAR w)) as [Hlt|Hge]; [discriminate|].
  destruct (str_strip _) as [ttl|e]; simpl; [|discriminate].
  intros [= <-]. exists raw, d. simpl. repeat split; auto.
Qed.

End ScrapeFacts.



(** The loop on an item whose code is a number: it raises, whatever the
    deadline. *)
Example stub_item_number_code :
  let w : world := {| TODAY := Date 2026 11 3;
                      http_get := fun _ => TransportError;
                      pdf_dir := [] |} in
  let it : item := <[lit "Code" := JInt 7]>
                   (<[lit "deadline_date" := JStr (lit "TBA")]> ∅) in
  scrape_item (H := Ref.lib) w it = Raise AttributeError.
Proof. reflexivity. Qed.

(** Claim C6 as stated fails for a status outside 2xx that is neither 4xx
    nor 5xx: [raise_for_status] lets a 300 response through, and with a
    JSON content type its records are returned. *)
Lemma fetch_degrades_counterexample :
  let body : json (float (PyLib := Ref.lib)) :=
    JArr [JObj (<[lit "Code" := JStr (lit "PRIMA")]>
               (<[lit "EndDate" := JStr (lit "2026-06-01")]> ∅))] in
  let r : response := {| status_code := 300;
                         content_type := Some (lit "application/json");
                         r_json := Some body; r_xml := None |} in
  let w : world := {| TODAY := Date 2026 1 3;
                      http_get := fun _ => Received r;
                      pdf_dir := [] |} in
  http_get w API_URL = Received r
  /\ ~ (200 <= status_code r < 300)
  /\ exists row, scrape_api w = (Ret [row], Some [row]).
Proof.
  intros body r w. split; [reflexivity|]. split; [simpl; lia|].
  eexists. reflexivity.
Qed.

(** Claim C6, amended. On a transport failure, a 4xx or 5xx status, or a
    response whose [Content-Type] does not contain [application/json],
    [scrape_api] does not raise: it writes the empty list to [FRESH_JSON]
    and returns the empty list, and the run goes on with no API rows. *)
Theorem fetch_degrades `{PyLib} (w : world) :
  (http_get w API_URL = TransportError
   \/ exists r, http_get w API_URL = Received r
                /\ (400 <= status_code r < 600
                    \/ contains (lit "application/json") (default [] (content_type r)) = false)) ->
  scrape_api w = (Ret [], Some [])
  /\ ingest w = (st ← pdf_loop w;
                 merged ← merge w (pdf_rows st) [];
                 Ret {| FRESH_JSON := []; PDF_JSON := pdf_rows st;
                        INDEX_F := idx (index st); META_F := meta (index st);
                        MERGED_JSON := merged |}).
Proof.
  intros Hfail.
  assert (scrape_api w = (Ret [], Some [])) as Hs.
  { unfold scrape_api, requests_get.
    destruct Hfail as [->|(r & -> & [Hst|Hct])]; simpl; [reflexivity| |].
    - unfold raise_for_status.
      destruct (Z.leb_spec 400 (status_code r)), (Z.ltb_spec (status_code r) 600); try lia.
      reflexivity.
    - destruct (raise_for_status r); simpl; [|reflexivity]. rewrite Hct. reflexivity. }
  split; [exact Hs|]. unfold ingest. rewrite Hs. reflexivity.
Qed.

Lemma fetch_degrades_witness :
  let w : world (H := Ref.lib) :=
    {| TODAY := Date 2026 1 3; http_get := fun _ => TransportError; pdf_dir := [] |} in
  http_get w API_URL = TransportError
  /\ scrape_api w = (Ret [], Some [])
  /\ ingest w = Ret {| FRESH_JSON := []; PDF_JSON := []; INDEX_F := []; META_F := [];
                       MERGED_JSON := [] |}.
Proof.
  intros w. split; [reflexivity|].
  destruct (fetch_degrades w (or_introl eq_refl)) as [Hs Hi].
  split; [exact Hs|]. rewrite Hi. reflexivity.
Defined.

Section BudgetFacts.
Context `{PyLib}.

Lemma fetch_budget_Raise (w : world) (id : pystr) (e : exn) :
  fetch_budget_body w id = Raise e -> fetch_budget w id = None.
Proof. unfold fetch_budget. intros ->. reflexivity. Qed.

Lemma get_delete_Budget (it : item) (k : string) :
  lit k <> lit "Budget" -> get (delete (lit "Budget") it) k = get it k.
Proof. intros Hk. unfold get. rewrite lookup_delete_ne by congruence. reflexivity. Qed.

Lemma stub_budget_delete (it : item) : stub_budget (delete (lit "Budget") it) = None.
Proof. unfold stub_budget. rewrite lookup_delete_eq. reflexivity. Qed.

Lemma resolve_budget_absent (w : world) (it : item) :
  stub_budget it = None ->
  resolve_budget w it = detail_budget w it
  /\ resolve_budget w it = resolve_budget w (delete (lit "Budget") it)
  /\ scrape_item w it = scrape_item w (delete (lit "Budget") it).
Proof.
  intros Hs.
  assert (resolve_budget w it = resolve_budget w (delete (lit "Budget") it)) as Hr.
  { unfold resolve_budget. rewrite Hs, stub_budget_delete. unfold detail_budget.
    rewrite get_delete_Budget by discriminate. reflexivity. }
  split; [unfold resolve_budget; rewrite Hs; reflexivity|]. split; [exact Hr|].
  unfold scrape_item, raw_code, item_deadline. rewrite <- Hr.
  rewrite !get_delete_Budget by discriminate. reflexivity.
Qed.
End BudgetFacts.

(** Claim C7 as stated fails: the cleaning does not remove all white space.
    A tab is white space and is kept, so a budget written with a tab
    between the thousands reaches [float] unchanged and gives no budget. *)
Lemma budget_parsing_counterexample :
  ~ (forall (s : pystr) (c : N), isspace c = true -> c ∉ clean_number s)
  /\ (let s := lit "12" ++ 9%N :: lit "500.00" in
      clean_number s = s
      /\ stub_budget (H := Ref.lib) (<[lit "Budget" := JStr s]> ∅) = None).
Proof.
  split; [|split; reflexivity].
  intros Hall. apply (Hall [9%N] 9%N); [reflexivity|]. left.
Qed.

(** Claim C7, amended (budget parsing). The text handed to [float] is the
    budget string with its space characters and commas removed and nothing
    else changed, on the stub field and on the detail body alike, so
    "12,500.00" and "12 500.00" are both converted as "12500.00" and yield
    12500.0; a string [float] rejects gives no budget from that source; a
    transport failure, an error status, a body that is not XML, or any
    other exception inside [fetch_budget] gives an absent budget, and no
    exception leaves it. *)
Theorem budget_parsing `{PyLib} :
  (forall s, clean_number s = filter (fun c => c <> 32%N /\ c <> 44%N) s)
  /\ clean_number (lit "12,500.00") = lit "12500.00"
  /\ clean_number (lit "12 500.00") = lit "12500.00"
  /\ (forall (it : item) s, it !! lit "Budget" = Some (JStr s) -> s <> [] ->
        stub_budget it = float_of_str (clean_number s))
  /\ (forall (w : world) (it : item) s, it !! lit "Budget" = Some (JStr s) ->
        float_of_str (clean_number s) = None ->
        stub_budget it = None /\ resolve_budget w it = detail_budget w it)
  /\ (forall (w : world) id r root node t,
        http_get w (call_url id) = Received r -> raise_for_status r = Ret tt ->
        r_xml r = Some root -> find_desc (lit "Budget") root = Some node ->
        el_text node = Some t -> t <> [] ->
        fetch_budget w id = float_of_str (clean_number (strip t)))
  /\ (forall (w : world) id, http_get w (call_url id) = TransportError ->
        fetch_budget w id = None)
  /\ (forall (w : world) id r, http_get w (call_url id) = Received r ->
        400 <= status_code r < 600 \/ r_xml r = None ->
        fetch_budget w id = None)
  /\ (forall (w : world) id e, fetch_budget_body w id = Raise e -> fetch_budget w id = None)
  /\ (forall sep : N, sep = 44%N \/ sep = 32%N ->
        let s := lit "12" ++ sep :: lit "500.00" in
        let xml := Element (lit "Call") None [Element (lit "Budget") (Some s) []] in
        let w : world (H := Ref.lib) :=
          {| TODAY := Date 2026 1 3;
             http_get := fun _ => Received {| status_code := 200; content_type := None;
                                              r_json := None; r_xml := Some xml |};
             pdf_dir := [] |} in
        stub_budget (H := Ref.lib) (<[lit "Budget" := JStr s]> ∅) = Some (Ref.Dec 12500 0)
        /\ fetch_budget w (lit "7") = Some (Ref.Dec 12500 0)).
Proof.
  split; [apply clean_number_filter|]. do 2 (split; [reflexivity|]). split.
  { intros it s Hb Hs. unfold stub_budget. rewrite Hb. simpl.
    rewrite bool_decide_eq_false_2 by exact Hs. reflexivity. }
  split.
  { intros w it s Hb Hf.
    assert (stub_budget it = None) as Hs.
    { unfold stub_budget. rewrite Hb. simpl. case_bool_decide; [reflexivity|exact Hf]. }
    split; [exact Hs|]. unfold resolve_budget. rewrite Hs. reflexivity. }
  split.
  { intros w id r root node t Hget Hst Hxml Hfind Htext Ht.
    unfold fetch_budget, fetch_budget_body, requests_get.
    rewrite Hget. simpl. rewrite Hst. simpl. rewrite Hxml. simpl. rewrite Hfind, Htext.
    destruct t as [|c t]; [congruence|].
    destruct (float_of_str (clean_number (strip (c :: t)))); reflexivity. }
  split.
  { intros w id Hget. unfold fetch_budget, fetch_budget_body, requests_get.
    rewrite Hget. reflexivity. }
  split.
  { intros w id r Hget Hbad. unfold fetch_budget, fetch_budget_body, requests_get.
    rewrite Hget. simpl. unfold raise_for_status.
    destruct ((400 <=? status_code r) && (status_code r <? 600)) eqn:E; [reflexivity|].
    destruct Hbad as [Hst|Hxml]; [lia|]. simpl. rewrite Hxml. reflexivity. }
  split; [apply @fetch_budget_Raise|].
  intros sep [-> | ->]; split; reflexivity.
Qed.

(** Claim C10. A [Budget] field that is [None], the empty string or the
    number 0 gives no budget from the stub field, as an absent field does:
    the budget is then the one of the detail endpoint, and the whole item
    is processed as the item without the field. *)
Theorem zero_budget_as_absent `{PyLib} (w : world) (it : item) (v : json float) :
  it !! lit "Budget" = Some v ->
  v = JNull \/ v = JStr [] \/ v = JInt 0 \/ (exists f, v = JFloat f /\ float_is_zero f = true) ->
  stub_budget it = None
  /\ resolve_budget w it = detail_budget w it
  /\ (forall z, get it "Id" = JInt z -> resolve_budget w it = fetch_budget w (str_int z))
  /\ resolve_budget w it = resolve_budget w (delete (lit "Budget") it)
  /\ scrape_item w it = scrape_item w (delete (lit "Budget") it).
Proof.
  intros Hb Hv.
  assert (stub_budget it = None) as Hs.
  { unfold stub_budget. rewrite Hb.
    destruct Hv as [->|[->|[->|(f & -> & Hf)]]]; simpl; try reflexivity.
    rewrite Hf. reflexivity. }
  destruct (resolve_budget_absent w it Hs) as (Hd & Hr & Hi).
  split; [exact Hs|]. split; [exact Hd|]. split; [|split; assumption].
  intros z Hz. rewrite Hd. unfold detail_budget. rewrite Hz. reflexivity.
Qed.

Lemma zero_budget_as_absent_witness :
  let w : world (H := Ref.lib) :=
    {| TODAY := Date 2026 1 3; http_get := fun _ => TransportError; pdf_dir := [] |} in
  let it : item := <[lit "Code" := JStr (lit "PRIMA")]>
                   (<[lit "EndDate" := JStr (lit "2026-06-01")]>
                   (<[lit "Budget" := JInt 0]> ∅)) in
  it !! lit "Budget" = Some (JInt 0)
  /\ stub_budget it = None
  /\ scrape_item w it = scrape_item w (delete (lit "Budget") it).
Proof.
  intros w it.
  assert (it !! lit "Budget" = Some (JInt 0)) as Hb by reflexivity.
  split; [exact Hb|].
  destruct (zero_budget_as_absent w it (JInt 0) Hb (or_intror (or_intror (or_introl eq_refl))))
    as (Hs & _ & _ & _ & Hi).
  split; [exact Hs|exact Hi].
Defined.

(** ** The deadline miner *)

Lemma StronglySorted_strict (l : list date) :
  StronglySorted (key_le id) l -> NoDup l ->
  StronglySorted (fun a b => date_ltb a b = true) l.
Proof.
  induction 1 as [|x t Hs IH Hx]; intros Hnd; constructor.
  - apply IH. apply NoDup_cons in Hnd. tauto.
  - apply NoDup_cons in Hnd as [Hx' _]. rewrite Forall_forall in *.
    intros y Hy. specialize (Hx y Hy). unfold key_le, date_leb in Hx. simpl in Hx.
    destruct (date_ltb x y) eqn:E; [reflexivity|].
    apply negb_true_iff in Hx. pose proof (date_ltb_total _ _ E Hx). congruence.
Qed.

(** The two earliest of the distinct dates of a list. *)
Lemma earliest_two (ds : list date) :
  let c := firstn 2 (sort_by id (remove_dups ds)) in
  length c = Nat.min 2 (length (remove_dups ds))
  /\ StronglySorted (fun a b => date_ltb a b = true) c
  /\ (forall d, d ∈ c -> d ∈ ds)
  /\ (forall d e, d ∈ ds -> d ∉ c -> e ∈ c -> date_ltb e d = true).
Proof.
  intros c. set (s := sort_by id (remove_dups ds)) in *.
  assert (Permutation (remove_dups ds) s) as Hp by apply sort_by_perm.
  assert (StronglySorted (fun a b => date_ltb a b = true) s) as Hs.
  { apply StronglySorted_strict; [apply sort_by_sorted|].
    rewrite <- Hp. apply NoDup_remove_dups. }
  assert (forall d, d ∈ s <-> d ∈ ds) as Hin.
  { intros d. rewrite <- Hp. apply elem_of_remove_dups. }
  rewrite <- (take_drop 2 s) in Hs. fold c in Hs.
  split; [unfold c; rewrite length_take, (Permutation_length Hp); reflexivity|].
  split; [apply (StronglySorted_app_1_l _ c (drop 2 s)), Hs|]. split.
  - intros d Hd. apply Hin. eapply subseteq_take, Hd.
  - intros d e Hd Hnc He.
    apply (StronglySorted_app_1_elem_of (fun a b => date_ltb a b = true) c (drop 2 s));
      [exact Hs|exact He|].
    apply Hin in Hd. rewrite <- (take_drop 2 s) in Hd. apply elem_of_app in Hd as [Hd|Hd].
    + contradiction.
    + exact Hd.
Qed.






Section MinerFacts.
Context `{PyLib}.


Lemma found_Raise (txt m : pystr) :
  m ∈ date_mentions txt -> dateparser_parse m = None -> found txt = Raise AttributeError.
Proof.
  unfold found. generalize (date_mentions txt). intros l.
  induction l as [|x t IH]; intros Hin Hm; [inversion Hin|]. simpl.
  destruct (dateparser_parse x) as [d|] eqn:E; simpl; [|reflexivity].
  apply elem_of_cons in Hin as [->|Hin]; [congruence|].
  rewrite (IH Hin Hm). reflexivity.
Qed.
End MinerFacts.


(** A text with two keywords and four dates: the windows overlap, the date
    found twice counts once, and the two earliest dates are kept. *)
Example mining_example :
  let txt := lit "Submission opens 01.02.2025. Deadline: 15 March 2025 (extended to 5-6-2026); results by 1 Jan 2027." in
  date_mentions txt
  = [lit "01.02.2025"; lit "15 March 2025"; lit "5-6-2026"; lit "1 Jan 2027";
     lit "01.02.2025"; lit "15 March 2025"; lit "5-6-2026"; lit "1 Jan 2027"]
  /\ candidates (H := Ref.lib) txt = Ret [Date 2025 2 1; Date 2025 3 15].
Proof. split; reflexivity. Qed.

(** Claim C9 fails on the code: when the parser returns [None] for a
    substring that [DATE_RE] matched near a keyword, the mining step raises
    [AttributeError], the turn of the PDF loop raises, and so does the run. *)
Theorem miner_raises_on_unparsable_date `{PyLib} (txt m : pystr) :
  m ∈ date_mentions txt ->
  dateparser_parse m = None ->
  candidates txt = Raise AttributeError
  /\ (forall st pdf, pdf_text pdf = txt -> pdf_step st pdf = Raise AttributeError)
  /\ (forall (w : world) pdf rest rows, pdf_dir w = pdf :: rest -> pdf_text pdf = txt ->
        fst (scrape_api w) = Ret rows -> ingest w = Raise AttributeError).
Proof.
  intros Hin Hm.
  assert (candidates txt = Raise AttributeError) as Hc.
  { unfold candidates. rewrite (found_Raise _ _ Hin Hm). reflexivity. }
  assert (forall st pdf, pdf_text pdf = txt -> pdf_step st pdf = Raise AttributeError) as Hstep.
  { intros st pdf Ht. unfold pdf_step. rewrite Ht, Hc. reflexivity. }
  split; [exact Hc|]. split; [exact Hstep|].
  intros w pdf rest rows Hdir Ht Hs. unfold ingest, pdf_loop. rewrite Hs, Hdir. simpl.
  rewrite (Hstep _ _ Ht). reflexivity.
Qed.

Lemma miner_raises_on_unparsable_date_witness :
  let txt := lit "Deadline: 31/02/2025" in
  let w : world (H := Ref.lib) :=
    {| TODAY := Date 2026 1 3; http_get := fun _ => TransportError;
       pdf_dir := [PdfFile (lit "CALL.pdf") (lit "CALL") txt] |} in
  lit "31/02/2025" ∈ date_mentions txt
  /\ Ref.dmy_date (lit "31/02/2025") = None
  /\ candidates (H := Ref.lib) txt = Raise AttributeError
  /\ ingest w = Raise AttributeError.
Proof.
  intros txt w.
  assert (lit "31/02/2025" ∈ date_mentions txt) as Hin.
  { replace (date_mentions txt) with [lit "31/02/2025"] by (vm_compute; reflexivity). left. }
  assert (Ref.dmy_date (lit "31/02/2025") = None) as Hm by reflexivity.
  split; [exact Hin|]. split; [exact Hm|].
  destruct (miner_raises_on_unparsable_date (H := Ref.lib) txt _ Hin Hm) as (Hc & _ & Hi).
  split; [exact Hc|]. apply (Hi w _ [] [] eq_refl eq_refl). reflexivity.
Defined.

(** ** The rows of a run *)

Lemma well_dated_strftime (d : date) : printable d -> well_dated (strftime d) = true.
Proof.
  intros Hp. unfold well_dated, date_of. rewrite (printable_to_d d Hp).
  destruct Hp as [_ Hy]. apply andb_true_intro. split; [lia|].
  apply bool_decide_eq_true. reflexivity.
Qed.

(** Later wins: the deadline the rule gives to a code is one of its
    deadlines, and none of its API deadlines, nor the seeded one, is later. *)
Lemma override_fold_latest (l : list date) (cur : option date) (r : date) :
  fold_left override l cur = Some r ->
  (cur = Some r \/ r ∈ l)
  /\ (forall d, d ∈ l -> date_leb d r = true)
  /\ (forall s, cur = Some s -> date_leb s r = true).
Proof.
  revert cur. induction l as [|x t IH]; simpl; intros cur Hr.
  - subst cur. split; [left; reflexivity|]. split.
    + intros d Hd. inversion Hd.
    + intros s [= ->]. apply date_leb_refl.
  - destruct (IH _ Hr) as (Hin & Hall & Hcur).
    assert (date_leb x r = true) as Hx.
    { destruct cur as [c|]; simpl in *; [|apply Hcur; reflexivity].
      destruct (date_ltb c x) eqn:E; [apply Hcur; reflexivity|].
      eapply date_leb_trans; [|apply Hcur; reflexivity].
      unfold date_leb. rewrite E. reflexivity. }
    split; [|split].
    + destruct Hin as [Hin|Hin]; [|right; right; exact Hin].
      destruct cur as [c|]; simpl in Hin.
      * destruct (date_ltb c x); injection Hin as <-; [right; left|left; reflexivity].
      * injection Hin as <-. right. left.
    + intros d [->|Hd]%elem_of_cons; [exact Hx|apply Hall, Hd].
    + intros s ->. simpl in Hcur. destruct (date_ltb s x) eqn:E.
      * eapply date_leb_trans; [apply date_ltb_leb, E|exact Hx].
      * apply Hcur. reflexivity.
Qed.

Section RunFacts.
Context `{PyLib}.

Lemma rule_deadline_latest (pdf_rows : list pdf_row) (fresh_rows : list row)
    (c : pystr) (r : date) :
  rule_deadline pdf_rows fresh_rows c = Some r ->
  (forall d, d ∈ api_dates c fresh_rows -> date_leb d r = true)
  /\ (forall s, last (pdf_dates c pdf_rows) = Some s -> date_leb s r = true).
Proof.
  unfold rule_deadline. intros Hr.
  destruct (override_fold_latest _ _ _ Hr) as (_ & Hall & Hcur). split; assumption.
Qed.

Lemma iso_to_date_valid (v : json float) (d : date) :
  iso_to_date v = Some d -> valid_date d = true.
Proof.
  unfold iso_to_date. destruct v; simpl; try discriminate.
  destruct (fromisoformat s) as [d'|] eqn:E; simpl; [|discriminate].
  intros [= <-]. eapply fromisoformat_valid, E.
Qed.

Lemma scrape_item_well_dated (w : world) (it : item) (r : row) :
  1000 <= THIS_YEAR w -> scrape_item w it = Ret (Some r) -> well_dated (deadline r) = true.
Proof.
  intros Hy (raw & d & _ & _ & Hd & Hyd & _ & -> & _)%scrape_item_Some.
  apply well_dated_strftime. split; [|lia].
  unfold item_deadline in Hd. eapply iso_to_date_valid, Hd.
Qed.

Lemma scrape_rows_well_dated (w : world) (items : list item) (rows : list row) :
  1000 <= THIS_YEAR w -> scrape_rows w items = Ret rows ->
  forallb (fun r => well_dated (deadline r)) rows = true.
Proof.
  intros Hy. revert rows. induction items as [|it t IH]; simpl; intros rows.
  - intros [= <-]. reflexivity.
  - intros (o & Ho & (rs & Hrs & [= <-])%bind_Ret)%bind_Ret.
    specialize (IH rs Hrs). destruct o as [r|]; [|exact IH].
    simpl. rewrite IH, (scrape_item_well_dated w it r Hy Ho). reflexivity.
Qed.

Lemma scrape_api_well_dated (w : world) (rows : list row) :
  1000 <= THIS_YEAR w -> fst (scrape_api w) = Ret rows ->
  forallb (fun r => well_dated (deadline r)) rows = true.
Proof.
  intros Hy. unfold scrape_api.
  destruct (requests_get w API_URL ≫= _) as [r|e]; simpl; [|intros [= <-]; reflexivity].
  destruct (negb _); simpl; [intros [= <-]; reflexivity|].
  destruct (of_option JSONDecodeError (r_json r) ≫= _) as [rs|e] eqn:E; simpl; [|discriminate].
  intros [= <-].
  apply bind_Ret in E as (v & _ & (items & _ & Hrows)%bind_Ret).
  eapply scrape_rows_well_dated; eassumption.
Qed.

Lemma candidates_parsed (txt : pystr) (ds : list date) (d : date) :
  candidates txt = Ret ds -> d ∈ ds -> exists m, dateparser_parse m = Some d.
Proof.
  unfold candidates. intros (fs & Hf & [= <-])%bind_Ret Hd.
  apply subseteq_take in Hd. rewrite <- (sort_by_perm id) in Hd.
  apply (proj1 (elem_of_remove_dups _ _)) in Hd.
  unfold found in Hf. revert fs Hf Hd. generalize (date_mentions txt). intros l.
  induction l as [|m t IH]; simpl; intros fs.
  - intros [= <-] Hd. inversion Hd.
  - intros (x & Hx & (xs & Hxs & [= <-])%bind_Ret)%bind_Ret Hd.
    apply elem_of_cons in Hd as [->|Hd]; [|eapply IH; eassumption].
    exists m. destruct (dateparser_parse m); simpl in Hx; congruence.
Qed.

Lemma pdf_loop_well_dated (w : world) (st : pdf_state) :
  (forall m d, dateparser_parse m = Some d -> 1000 <= year d) ->
  pdf_loop w = Ret st ->
  forallb (fun r => well_dated (pr_deadline r)) (pdf_rows st) = true.
Proof.
  intros Hy. unfold pdf_loop.
  assert (forallb (fun r => well_dated (pr_deadline r)) (pdf_rows pdf_init) = true) as Hinit
    by reflexivity.
  revert Hinit. generalize pdf_init. generalize (pdf_dir w). intros docs.
  induction docs as [|pdf t IH]; simpl; intros s0 Hs0.
  - intros [= <-]. exact Hs0.
  - intros (s1 & Hstep & Hrest)%bind_Ret. apply (IH s1); [|exact Hrest].
    unfold pdf_step in Hstep. apply bind_Ret in Hstep as (ds & Hds & [= <-]). simpl.
    rewrite forallb_app, Hs0. simpl. apply forallb_forall.
    intros r (d & <- & Hd)%in_map_iff. simpl. apply well_dated_strftime.
    apply list_elem_of_In in Hd.
    destruct (candidates_parsed _ _ _ Hds Hd) as (m & Hm).
    split; [eapply dateparser_valid, Hm|eapply Hy, Hm].
Qed.

(** In a run whose stub fetch and PDF loop return, with years of four
    digits, the merge returns and the run completes with its list. *)
Lemma ingest_completes (w : world) (fresh_rows : list row) (st : pdf_state) :
  1000 <= THIS_YEAR w ->
  (forall m d, dateparser_parse m = Some d -> 1000 <= year d) ->
  fst (scrape_api w) = Ret fresh_rows ->
  pdf_loop w = Ret st ->
  ingest w = Ret {| FRESH_JSON := fresh_rows; PDF_JSON := pdf_rows st;
                    INDEX_F := idx (index st); META_F := meta (index st);
                    MERGED_JSON := merged_of w (final_state (pdf_rows st) fresh_rows) |}.
Proof.
  intros Hy Hm Hs Hp. unfold ingest. rewrite Hs, Hp. simpl.
  rewrite merge_Ret; [reflexivity| |].
  - eapply pdf_loop_well_dated; eassumption.
  - eapply scrape_api_well_dated; eassumption.
Qed.
End RunFacts.

(* ================================================================== *)
(** * Part III: further properties of the pipeline and of the bot *)
(* ================================================================== *)

(** ** Dates as text *)

Lemma month_abbr_length (m : Z) :
  1 <= m <= 12 -> length (nth (Z.to_nat (m - 1)) month_abbrs []) = 3%nat.
Proof.
  intros Hm.
  assert (In m (map Z.of_nat (seq 1 12))) as Hin.
  { apply in_map_iff. exists (Z.to_nat m). split; [lia|]. apply in_seq. lia. }
  simpl in Hin.
  repeat (destruct Hin as [<-|Hin]; [reflexivity|]). destruct Hin.
Qed.

Lemma valid_date_bounds (d : date) :
  valid_date d = true -> 1 <= year d <= 9999 /\ 1 <= month d <= 12 /\ 1 <= day d <= 31.
Proof.
  unfold valid_date, days_in_month. intros Hv. repeat case_match; lia.
Qed.

(** Property X1. The deadline strings of the rows are read back by [to_d]
    as the dates they were written from: for every [datetime.date] [d]
    with a year of four digits, [to_d(d.strftime("%d %b %Y"))] is [d];
    the text has eleven characters, and two such dates with the same text
    are the same date. *)
Theorem strftime_to_d_roundtrip (d : date) :
  valid_date d = true -> 1000 <= year d ->
  to_d (strftime d) = Ret d
  /\ length (strftime d) = 11%nat
  /\ (forall d', valid_date d' = true -> 1000 <= year d' ->
                 strftime d' = strftime d -> d' = d).
Proof.
  intros Hv Hy. split; [apply to_d_strftime; assumption|]. split.
  - destruct (valid_date_bounds d Hv) as (Hy' & Hm & _).
    unfold strftime. rewrite !length_app, (month_abbr_length _ Hm).
    rewrite (str_int_year (year d)) by lia. reflexivity.
  - intros d' Hv' Hy' Heq.
    pose proof (to_d_strftime d' Hv' Hy') as H1.
    rewrite Heq, (to_d_strftime d Hv Hy) in H1. congruence.
Qed.

Lemma strftime_to_d_roundtrip_witness :
  valid_date (Date 2025 2 1) = true
  /\ to_d (lit "01 Feb 2025") = Ret (Date 2025 2 1).
Proof.
  split; [reflexivity|].
  apply (strftime_to_d_roundtrip (Date 2025 2 1)); [reflexivity|simpl; lia].
Defined.

(** ** Programme codes *)

(** Property X2. [normalize_code] keeps the length of the code and changes
    nothing but [/] and [\]: it is the identity on a code that has neither,
    so applying it twice is applying it once, and only the empty code gives
    the empty code. *)
Theorem normalize_code_idempotent (s : pystr) :
  normalize_code (normalize_code s) = normalize_code s
  /\ length (normalize_code s) = length s
  /\ ((47%N ∉ s) /\ (92%N ∉ s) <-> normalize_code s = s)
  /\ (normalize_code s = [] <-> s = []).
Proof.
  assert (forall t, (47%N ∉ t) -> (92%N ∉ t) -> normalize_code t = t) as Hfix.
  { intros t. rewrite normalize_code_map.
    induction t as [|c u IH]; intros H47 H92; [reflexivity|]. simpl.
    apply not_elem_of_cons in H47 as [Hc47 H47]. apply not_elem_of_cons in H92 as [Hc92 H92].
    rewrite (IH H47 H92).
    destruct (N.eqb_spec c 47); [congruence|]. destruct (N.eqb_spec c 92); [congruence|].
    reflexivity. }
  destruct (normalize_code_clean s) as [H47 H92].
  split; [apply Hfix; assumption|].
  assert (length (normalize_code s) = length s) as Hlen.
  { rewrite normalize_code_map. apply length_map. }
  split; [exact Hlen|]. split.
  - split; [intros [? ?]; apply Hfix; assumption|]. intros <-. split; assumption.
  - split.
    + intros E. rewrite E in Hlen. destruct s; [reflexivity|discriminate].
    + intros ->. reflexivity.
Qed.

(** ** The rows of the stub API *)

Section FreshFacts.
Context `{PyLib}.

Lemma scrape_rows_Forall (P : row -> Prop) (w : world) (items : list item) (rows : list row) :
  (forall it r, it ∈ items -> scrape_item w it = Ret (Some r) -> P r) ->
  scrape_rows w items = Ret rows -> Forall P rows.
Proof.
  revert rows. induction items as [|it t IH]; simpl; intros rows HP.
  - intros [= <-]. constructor.
  - intros (o & Ho & (rs & Hrs & [= <-])%bind_Ret)%bind_Ret.
    assert (Forall P rs) as Hall.
    { apply IH; [|exact Hrs]. intros it' r Hin. apply HP. right. exact Hin. }
    destruct o as [r|]; [|exact Hall].
    constructor; [|exact Hall]. apply (HP it r); [left|exact Ho].
Qed.

(** The two outcomes of [scrape_api] that return: the degraded one and
    the loop over the items of the body. *)
Lemma scrape_api_Ret (w : world) (rows : list row) :
  fst (scrape_api w) = Ret rows ->
  snd (scrape_api w) = Some rows
  /\ (rows = [] \/ exists items, scrape_rows w items = Ret rows).
Proof.
  unfold scrape_api.
  destruct (requests_get w API_URL ≫= _) as [r|e]; simpl; [|intros [= <-]; auto].
  destruct (negb _); simpl; [intros [= <-]; auto|].
  destruct (of_option JSONDecodeError (r_json r) ≫= _) as [rs|e] eqn:E; simpl; [|discriminate].
  intros [= <-]. split; [reflexivity|]. right.
  apply bind_Ret in E as (v & _ & (items & _ & Hrows)%bind_Ret). exists items. exact Hrows.
Qed.

Lemma scrape_item_Raise (w : world) (it : item) (e : exn) :
  scrape_item w it = Raise e -> e = AttributeError.
Proof.
  assert (forall v s, str_strip v = Raise s -> s = AttributeError) as Hs.
  { intros v s. destruct v; simpl; congruence. }
  unfold scrape_item, raw_code.
  destruct (str_strip (py_or (get it "Code") _)) as [raw|e1] eqn:E1; simpl;
    [|intros Heq; inversion Heq; subst; eapply Hs, E1].
  case_bool_decide; [discriminate|].
  destruct (item_deadline it) as [d|]; [|discriminate].
  destruct (year d <? THIS_YEAR w); [discriminate|].
  destruct (str_strip (py_or (get it "call_title") _)) as [ttl|e2] eqn:E2; simpl;
    [intros Heq; inversion Heq|].
  intros Heq. inversion Heq; subst. eapply Hs, E2.
Qed.

Lemma scrape_rows_Raise (w : world) (items : list item) (it : item) (e : exn) :
  it ∈ items -> scrape_item w it = Raise e -> scrape_rows w items = Raise AttributeError.
Proof.
  induction items as [|x t IH]; intros Hin He; [inversion Hin|]. simpl.
  destruct (scrape_item w x) as [o|e'] eqn:Ex; simpl.
  - apply elem_of_cons in Hin as [->|Hin]; [congruence|].
    rewrite (IH Hin He). reflexivity.
  - apply scrape_item_Raise in Ex as ->. reflexivity.
Qed.

Lemma json_items_objects (items : list item) :
  json_items (JArr (map JObj items)) = Ret items.
Proof.
  unfold json_items. induction items as [|it t IH]; simpl; [reflexivity|].
  rewrite IH. reflexivity.
Qed.
End FreshFacts.

(** Property X3. Every row [scrape_api] returns has a non-empty code
    without [/] or [\]; its deadline is the text of a date that [to_d]
    reads back, of the current year or later; and its status is OPEN
    exactly when that date is not before the day of the run. What the
    function wrote to [FRESH_JSON] is the list it returns. *)
Theorem fresh_rows_sound `{PyLib} (w : world) (rows : list row) :
  1000 <= THIS_YEAR w ->
  fst (scrape_api w) = Ret rows ->
  snd (scrape_api w) = Some rows
  /\ Forall (fun r =>
       code r <> [] /\ (47%N ∉ code r) /\ (92%N ∉ code r)
       /\ exists d, to_d (deadline r) = Ret d /\ strftime d = deadline r
                    /\ THIS_YEAR w <= year d
                    /\ (row_status r = OPEN <-> date_leb (TODAY w) d = true)) rows.
Proof.
  intros Hy Hs. destruct (scrape_api_Ret w rows Hs) as [Hw [->|(items & Hrows)]].
  { split; [exact Hw|constructor]. }
  split; [exact Hw|].
  eapply scrape_rows_Forall; [|exact Hrows].
  intros it r _ (raw & d & _ & Hraw & Hd & Hyd & Hc & Hdl & Hst & _)%scrape_item_Some.
  destruct (normalize_code_clean raw) as [H47 H92]. rewrite Hc, Hdl, Hst.
  split.
  { intros E. apply Hraw. apply (f_equal (@length N)) in E.
    rewrite normalize_code_map, length_map in E. destruct raw; [reflexivity|discriminate]. }
  split; [exact H47|]. split; [exact H92|].
  exists d. split.
  { apply to_d_strftime; [|lia]. unfold item_deadline in Hd. eapply iso_to_date_valid, Hd. }
  split; [reflexivity|]. split; [exact Hyd|].
  unfold status_of. destruct (date_leb (TODAY w) d); split; congruence.
Qed.

Lemma fresh_rows_sound_witness :
  let body : json (float (PyLib := Ref.lib)) :=
    JArr [JObj (<[lit "Code" := JStr (lit " RESTART/2016 ")]>
               (<[lit "EndDate" := JStr (lit "2026-06-01")]> ∅))] in
  let r : response := {| status_code := 200;
                         content_type := Some (lit "application/json; charset=utf-8");
                         r_json := Some body; r_xml := None |} in
  let w : world := {| TODAY := Date 2026 11 3; http_get := fun _ => Received r;
                      pdf_dir := [] |} in
  let rows := [{| code := lit "RESTART_2016"; title := []; deadline := lit "01 Jun 2026";
                  row_status := CLOSED; budget := None |}] in
  fst (scrape_api w) = Ret rows /\ snd (scrape_api w) = Some rows.
Proof.
  intros body r w rows.
  assert (fst (scrape_api w) = Ret rows) as Hs by reflexivity.
  split; [exact Hs|].
  apply (fresh_rows_sound w rows); [unfold THIS_YEAR, w; simpl; lia|exact Hs].
Defined.

(** Property X4. The degraded outcome of [scrape_api] covers the request
    only. When the response passes [raise_for_status] and announces JSON,
    a body that does not decode, a body that is a non-empty JSON object
    instead of a list, or an item whose [Code] is a non-zero number makes
    the exception leave [scrape_api]: nothing is written to [FRESH_JSON]
    and the run ends with the exception. *)
Theorem scrape_api_bad_body `{PyLib} (w : world) (r : response) :
  http_get w API_URL = Received r ->
  ~ (400 <= status_code r < 600) ->
  contains (lit "application/json") (default [] (content_type r)) = true ->
  (r_json r = None ->
     scrape_api w = (Raise JSONDecodeError, None) /\ ingest w = Raise JSONDecodeError)
  /\ (forall m, r_json r = Some (JObj m) -> m <> ∅ ->
        scrape_api w = (Raise AttributeError, None) /\ ingest w = Raise AttributeError)
  /\ (forall items it z, r_json r = Some (JArr (map JObj items)) -> it ∈ items ->
        get it "Code" = JInt z -> z <> 0 ->
        scrape_api w = (Raise AttributeError, None) /\ ingest w = Raise AttributeError).
Proof.
  intros Hget Hst Hct.
  assert (forall e, (v ← of_option JSONDecodeError (r_json r);
                     items ← json_items v; scrape_rows w items) = Raise e ->
                    scrape_api w = (Raise e, None) /\ ingest w = Raise e) as Hgen.
  { intros e He.
    assert (scrape_api w = (Raise e, None)) as Hs.
    { unfold scrape_api, requests_get. rewrite Hget. simpl. unfold raise_for_status.
      destruct ((400 <=? status_code r) && (status_code r <? 600)) eqn:E; [lia|].
      simpl. rewrite Hct. simpl. rewrite He. reflexivity. }
    split; [exact Hs|]. unfold ingest. rewrite Hs. reflexivity. }
  split; [|split].
  - intros Hj. apply Hgen. rewrite Hj. reflexivity.
  - intros m Hj Hm. apply Hgen. rewrite Hj. simpl.
    rewrite bool_decide_eq_false_2 by exact Hm. reflexivity.
  - intros items it z Hj Hin Hc Hz. apply Hgen. rewrite Hj. simpl of_option.
    change ((json_items (JArr (map JObj items)) ≫= scrape_rows w) = Raise AttributeError).
    rewrite json_items_objects. simpl.
    apply (scrape_rows_Raise w items it AttributeError Hin).
    unfold scrape_item, raw_code. rewrite Hc. unfold py_or. simpl.
    destruct (Z.eqb_spec z 0); [contradiction|]. reflexivity.
Qed.

Lemma scrape_api_bad_body_witness :
  let r : response (H := Ref.lib) :=
    {| status_code := 200; content_type := Some (lit "application/json");
       r_json := Some (JArr (map JObj [<[lit "Code" := JInt 7]> ∅])); r_xml := None |} in
  let w : world := {| TODAY := Date 2026 11 3; http_get := fun _ => Received r;
                      pdf_dir := [] |} in
  scrape_api w = (Raise AttributeError, None) /\ ingest w = Raise AttributeError.
Proof.
  intros r w.
  assert (contains (lit "application/json") (default [] (content_type r)) = true) as Hct
    by reflexivity.
  destruct (scrape_api_bad_body w r eq_refl ltac:(simpl; lia) Hct) as (_ & _ & Hitem).
  apply (Hitem [<[lit "Code" := JInt 7]> ∅] (<[lit "Code" := JInt 7]> ∅) 7 eq_refl).
  - left.
  - reflexivity.
  - lia.
Defined.

(** ** The PDF loop *)

Lemma visible_app (a b : pystr) : visible (a ++ b) = visible a ++ visible b.
Proof. apply filter_app. Qed.

Lemma visible_rev (s : pystr) : visible (rev s) = rev (visible s).
Proof.
  induction s as [|c t IH]; [reflexivity|]. simpl. rewrite visible_app, IH.
  unfold visible. rewrite !filter_cons, filter_nil.
  destruct (decide (isspace c = false)); simpl; [reflexivity|]. rewrite app_nil_r. reflexivity.
Qed.

Lemma visible_lstrip (s : pystr) : visible (lstrip s) = visible s.
Proof.
  induction s as [|c t IH]; [reflexivity|]. simpl.
  destruct (isspace c) eqn:E; [|reflexivity].
  rewrite IH. unfold visible. rewrite (filter_cons _ c).
  rewrite decide_False by congruence. reflexivity.
Qed.

Lemma visible_strip (s : pystr) : visible (strip s) = visible s.
Proof.
  unfold strip, rstrip.
  rewrite visible_rev, visible_lstrip, visible_rev, rev_involutive. apply visible_lstrip.
Qed.

Lemma visible_blank (s : pystr) : blank s = true -> visible s = [].
Proof.
  unfold blank, visible. induction s as [|c t IH]; [reflexivity|]. simpl.
  intros [Hc Ht]%andb_prop. rewrite filter_cons, decide_False by congruence. apply IH, Ht.
Qed.

Lemma visible_new_meta (src : pystr) (ws : list pystr) :
  visible (concat (map m_text (new_meta src ws))) = visible (concat ws).
Proof.
  unfold new_meta. induction ws as [|w t IH]; [reflexivity|].
  rewrite filter_cons. simpl concat. rewrite visible_app, <- IH.
  destruct (blank w) eqn:E.
  - rewrite decide_False by congruence. rewrite (visible_blank w E). reflexivity.
  - rewrite decide_True by reflexivity. simpl. rewrite visible_app, visible_strip. reflexivity.
Qed.

Section LoopFacts.
Context `{PyLib}.

Lemma candidates_length (txt : pystr) (ds : list date) :
  candidates txt = Ret ds -> (length ds <= 2)%nat.
Proof.
  unfold candidates. intros (fs & _ & [= <-])%bind_Ret. rewrite length_take. lia.
Qed.

Lemma pdf_step_rows (st st' : pdf_state) (pdf : pdf_file) :
  pdf_step st pdf = Ret st' ->
  exists ds, candidates (pdf_text pdf) = Ret ds
             /\ pdf_rows st' = pdf_rows st ++ rows_of pdf ds.
Proof.
  unfold pdf_step. intros (ds & Hds & [= <-])%bind_Ret. exists ds. split; [exact Hds|reflexivity].
Qed.

Lemma pdf_loop_rows (docs : list pdf_file) (st st' : pdf_state) :
  fold_result pdf_step docs st = Ret st' ->
  exists per : list (list date),
    Forall2 (fun pdf ds => candidates (pdf_text pdf) = Ret ds) docs per
    /\ pdf_rows st' = pdf_rows st ++ concat (zip_with rows_of docs per).
Proof.
  revert st. induction docs as [|pdf t IH]; intros st; simpl.
  - intros [= <-]. exists []. split; [constructor|]. simpl. rewrite app_nil_r. reflexivity.
  - intros (s1 & Hstep & Hrest)%bind_Ret.
    destruct (pdf_step_rows _ _ _ Hstep) as (ds & Hds & Hrows).
    destruct (IH _ Hrest) as (per & Hper & Hrows').
    exists (ds :: per). split; [constructor; assumption|].
    rewrite Hrows', Hrows. simpl. rewrite <- app_assoc. reflexivity.
Qed.

Lemma pdf_loop_meta (docs : list pdf_file) (st st' : pdf_state) :
  fold_result pdf_step docs st = Ret st' ->
  meta (index st') = meta (index st) ++ flat_map doc_meta docs
  /\ idx (index st')
     = idx (index st) ++ map (fun m => embed_text (m_text m)) (flat_map doc_meta docs).
Proof.
  revert st. induction docs as [|pdf t IH]; intros st; simpl.
  - intros [= <-]. rewrite !app_nil_r. split; reflexivity.
  - intros (s1 & Hstep & Hrest)%bind_Ret.
    destruct (IH _ Hrest) as [Hm Hi]. rewrite Hm, Hi.
    rewrite (pdf_step_index _ _ _ Hstep). unfold index_doc. rewrite fold_add_chunk. simpl.
    rewrite map_app, <- !app_assoc. split; reflexivity.
Qed.
End LoopFacts.

(** Property X5. In a run whose PDF loop returns, [pdf_rows] is made of the
    rows of the documents in the order of the directory; a document
    contributes one row for each of its candidates, at most two, all under
    the normalised stem of its file name; so there are at most twice as
    many rows as documents. *)
Theorem pdf_rows_per_document `{PyLib} (w : world) (st : pdf_state) :
  pdf_loop w = Ret st ->
  exists per : list (list date),
    Forall2 (fun pdf ds => candidates (pdf_text pdf) = Ret ds /\ (length ds <= 2)%nat)
      (pdf_dir w) per
    /\ pdf_rows st = concat (zip_with rows_of (pdf_dir w) per)
    /\ (length (pdf_rows st) <= 2 * length (pdf_dir w))%nat.
Proof.
  unfold pdf_loop. intros Hloop.
  destruct (pdf_loop_rows _ _ _ Hloop) as (per & Hper & Hrows). simpl in Hrows.
  exists per. split; [|split; [exact Hrows|]].
  - eapply Forall2_impl; [exact Hper|]. intros pdf ds Hds. split; [exact Hds|].
    eapply candidates_length, Hds.
  - rewrite Hrows. clear Hrows Hloop. induction Hper as [|pdf ds docs per Hds _ IH]; simpl; [lia|].
    rewrite length_app. unfold rows_of at 1. rewrite length_map.
    pose proof (candidates_length _ _ Hds). lia.
Qed.

Lemma pdf_rows_per_document_witness :
  let w : world (H := Ref.lib) :=
    {| TODAY := Date 2026 1 3; http_get := fun _ => TransportError;
       pdf_dir := [PdfFile (lit "EXC/0524.pdf") (lit "EXC/0524")
                     (lit "Deadline: 1 Jan 2027, 5-6-2026 or 01.02.2026");
                   PdfFile (lit "notes.pdf") (lit "notes") (lit "no dates here")] |} in
  exists st, pdf_loop w = Ret st
             /\ pdf_rows st = [PdfRow (lit "EXC_0524") (lit "01 Feb 2026");
                               PdfRow (lit "EXC_0524") (lit "05 Jun 2026")]
             /\ (length (pdf_rows st) <= 2 * length (pdf_dir w))%nat.
Proof.
  intros w.
  assert (exists st, pdf_loop w = Ret st
                     /\ pdf_rows st = [PdfRow (lit "EXC_0524") (lit "01 Feb 2026");
                                       PdfRow (lit "EXC_0524") (lit "05 Jun 2026")])
    as (st & Hst & Hrows) by (eexists; split; reflexivity).
  exists st. split; [exact Hst|]. split; [exact Hrows|].
  destruct (pdf_rows_per_document w st Hst) as (per & _ & _ & Hlen). exact Hlen.
Defined.

(** Property X6. In a run whose PDF loop returns, the metadata list is
    made of the chunks of the documents in the order of the directory and,
    within a document, in the order of the text: the stripped non-blank
    slices, each recorded with the file name of its document; and the
    index holds the embeddings of these texts in the same order. *)
Theorem meta_in_document_order `{PyLib} (w : world) (st : pdf_state) :
  pdf_loop w = Ret st ->
  meta (index st)
  = flat_map (fun pdf => map (fun s => {| m_text := strip s; m_source := pdf_name pdf |})
                           (filter (fun s => blank s = false)
                                   (doc_windows CHUNK_SZ (pdf_text pdf)))) (pdf_dir w)
  /\ idx (index st) = map (fun m => embed_text (m_text m)) (meta (index st)).
Proof.
  unfold pdf_loop. intros Hloop.
  destruct (pdf_loop_meta _ _ _ Hloop) as [Hm Hi]. simpl in Hm, Hi.
  rewrite Hi, Hm. split; reflexivity.
Qed.

Lemma meta_in_document_order_witness :
  let w : world (H := Ref.lib) :=
    {| TODAY := Date 2026 1 3; http_get := fun _ => TransportError;
       pdf_dir := [PdfFile (lit "a.pdf") (lit "a") (lit " call A ");
                   PdfFile (lit "b.pdf") (lit "b") (lit "  ");
                   PdfFile (lit "c.pdf") (lit "c") (lit "call C")] |} in
  exists st, pdf_loop w = Ret st
             /\ meta (index st) = [MetaRec (lit "call A") (lit "a.pdf");
                                   MetaRec (lit "call C") (lit "c.pdf")].
Proof.
  intros w.
  assert (exists st, pdf_loop w = Ret st) as (st & Hst) by (eexists; reflexivity).
  exists st. split; [exact Hst|].
  destruct (meta_in_document_order w st Hst) as [Hm _]. rewrite Hm. reflexivity.
Defined.

(** Property X7. Chunking loses white space only: for a document text and
    a chunk size [sz > 0], the texts of the chunks the loop appends, put
    end to end, have the same characters that are not white space as the
    document, in the same order. *)
Theorem chunks_keep_visible_text `{PyLib} (sz : nat) (src txt : pystr) (st : index_state) :
  (0 < sz)%nat ->
  exists new,
    meta (index_doc sz src txt st) = meta st ++ new
    /\ visible (concat (map m_text new)) = visible txt.
Proof.
  intros Hsz. exists (new_meta src (doc_windows sz txt)). split.
  - unfold index_doc. rewrite fold_add_chunk. reflexivity.
  - rewrite visible_new_meta, (doc_windows_concat sz txt Hsz). reflexivity.
Qed.

Lemma chunks_keep_visible_text_witness :
  let txt := lit "ab  cd e" in
  exists new,
    meta (index_doc (H := Ref.lib) 3 (lit "a.pdf") txt index_init) = new
    /\ map m_text new = [lit "ab"; lit "cd"; lit "e"]
    /\ visible (concat (map m_text new)) = visible txt.
Proof.
  intros txt.
  destruct (chunks_keep_visible_text (H := Ref.lib) 3 (lit "a.pdf") txt index_init ltac:(lia))
    as (new & Hm & Hv).
  change (meta (index_doc (H := Ref.lib) 3 (lit "a.pdf") txt index_init) = new) in Hm.
  exists new. split; [exact Hm|]. split; [|exact Hv].
  rewrite <- Hm. reflexivity.
Defined.

(** ** The fields and the order of the merged records *)

Lemma filter_ext_elem {A} (P Q : A -> Prop) `{!forall x, Decision (P x)}
    `{!forall x, Decision (Q x)} (l : list A) :
  (forall x, x ∈ l -> P x <-> Q x) -> filter P l = filter Q l.
Proof.
  induction l as [|x t IH]; intros HPQ; [reflexivity|].
  rewrite !filter_cons, IH by (intros y Hy; apply HPQ; right; exact Hy).
  destruct (decide (P x)) as [HP|HP], (decide (Q x)) as [HQ|HQ]; try reflexivity;
    exfalso; apply (HPQ x) in HP || apply (HPQ x) in HQ; try (left; fail); tauto.
Qed.

(** Insertion sort is stable: the elements of one key keep their order. *)
Lemma insert_by_stable {A} (key : A -> date) (k : date) (x : A) (l : list A) :
  filter (fun y => key y = k) (insert_by key x l)
  = filter (fun y => key y = k) (x :: l).
Proof.
  induction l as [|y t IH]; simpl; [reflexivity|].
  destruct (date_ltb (key y) (key x)) eqn:E; [|reflexivity].
  rewrite (filter_cons _ y), IH, !filter_cons.
  destruct (decide (key y = k)) as [Hy|Hy]; [|reflexivity].
  destruct (decide (key x = k)) as [Hx|Hx]; [|reflexivity].
  rewrite Hy, Hx, date_ltb_irrefl in E. discriminate.
Qed.

Lemma sort_by_stable {A} (key : A -> date) (k : date) (l : list A) :
  filter (fun y => key y = k) (sort_by key l) = filter (fun y => key y = k) l.
Proof.
  induction l as [|x t IH]; [reflexivity|]. simpl sort_by.
  rewrite insert_by_stable, !filter_cons, IH. reflexivity.
Qed.

(** A list that is sorted already is left as it is. *)
Lemma sort_by_sorted_id {A} (key : A -> date) (l : list A) :
  StronglySorted (key_le key) l -> sort_by key l = l.
Proof.
  induction 1 as [|x t Hs IH Hx]; [reflexivity|]. simpl. rewrite IH.
  destruct t as [|y u]; [reflexivity|]. simpl.
  apply Forall_cons in Hx as [Hxy _]. unfold key_le, date_leb in Hxy.
  apply negb_true_iff in Hxy. rewrite Hxy. reflexivity.
Qed.

Lemma dict_set_key_list {V} (d : list (pystr * V)) (k : pystr) (v : V) :
  map fst (dict_set k v d) = add_key (map fst d) k.
Proof.
  unfold add_key. induction d as [|[k' v'] t IH].
  - cbn [dict_set map]. destruct (decide (k ∈ [])) as [Hin|_]; [inversion Hin|reflexivity].
  - cbn [dict_set map fst]. destruct (decide (k = k')) as [->|Hk]; cbn [map fst].
    + rewrite decide_True by left. reflexivity.
    + rewrite IH. destruct (decide (k ∈ map fst t)) as [Hin|Hin].
      * rewrite decide_True by (right; exact Hin). reflexivity.
      * rewrite decide_False; [reflexivity|].
        intros [?|?]%elem_of_cons; [congruence|contradiction].
Qed.

Lemma add_key_present (ks : list pystr) (c : pystr) : c ∈ ks -> add_key ks c = ks.
Proof. intros Hc. unfold add_key. rewrite decide_True by exact Hc. reflexivity. Qed.

Lemma add_keys_first_seen (l ks : list pystr) :
  fold_left add_key l ks = ks ++ filter (fun c => c ∉ ks) (first_seen l).
Proof.
  revert ks. induction l as [|x t IH]; intros ks; simpl.
  - rewrite app_nil_r. reflexivity.
  - rewrite IH, filter_cons. unfold add_key. destruct (decide (x ∈ ks)) as [Hx|Hx].
    + rewrite decide_False by (intros Hn; exact (Hn Hx)). f_equal.
      rewrite list_filter_filter. apply filter_ext_elem. intros y _.
      split; [|intros [Hy _]; exact Hy]. intros Hy. split; [exact Hy|congruence].
    + rewrite decide_True by exact Hx. rewrite <- app_assoc. simpl. do 2 f_equal.
      rewrite list_filter_filter. apply filter_ext_elem. intros y _.
      rewrite not_elem_of_app, not_elem_of_cons. split.
      * intros (Hy & Hyx & _). split; [exact Hy|exact Hyx].
      * intros [Hy Hyx]. split; [exact Hy|]. split; [exact Hyx|apply not_elem_of_nil].
Qed.

Section FieldFacts.
Context `{PyLib}.

Lemma seed_key_list (rows : list pdf_row) (acc : list (pystr * date)) :
  map fst (fold_left seed_pure rows acc) = fold_left add_key (map pr_code rows) (map fst acc).
Proof.
  revert acc. induction rows as [|r t IH]; intros acc; simpl; [reflexivity|].
  rewrite IH. unfold seed_pure at 1. rewrite dict_set_key_list. reflexivity.
Qed.

Lemma overlay_key_list (rows : list row) (st : list (pystr * date) * gmap pystr float) :
  map fst (fst (fold_left overlay_pure rows st))
  = fold_left add_key (map code rows) (map fst (fst st)).
Proof.
  revert st. induction rows as [|r t IH]; intros st; simpl; [reflexivity|].
  rewrite IH. f_equal. unfold overlay_pure. simpl.
  destruct (dict_get (code r) (fst st)) as [cur|] eqn:E.
  - assert (code r ∈ map fst (fst st)) as Hin.
    { apply dict_get_Some in E. apply (list_elem_of_fmap_2 fst _ _ E). }
    destruct (date_ltb cur (the_date (deadline r))).
    + apply dict_set_key_list.
    + rewrite add_key_present by exact Hin. reflexivity.
  - apply dict_set_key_list.
Qed.

Lemma final_key_list (pdf_rows : list pdf_row) (fresh_rows : list row) :
  map fst (fst (final_state pdf_rows fresh_rows))
  = first_seen (map pr_code pdf_rows ++ map code fresh_rows).
Proof.
  unfold final_state. rewrite overlay_key_list. simpl. rewrite seed_key_list. simpl.
  rewrite <- fold_left_app, add_keys_first_seen. simpl.
  induction (first_seen _) as [|y u IHu]; [reflexivity|].
  rewrite filter_cons, decide_True by apply not_elem_of_nil. rewrite IHu. reflexivity.
Qed.

Lemma overlay_budgets (c : pystr) (rows : list row)
    (st : list (pystr * date) * gmap pystr float) :
  snd (fold_left overlay_pure rows st) !! c
  = match last (api_budgets c rows) with
    | Some b => Some b
    | None => snd st !! c
    end.
Proof.
  revert st. induction rows as [|r t IH]; intros st; simpl; [reflexivity|].
  rewrite IH. unfold api_budgets. simpl. fold (api_budgets c t).
  destruct (decide (code r = c)) as [Hc|Hc].
  - destruct (budget r) as [b|]; simpl; [|reflexivity].
    rewrite last_cons. destruct (last (api_budgets c t)); [reflexivity|].
    rewrite Hc. apply lookup_insert_eq.
  - destruct (last (api_budgets c t)); [reflexivity|].
    destruct (budget r) as [b|]; simpl; [|reflexivity].
    apply lookup_insert_ne. exact Hc.
Qed.

(** The records of the merged list, from the dictionary. *)
Lemma merged_of_elem (w : world) (st : list (pystr * date) * gmap pystr float)
    (r : merged_row) :
  r ∈ merged_of w st ->
  exists d, (mr_code r, d) ∈ fst st
            /\ r = {| mr_code := mr_code r; mr_deadline := strftime d;
                      mr_status := status_of w d; mr_budget := snd st !! mr_code r |}.
Proof.
  rewrite <- merged_of_perm. unfold build_merged.
  intros ([c d] & <- & Hin)%list_elem_of_In%in_map_iff. simpl.
  exists d. split; [apply list_elem_of_In, Hin|reflexivity].
Qed.
End FieldFacts.

Lemma filter_map_comm {A B} (P : B -> Prop) `{!forall y, Decision (P y)} (f : A -> B)
    (l : list A) :
  filter P (map f l) = map f (filter (fun x => P (f x)) l).
Proof.
  induction l as [|x t IH]; [reflexivity|]. simpl. rewrite !filter_cons, IH.
  destruct (decide (P (f x))); reflexivity.
Qed.

Lemma dict_get_elem {V} (d : list (pystr * V)) (c : pystr) (v : V) :
  NoDup (map fst d) -> (c, v) ∈ d -> dict_get c d = Some v.
Proof.
  induction d as [|[k x] t IH]; intros Hnd Hin; [inversion Hin|].
  cbn [map fst] in Hnd. apply NoDup_cons in Hnd as [Hk Hnd]. cbn [dict_get].
  apply elem_of_cons in Hin as [[= -> ->]|Hin].
  - rewrite decide_True by reflexivity. reflexivity.
  - rewrite decide_False; [apply IH; assumption|].
    intros ->. apply Hk. apply (list_elem_of_fmap_2 fst _ _ Hin).
Qed.

Lemma dict_keys_with {V} `{EqDecision V} (d : list (pystr * V)) (k : V) :
  NoDup (map fst d) ->
  map fst (filter (fun cd => snd cd = k) d)
  = filter (fun c => dict_get c d = Some k) (map fst d).
Proof.
  intros Hnd. rewrite filter_map_comm. f_equal. apply filter_ext_elem.
  intros [c v] Hin. simpl. rewrite (dict_get_elem d c v Hnd Hin).
  split; [intros ->; reflexivity|intros [= ->]; reflexivity].
Qed.

Section FieldFacts2.
Context `{PyLib}.

Lemma api_budgets_absent (c : pystr) (rows : list row) :
  c ∉ map code rows -> api_budgets c rows = [].
Proof.
  unfold api_budgets. induction rows as [|r t IH]; [reflexivity|]. cbn [map].
  intros [Hr Ht]%not_elem_of_cons. simpl. rewrite decide_False by congruence. apply IH, Ht.
Qed.

(** The merged list, from the dictionary, when its dates are printable. *)
Lemma merged_of_with (w : world) (st : list (pystr * date) * gmap pystr float) (k : date) :
  good_dict (fst st) -> printable k ->
  map mr_code (filter (fun r => mr_deadline r = strftime k) (merged_of w st))
  = filter (fun c => dict_get c (fst st) = Some k) (map fst (fst st)).
Proof.
  intros [Hnd Hall] [Hvk Hyk]. rewrite <- (dict_keys_with _ k Hnd).
  unfold merged_of. cbv zeta. unfold build_merged. rewrite map_map.
  set (h := fun cd : pystr * date =>
              (the_date (strftime (snd cd)),
               {| mr_code := fst cd; mr_deadline := strftime (snd cd);
                  mr_status := status_of w (snd cd); mr_budget := snd st !! fst cd |})).
  change (map _ (fst st)) with (map h (fst st)).
  assert (forall cd, cd ∈ fst st -> the_date (strftime (snd cd)) = snd cd) as Hd.
  { intros cd Hcd. rewrite Forall_forall in Hall.
    unfold the_date, date_of. rewrite (printable_to_d _ (Hall cd Hcd)). reflexivity. }
  assert (forall cd, cd ∈ fst st -> strftime (snd cd) = strftime k <-> snd cd = k) as Hinj.
  { intros cd Hcd. split; [|intros ->; reflexivity]. intros Heq.
    rewrite Forall_forall in Hall. destruct (Hall cd Hcd) as [Hv Hy].
    pose proof (to_d_strftime _ Hv Hy) as H1.
    rewrite Heq, (to_d_strftime k Hvk Hyk) in H1. congruence. }
  rewrite filter_map_comm.
  rewrite (filter_ext_elem _ (fun p => fst p = k)).
  2:{ intros p Hp. rewrite <- (sort_by_perm fst) in Hp.
      apply list_elem_of_In, in_map_iff in Hp as (cd & <- & Hcd%list_elem_of_In).
      simpl. rewrite (Hd cd Hcd). apply Hinj, Hcd. }
  rewrite sort_by_stable, filter_map_comm, !map_map. simpl.
  f_equal. apply filter_ext_elem. intros cd Hcd. rewrite (Hd cd Hcd). reflexivity.
Qed.
End FieldFacts2.

(** Property X8. The budget of a merged record is the budget of the last
    API row of its code that carries one, and it is absent when no API row
    of the code carries a budget, so always for a code that only the PDFs
    give. *)
Theorem merged_budget_rule `{PyLib} (w : world) (pdf_rows : list pdf_row)
    (fresh_rows : list row) :
  forallb (fun r => well_dated (pr_deadline r)) pdf_rows = true ->
  forallb (fun r => well_dated (deadline r)) fresh_rows = true ->
  exists merged,
    merge w pdf_rows fresh_rows = Ret merged
    /\ Forall (fun r => mr_budget r = last (api_budgets (mr_code r) fresh_rows)) merged
    /\ Forall (fun r => mr_code r ∉ map code fresh_rows -> mr_budget r = None) merged.
Proof.
  intros Hp Hf. exists (merged_of w (final_state pdf_rows fresh_rows)).
  split; [apply merge_Ret; assumption|].
  assert (Forall (fun r => mr_budget r = last (api_budgets (mr_code r) fresh_rows))
            (merged_of w (final_state pdf_rows fresh_rows))) as Hb.
  { apply Forall_forall. intros r (d & _ & ->)%merged_of_elem. simpl.
    unfold final_state. rewrite overlay_budgets. simpl.
    destruct (last (api_budgets (mr_code r) fresh_rows)); [reflexivity|apply lookup_empty]. }
  split; [exact Hb|].
  eapply Forall_impl; [exact Hb|]. intros r -> Hc. simpl.
  rewrite api_budgets_absent by exact Hc. reflexivity.
Qed.

Lemma merged_budget_rule_witness :
  let w : world (H := Ref.lib) :=
    {| TODAY := Date 2025 1 20; http_get := fun _ => TransportError; pdf_dir := [] |} in
  let pdf_rows := [PdfRow (lit "B") (lit "03 Apr 2025")] in
  let fresh_rows : list (row (H := Ref.lib)) :=
    [Row (H := Ref.lib) (lit "A") [] (lit "01 Feb 2025") OPEN (Some (Ref.Dec 100 0));
     Row (H := Ref.lib) (lit "A") [] (lit "05 Feb 2025") OPEN (Some (Ref.Dec 250 0));
     Row (lit "A") [] (lit "09 Feb 2025") OPEN None] in
  exists merged : list (merged_row (H := Ref.lib)),
    merge w pdf_rows fresh_rows = Ret merged
    /\ merged = [MergedRow (H := Ref.lib) (lit "A") (lit "09 Feb 2025") OPEN
                   (Some (Ref.Dec 250 0));
                 MergedRow (lit "B") (lit "03 Apr 2025") OPEN None]
    /\ Forall (fun r => mr_budget r = last (api_budgets (mr_code r) fresh_rows)) merged.
Proof.
  intros w pdf_rows fresh_rows.
  assert (forallb (fun r => well_dated (pr_deadline r)) pdf_rows = true) as Hp by reflexivity.
  assert (forallb (fun r => well_dated (deadline r)) fresh_rows = true) as Hf by reflexivity.
  destruct (merged_budget_rule w pdf_rows fresh_rows Hp Hf) as (merged & Hm & Hb & _).
  exists merged. split; [exact Hm|]. split; [|exact Hb].
  assert (merge w pdf_rows fresh_rows
          = Ret [MergedRow (H := Ref.lib) (lit "A") (lit "09 Feb 2025") OPEN
                   (Some (Ref.Dec 250 0));
                 MergedRow (lit "B") (lit "03 Apr 2025") OPEN None]) as Hv by reflexivity.
  rewrite Hv in Hm. injection Hm as <-. reflexivity.
Defined.

(** Property X9. The status of a merged record is computed from the
    deadline the record carries: [to_d] reads that deadline back as a date,
    and the status is OPEN exactly when this date is not before the day of
    the run. *)
Theorem merged_status_rule `{PyLib} (w : world) (pdf_rows : list pdf_row)
    (fresh_rows : list row) :
  forallb (fun r => well_dated (pr_deadline r)) pdf_rows = true ->
  forallb (fun r => well_dated (deadline r)) fresh_rows = true ->
  exists merged,
    merge w pdf_rows fresh_rows = Ret merged
    /\ Forall (fun r => exists d, to_d (mr_deadline r) = Ret d
                                  /\ (mr_status r = OPEN <-> date_leb (TODAY w) d = true)
                                  /\ (mr_status r = CLOSED <-> date_ltb d (TODAY w) = true))
         merged.
Proof.
  intros Hp Hf. exists (merged_of w (final_state pdf_rows fresh_rows)).
  split; [apply merge_Ret; assumption|].
  destruct (final_good _ _ Hp Hf) as [_ Hall]. rewrite Forall_forall in Hall.
  apply Forall_forall. intros r (d & Hin & ->)%merged_of_elem. simpl.
  exists d. split; [apply printable_to_d, (Hall _ Hin)|].
  unfold status_of, date_leb. destruct (date_ltb d (TODAY w)); simpl; split; split; congruence.
Qed.

Lemma merged_status_rule_witness :
  let w : world (H := Ref.lib) :=
    {| TODAY := Date 2025 1 20; http_get := fun _ => TransportError; pdf_dir := [] |} in
  let pdf_rows := [PdfRow (lit "A") (lit "20 Jan 2025")] in
  let fresh_rows := [Row (lit "A") [] (lit "05 Jan 2025") CLOSED None;
                     Row (lit "B") [] (lit "19 Jan 2025") CLOSED None] in
  exists merged,
    merge w pdf_rows fresh_rows = Ret merged
    /\ map mr_status merged = [CLOSED; OPEN]
    /\ Forall (fun r => exists d, to_d (mr_deadline r) = Ret d
                                  /\ (mr_status r = OPEN <-> date_leb (TODAY w) d = true)
                                  /\ (mr_status r = CLOSED <-> date_ltb d (TODAY w) = true))
         merged.
Proof.
  intros w pdf_rows fresh_rows.
  assert (forallb (fun r => well_dated (pr_deadline r)) pdf_rows = true) as Hp by reflexivity.
  assert (forallb (fun r => well_dated (deadline r)) fresh_rows = true) as Hf by reflexivity.
  destruct (merged_status_rule w pdf_rows fresh_rows Hp Hf) as (merged & Hm & Hs).
  exists merged. split; [exact Hm|]. split; [|exact Hs].
  assert (merge w pdf_rows fresh_rows
          = Ret [MergedRow (lit "B") (lit "19 Jan 2025") CLOSED None;
                 MergedRow (lit "A") (lit "20 Jan 2025") OPEN None]) as Hv by reflexivity.
  rewrite Hv in Hm. injection Hm as <-. reflexivity.
Defined.

(** Property X10. Records with the same deadline keep the order in which
    their codes were first mentioned, the codes of [pdf_rows] before the
    codes that only [fresh_rows] has: for every date, the codes of the
    merged records with that deadline are, in order, the codes first seen
    in [pdf_rows] then [fresh_rows] to which the override rule gives that
    date. *)
Theorem merged_ties_first_mentioned `{PyLib} (w : world) (pdf_rows : list pdf_row)
    (fresh_rows : list row) :
  forallb (fun r => well_dated (pr_deadline r)) pdf_rows = true ->
  forallb (fun r => well_dated (deadline r)) fresh_rows = true ->
  exists merged,
    merge w pdf_rows fresh_rows = Ret merged
    /\ forall k, valid_date k = true -> 1000 <= year k ->
         map mr_code (filter (fun r => mr_deadline r = strftime k) merged)
         = filter (fun c => rule_deadline pdf_rows fresh_rows c = Some k)
             (first_seen (map pr_code pdf_rows ++ map code fresh_rows)).
Proof.
  intros Hp Hf. exists (merged_of w (final_state pdf_rows fresh_rows)).
  split; [apply merge_Ret; assumption|]. intros k Hv Hy.
  rewrite (merged_of_with w _ k (final_good _ _ Hp Hf) (conj Hv Hy)).
  rewrite final_key_list. apply filter_ext_elem. intros c _.
  rewrite (final_lookup _ _ c Hp Hf). reflexivity.
Qed.

Lemma merged_ties_first_mentioned_witness :
  let w : world (H := Ref.lib) :=
    {| TODAY := Date 2025 1 20; http_get := fun _ => TransportError; pdf_dir := [] |} in
  let pdf_rows := [PdfRow (lit "Z") (lit "01 Feb 2025"); PdfRow (lit "M") (lit "10 Jan 2025")] in
  let fresh_rows := [Row (lit "A") [] (lit "01 Feb 2025") OPEN None;
                     Row (lit "M") [] (lit "01 Feb 2025") OPEN None] in
  exists merged,
    merge w pdf_rows fresh_rows = Ret merged
    /\ map mr_code (filter (fun r => mr_deadline r = lit "01 Feb 2025") merged)
       = [lit "Z"; lit "M"; lit "A"].
Proof.
  intros w pdf_rows fresh_rows.
  assert (forallb (fun r => well_dated (pr_deadline r)) pdf_rows = true) as Hp by reflexivity.
  assert (forallb (fun r => well_dated (deadline r)) fresh_rows = true) as Hf by reflexivity.
  destruct (merged_ties_first_mentioned w pdf_rows fresh_rows Hp Hf) as (merged & Hm & Hk).
  exists merged. split; [exact Hm|].
  change (lit "01 Feb 2025") with (strftime (Date 2025 2 1)).
  rewrite (Hk (Date 2025 2 1)); [reflexivity|reflexivity|simpl; lia].
Defined.

(** ** The run as a whole *)

Section RunFacts2.
Context `{PyLib}.

Lemma candidates_mentioned (txt : pystr) (ds : list date) (d : date) :
  candidates txt = Ret ds -> d ∈ ds ->
  exists m, m ∈ date_mentions txt /\ dateparser_parse m = Some d.
Proof.
  unfold candidates. intros (fs & Hf & [= <-])%bind_Ret Hd.
  apply subseteq_take in Hd. rewrite <- (sort_by_perm id) in Hd.
  apply (proj1 (elem_of_remove_dups _ _)) in Hd.
  unfold found in Hf. revert fs Hf Hd. generalize (date_mentions txt). intros l.
  induction l as [|m t IH]; simpl; intros fs.
  - intros [= <-] Hd. inversion Hd.
  - intros (x & Hx & (xs & Hxs & [= <-])%bind_Ret)%bind_Ret Hd.
    apply elem_of_cons in Hd as [->|Hd].
    + exists m. split; [left|]. destruct (dateparser_parse m); simpl in Hx; congruence.
    + destruct (IH _ Hxs Hd) as (m' & Hin & Hm'). exists m'. split; [right|]; assumption.
Qed.

Lemma pdf_loop_rows_well_dated (docs : list pdf_file) (st st' : pdf_state) :
  four_digit_years docs ->
  forallb (fun r => well_dated (pr_deadline r)) (pdf_rows st) = true ->
  fold_result pdf_step docs st = Ret st' ->
  forallb (fun r => well_dated (pr_deadline r)) (pdf_rows st') = true.
Proof.
  revert st. induction docs as [|pdf t IH]; simpl; intros s0 Hy Hs0.
  - intros [= <-]. exact Hs0.
  - intros (s1 & Hstep & Hrest)%bind_Ret. apply (IH s1); [| |exact Hrest].
    + intros p m d Hp. apply Hy. right. exact Hp.
    + unfold pdf_step in Hstep. apply bind_Ret in Hstep as (ds & Hds & [= <-]). simpl.
      rewrite forallb_app, Hs0. simpl. apply forallb_forall.
      intros r (d & <- & Hd)%in_map_iff. simpl. apply well_dated_strftime.
      apply list_elem_of_In in Hd.
      destruct (candidates_mentioned _ _ _ Hds Hd) as (m & Hin & Hm).
      split; [eapply dateparser_valid, Hm|]. apply (Hy pdf m d); [left|exact Hin|exact Hm].
Qed.

(** The record of a code in the merged list, from the dictionary. *)
Lemma merged_of_record (w : world) (st : list (pystr * date) * gmap pystr float)
    (c : pystr) (d : date) :
  NoDup (map fst (fst st)) -> dict_get c (fst st) = Some d ->
  merged_for c (merged_of w st)
  = Some {| mr_code := c; mr_deadline := strftime d;
            mr_status := status_of w d; mr_budget := snd st !! c |}.
Proof.
  intros Hnd E. unfold merged_for.
  apply find_unique; [| |reflexivity].
  - rewrite <- merged_of_codes. exact Hnd.
  - rewrite <- merged_of_perm. unfold build_merged. apply dict_get_Some in E.
    apply (list_elem_of_fmap_2 (fun cd => {| mr_code := fst cd; mr_deadline := strftime (snd cd);
             mr_status := status_of w (snd cd); mr_budget := snd st !! fst cd |}) _ _ E).
Qed.

Lemma api_dates_absent (c : pystr) (rows : list row) :
  c ∉ map code rows -> api_dates c rows = [].
Proof.
  induction rows as [|r t IH]; [reflexivity|]. cbn [map]. rewrite not_elem_of_cons.
  intros [Hr Ht]. unfold api_dates. cbn [omap list_omap].
  rewrite decide_False by congruence. apply IH, Ht.
Qed.

Lemma pdf_dates_app (c : pystr) (a b : list pdf_row) :
  pdf_dates c (a ++ b) = pdf_dates c a ++ pdf_dates c b.
Proof. unfold pdf_dates. apply omap_app. Qed.

(** The dates the rows of one document hold for a code. *)
Lemma pdf_dates_rows_of (c : pystr) (pdf : pdf_file) (ds : list date) :
  Forall printable ds ->
  pdf_dates c (rows_of pdf ds)
  = if decide (normalize_code (pdf_stem pdf) = c) then ds else [].
Proof.
  induction 1 as [|d t Hd _ IH]; [destruct (decide _); reflexivity|].
  unfold pdf_dates, rows_of in *. cbn [map omap list_omap pr_code pr_deadline].
  change (list_omap ?f ?l) with (omap f l). rewrite IH.
  destruct (decide (normalize_code (pdf_stem pdf) = c)); [|reflexivity].
  unfold date_of. rewrite (printable_to_d _ Hd). reflexivity.
Qed.

Lemma candidates_printable (docs : list pdf_file) (pdf : pdf_file) (ds : list date) :
  four_digit_years docs -> pdf ∈ docs -> candidates (pdf_text pdf) = Ret ds ->
  Forall printable ds.
Proof.
  intros Hy Hin Hc. apply Forall_forall. intros d Hd.
  destruct (candidates_mentioned _ _ _ Hc Hd) as (m & Hm & Hp).
  split; [eapply dateparser_valid, Hp|eapply Hy; eassumption].
Qed.

(** The candidates are in increasing order: the last is the latest. *)
Lemma candidates_last (txt : pystr) (ds : list date) (d : date) :
  candidates txt = Ret ds -> last ds = Some d ->
  forall d', d' ∈ ds -> date_leb d' d = true.
Proof.
  unfold candidates. intros (fs & _ & [= <-])%bind_Ret.
  destruct (earliest_two fs) as (_ & Hs & _). revert Hs.
  generalize (firstn 2 (sort_by id (remove_dups fs))). intros l Hs. revert d.
  induction Hs as [|x t Hs IH Hx]; intros d Hl d' Hd'; [inversion Hd'|].
  destruct t as [|y t'].
  - injection Hl as <-. apply list_elem_of_singleton in Hd' as ->. apply date_leb_refl.
  - change (last (x :: y :: t')) with (last (y :: t')) in Hl.
    apply elem_of_cons in Hd' as [->|Hd']; [|apply IH; assumption].
    apply date_ltb_leb. rewrite Forall_forall in Hx. apply Hx.
    apply last_Some_elem_of. exact Hl.
Qed.

(** The last date the rows of a run hold for the code of a document that
    no other document shares. *)
Lemma last_pdf_dates (docs all : list pdf_file) (per : list (list date))
    (pdf : pdf_file) (ds : list date) (d : date) :
  four_digit_years all -> docs ⊆ all ->
  (forall p, p ∈ docs -> normalize_code (pdf_stem p) = normalize_code (pdf_stem pdf) ->
             p = pdf) ->
  candidates (pdf_text pdf) = Ret ds -> last ds = Some d ->
  Forall2 (fun p ps => candidates (pdf_text p) = Ret ps) docs per ->
  let l := last (pdf_dates (normalize_code (pdf_stem pdf))
                   (concat (zip_with rows_of docs per))) in
  (l = None \/ l = Some d) /\ (pdf ∈ docs -> l = Some d).
Proof.
  intros Hy Hsub Hone Hc Hl Hper. induction Hper as [|p ps docs per Hp _ IH].
  - split; [left; reflexivity|]. intros Hin. inversion Hin.
  - cbn [zip_with concat]. rewrite pdf_dates_app, last_app.
    destruct IH as [Hcases Hin].
    { intros q Hq. apply Hsub. right. exact Hq. }
    { intros q Hq. apply Hone. right. exact Hq. }
    cbv zeta in Hcases, Hin.
    destruct Hcases as [Hn|Hd].
    2:{ rewrite Hd. split; [right; reflexivity|reflexivity]. }
    rewrite Hn. rewrite pdf_dates_rows_of.
    2:{ apply (candidates_printable all p); [exact Hy|apply Hsub; left|exact Hp]. }
    destruct (decide (normalize_code (pdf_stem p) = normalize_code (pdf_stem pdf)))
      as [Heq|Hne].
    + assert (p = pdf) as -> by (apply Hone; [left|exact Heq]).
      rewrite Hc in Hp. injection Hp as <-. split; [right; exact Hl|intros _; exact Hl].
    + split; [left; reflexivity|].
      intros [->|Hin']%elem_of_cons; [destruct (Hne eq_refl)|].
      rewrite (Hin Hin') in Hn. discriminate.
Qed.

Lemma merged_of_well_dated (w : world) (st : list (pystr * date) * gmap pystr float) :
  good_dict (fst st) ->
  Forall (fun r => well_dated (mr_deadline r) = true) (merged_of w st).
Proof.
  intros [_ Hall]. apply Forall_forall. intros r Hr.
  apply merged_of_elem in Hr as (d & Hd & ->). simpl.
  apply well_dated_strftime. rewrite Forall_forall in Hall. apply (Hall _ Hd).
Qed.
End RunFacts2.

(** Property X11. With years of four digits, the merge never raises on
    the rows of a run: when the stub fetch and the PDF loop have returned,
    [to_d] reads every deadline they produced, so section 3 of the script
    computes a merged list; and every deadline of that list is again
    [strftime] of a date with a year of four digits, which [to_d] reads
    back. *)
Theorem merge_returns_on_run_rows `{PyLib} (w : world) (fresh_rows : list row)
    (st : pdf_state) :
  1000 <= THIS_YEAR w ->
  four_digit_years (pdf_dir w) ->
  fst (scrape_api w) = Ret fresh_rows ->
  pdf_loop w = Ret st ->
  exists merged,
    merge w (pdf_rows st) fresh_rows = Ret merged
    /\ Forall (fun r => well_dated (mr_deadline r) = true) merged.
Proof.
  intros Hy Hm Hs Hp.
  assert (forallb (fun r => well_dated (pr_deadline r)) (pdf_rows st) = true) as Hpw
    by apply (pdf_loop_rows_well_dated (pdf_dir w) pdf_init st Hm eq_refl Hp).
  assert (forallb (fun r => well_dated (deadline r)) fresh_rows = true) as Hfw
    by (eapply scrape_api_well_dated; eassumption).
  exists (merged_of w (final_state (pdf_rows st) fresh_rows)).
  split; [apply merge_Ret; assumption|].
  apply merged_of_well_dated, final_good; assumption.
Qed.

Lemma merge_returns_on_run_rows_witness :
  let body : json (float (PyLib := Ref.lib)) :=
    JArr [JObj (<[lit "Code" := JStr (lit "PRIMA")]>
               (<[lit "EndDate" := JStr (lit "2026-06-01")]> ∅))] in
  let r : response := {| status_code := 200; content_type := Some (lit "application/json");
                         r_json := Some body; r_xml := None |} in
  let w : world := {| TODAY := Date 2026 1 3; http_get := fun _ => Received r;
                      pdf_dir := [PdfFile (lit "EXC.pdf") (lit "EXC")
                                    (lit "Deadline: 15 March 2026")] |} in
  merge w [PdfRow (lit "EXC") (lit "15 Mar 2026")]
    [Row (lit "PRIMA") [] (lit "01 Jun 2026") OPEN None]
  = Ret [MergedRow (lit "EXC") (lit "15 Mar 2026") OPEN None;
         MergedRow (lit "PRIMA") (lit "01 Jun 2026") OPEN None]
  /\ exists merged,
       merge w [PdfRow (lit "EXC") (lit "15 Mar 2026")]
         [Row (lit "PRIMA") [] (lit "01 Jun 2026") OPEN None] = Ret merged
       /\ Forall (fun r => well_dated (mr_deadline r) = true) merged.
Proof.
  intros body r w. split; [reflexivity|].
  assert (1000 <= THIS_YEAR w) as Hy by (unfold THIS_YEAR, w; simpl; lia).
  assert (four_digit_years (H := Ref.lib) (pdf_dir w)) as Hm.
  { intros pdf m d Hpdf. apply list_elem_of_singleton in Hpdf as ->.
    replace (date_mentions (pdf_text (PdfFile (lit "EXC.pdf") (lit "EXC")
                                        (lit "Deadline: 15 March 2026"))))
      with [lit "15 March 2026"] by (vm_compute; reflexivity).
    intros Hin. apply list_elem_of_singleton in Hin as ->.
    assert (dateparser_parse (PyLib := Ref.lib) (lit "15 March 2026") = Some (Date 2026 3 15))
      as -> by reflexivity.
    intros [= <-]. simpl. lia. }
  assert (fst (scrape_api w)
          = Ret [Row (lit "PRIMA") [] (lit "01 Jun 2026") OPEN None]) as Hs by reflexivity.
  assert (pdf_loop w = Ret {| pdf_rows := [PdfRow (lit "EXC") (lit "15 Mar 2026")];
                              index := index_doc CHUNK_SZ (lit "EXC.pdf")
                                         (lit "Deadline: 15 March 2026") index_init |})
    as Hp by reflexivity.
  exact (merge_returns_on_run_rows w _ _ Hy Hm Hs Hp).
Defined.

(** Property X12. In a run in which one document is the only source of a
    code (no other document of the directory has the same normalized stem
    and no row of the API has the code), the merged record of the code
    carries the last candidate the miner kept for the document, which is
    the latest of them (with two candidates, the later of the two: the
    seeding loop assigns the rows of the document in order, and the second
    assignment replaces the first), the status of that date, and no
    budget. *)
Theorem pdf_only_latest_candidate `{PyLib} (w : world) (fresh_rows : list row)
    (st : pdf_state) (pdf : pdf_file) (ds : list date) (d : date) :
  1000 <= THIS_YEAR w ->
  four_digit_years (pdf_dir w) ->
  fst (scrape_api w) = Ret fresh_rows ->
  pdf_loop w = Ret st ->
  pdf ∈ pdf_dir w ->
  (forall p, p ∈ pdf_dir w ->
             normalize_code (pdf_stem p) = normalize_code (pdf_stem pdf) -> p = pdf) ->
  normalize_code (pdf_stem pdf) ∉ map code fresh_rows ->
  candidates (pdf_text pdf) = Ret ds ->
  last ds = Some d ->
  let c := normalize_code (pdf_stem pdf) in
  (forall d', d' ∈ ds -> date_leb d' d = true)
  /\ exists merged,
       merge w (pdf_rows st) fresh_rows = Ret merged
       /\ merged_for c merged
          = Some {| mr_code := c; mr_deadline := strftime d;
                    mr_status := status_of w d; mr_budget := None |}.
Proof.
  intros Hy Hm Hs Hp Hin Hone Hapi Hc Hl c. subst c.
  split; [eapply candidates_last; eassumption|].
  assert (forallb (fun r => well_dated (pr_deadline r)) (pdf_rows st) = true) as Hpw
    by apply (pdf_loop_rows_well_dated (pdf_dir w) pdf_init st Hm eq_refl Hp).
  assert (forallb (fun r => well_dated (deadline r)) fresh_rows = true) as Hfw
    by (eapply scrape_api_well_dated; eassumption).
  exists (merged_of w (final_state (pdf_rows st) fresh_rows)).
  split; [apply merge_Ret; assumption|].
  assert (snd (final_state (pdf_rows st) fresh_rows) !! normalize_code (pdf_stem pdf) = None)
    as Hb.
  { unfold final_state. rewrite overlay_budgets, (api_budgets_absent _ _ Hapi). reflexivity. }
  rewrite <- Hb. apply merged_of_record; [apply final_good; assumption|].
  rewrite final_lookup by assumption. unfold rule_deadline.
  rewrite (api_dates_absent _ _ Hapi). cbn [fold_left].
  destruct (pdf_loop_rows _ _ _ Hp) as (per & Hper & ->). cbn [pdf_rows pdf_init app].
  apply (last_pdf_dates (pdf_dir w) (pdf_dir w) per pdf ds d); solve [assumption|reflexivity].
Qed.

Lemma pdf_only_latest_candidate_witness :
  let exc := PdfFile (lit "EXC.pdf") (lit "EXC")
               (lit "Deadline: 15 March 2026, extended to 30 June 2026") in
  let prima := PdfFile (lit "PRIMA.pdf") (lit "PRIMA") (lit "Submission by 1 May 2026") in
  let body : json (float (PyLib := Ref.lib)) :=
    JArr [JObj (<[lit "Code" := JStr (lit "PRIMA")]>
               (<[lit "EndDate" := JStr (lit "2026-09-01")]> ∅))] in
  let r : response := {| status_code := 200; content_type := Some (lit "application/json");
                         r_json := Some body; r_xml := None |} in
  let w : world := {| TODAY := Date 2026 1 3; http_get := fun _ => Received r;
                      pdf_dir := [exc; prima] |} in
  let pdf_rows := [PdfRow (lit "EXC") (lit "15 Mar 2026");
                   PdfRow (lit "EXC") (lit "30 Jun 2026");
                   PdfRow (lit "PRIMA") (lit "01 May 2026")] in
  let fresh_rows := [Row (H := Ref.lib) (lit "PRIMA") [] (lit "01 Sep 2026") OPEN None] in
  candidates (H := Ref.lib) (pdf_text exc) = Ret [Date 2026 3 15; Date 2026 6 30]
  /\ exists merged,
       merge w pdf_rows fresh_rows = Ret merged
       /\ merged_for (lit "EXC") merged
          = Some (MergedRow (H := Ref.lib) (lit "EXC") (lit "30 Jun 2026") OPEN None).
Proof.
  intros exc prima body r w pdf_rows fresh_rows.
  assert (candidates (H := Ref.lib) (pdf_text exc) = Ret [Date 2026 3 15; Date 2026 6 30])
    as Hc by reflexivity.
  split; [exact Hc|].
  assert (1000 <= THIS_YEAR w) as Hy by (unfold THIS_YEAR, w; simpl; lia).
  assert (four_digit_years (H := Ref.lib) (pdf_dir w)) as Hm.
  { intros pdf m d Hpdf. apply elem_of_cons in Hpdf as [->|Hpdf];
      [|apply list_elem_of_singleton in Hpdf as ->].
    - replace (date_mentions (pdf_text exc)) with [lit "15 March 2026"; lit "30 June 2026"]
        by (vm_compute; reflexivity).
      intros [->|Hin]%elem_of_cons; [|apply list_elem_of_singleton in Hin as ->].
      + assert (dateparser_parse (PyLib := Ref.lib) (lit "15 March 2026")
                = Some (Date 2026 3 15)) as -> by reflexivity.
        intros [= <-]. simpl. lia.
      + assert (dateparser_parse (PyLib := Ref.lib) (lit "30 June 2026")
                = Some (Date 2026 6 30)) as -> by reflexivity.
        intros [= <-]. simpl. lia.
    - replace (date_mentions (pdf_text prima)) with [lit "1 May 2026"]
        by (vm_compute; reflexivity).
      intros Hin. apply list_elem_of_singleton in Hin as ->.
      assert (dateparser_parse (PyLib := Ref.lib) (lit "1 May 2026")
              = Some (Date 2026 5 1)) as -> by reflexivity.
      intros [= <-]. simpl. lia. }
  assert (fst (scrape_api w) = Ret fresh_rows) as Hs by reflexivity.
  assert (pdf_loop w
          = Ret {| pdf_rows := pdf_rows;
                   index := index_doc CHUNK_SZ (pdf_name prima) (pdf_text prima)
                              (index_doc CHUNK_SZ (pdf_name exc) (pdf_text exc) index_init) |})
    as Hp by reflexivity.
  assert (exc ∈ pdf_dir w) as Hin by left.
  assert (forall p, p ∈ pdf_dir w ->
                    normalize_code (pdf_stem p) = normalize_code (pdf_stem exc) -> p = exc)
    as Hone.
  { intros p [->|Hp']%elem_of_cons; [reflexivity|].
    apply list_elem_of_singleton in Hp' as ->. intros Heq. vm_compute in Heq. discriminate. }
  assert (normalize_code (pdf_stem exc) ∉ map code fresh_rows) as Hapi.
  { intros Hx. apply list_elem_of_singleton in Hx. vm_compute in Hx. discriminate. }
  destruct (pdf_only_latest_candidate w fresh_rows _ exc _ (Date 2026 6 30)
              Hy Hm Hs Hp Hin Hone Hapi Hc eq_refl) as (_ & merged & Hmerge & Hfor).
  exists merged. split; [exact Hmerge|exact Hfor].
Defined.

(** ** What the patterns consume *)

Lemma consumes_weaken {A} (p : rx A) (P Q : pystr -> Prop) :
  (forall s, P s -> Q s) -> consumes p P -> consumes p Q.
Proof.
  intros HPQ Hp s a r Hin. destruct (Hp s a r Hin) as (pre & Hs & HP).
  exists pre. split; [exact Hs|apply HPQ, HP].
Qed.

Lemma consumes_ret {A} (a : A) : consumes (rx_ret a) (fun pre => pre = []).
Proof.
  intros s a' r Hin. apply list_elem_of_singleton in Hin as [= -> ->].
  exists []. split; reflexivity.
Qed.

Lemma consumes_bind {A B} (p : rx A) (k : A -> rx B) (P Q : pystr -> Prop) :
  consumes p P -> (forall a, consumes (k a) Q) ->
  consumes (rx_bind p k) (fun pre => exists x y, pre = x ++ y /\ P x /\ Q y).
Proof.
  intros Hp Hk s b r Hin. unfold rx_bind in Hin.
  apply list_elem_of_In, in_flat_map in Hin as ([a r1] & Hin1 & Hin2). simpl in Hin2.
  apply list_elem_of_In in Hin1, Hin2.
  destruct (Hp s a r1 Hin1) as (x & -> & HP).
  destruct (Hk a r1 b r Hin2) as (y & -> & HQ).
  exists (x ++ y). split; [apply app_assoc|]. exists x, y. auto.
Qed.

Lemma consumes_alt {A} (p q : rx A) (P : pystr -> Prop) :
  consumes p P -> consumes q P -> consumes (rx_alt p q) P.
Proof.
  intros Hp Hq s a r Hin. unfold rx_alt in Hin.
  apply elem_of_app in Hin as [Hin|Hin]; [eapply Hp|eapply Hq]; exact Hin.
Qed.

Lemma consumes_cls (f : N -> bool) :
  consumes (rx_cls f) (fun pre => exists c, pre = [c] /\ f c = true).
Proof.
  intros s a r Hin. destruct s as [|c t]; simpl in Hin; [inversion Hin|].
  destruct (f c) eqn:E; [|inversion Hin].
  apply list_elem_of_singleton in Hin as [= -> ->].
  exists [c]. split; [reflexivity|]. exists c. auto.
Qed.

Lemma consumes_plus (f : N -> bool) : consumes (rx_plus f) (fun _ => True).
Proof.
  intros s a r Hin. unfold rx_plus in Hin.
  apply list_elem_of_In, in_map_iff in Hin as (k & [= <- <-] & _).
  exists (firstn k s). split; [symmetry; apply firstn_skipn|exact I].
Qed.

(** A pattern followed by a second one consumes a text that starts as the
    first requires and ends as the second requires. *)
Lemma consumes_then {A B} (p : rx A) (q : rx B) (P Q : pystr -> Prop) :
  consumes p P -> consumes q Q ->
  consumes (rx_bind p (fun _ => q)) (fun pre => exists x y, pre = x ++ y /\ P x /\ Q y).
Proof. intros Hp Hq. apply consumes_bind; [exact Hp|intros _; exact Hq]. Qed.

Lemma consumes_any_then {A B} (p : rx A) (q : rx B) (P : pystr -> Prop) :
  consumes p P -> consumes q (fun _ => True) ->
  consumes (rx_bind p (fun _ => q)) (fun _ => True).
Proof.
  intros Hp Hq. eapply consumes_weaken; [|apply (consumes_then _ _ _ _ Hp Hq)]. auto.
Qed.

Lemma digit_first_app (x y : pystr) : digit_first x -> digit_first (x ++ y).
Proof. intros (c & q & -> & Hc). exists c, (q ++ y). auto. Qed.

Lemma consumes_first {A B} (p : rx A) (q : rx B) (Q : pystr -> Prop) :
  consumes p digit_first -> consumes q Q ->
  consumes (rx_bind p (fun _ => q)) digit_first.
Proof.
  intros Hp Hq. eapply consumes_weaken; [|apply (consumes_then _ _ _ _ Hp Hq)].
  intros s (x & y & -> & Hx & _). apply digit_first_app, Hx.
Qed.

Lemma consumes_lit_ci (w : pystr) : consumes (rx_lit_ci w) (fun _ => True).
Proof.
  induction w as [|c t IH]; simpl.
  - eapply consumes_weaken; [|apply consumes_ret]. auto.
  - unfold rx_ci. eapply consumes_any_then; [|exact IH].
    eapply consumes_any_then; [apply consumes_cls|].
    eapply consumes_weaken; [|apply consumes_ret]. auto.
Qed.

Lemma consumes_opt (p : rx unit) : consumes p (fun _ => True) -> consumes (rx_opt p) (fun _ => True).
Proof.
  intros Hp. apply consumes_alt; [exact Hp|].
  eapply consumes_weaken; [|apply consumes_ret]. auto.
Qed.

Lemma consumes_d12 : consumes rx_d12 digit_first.
Proof.
  unfold rx_d12. eapply consumes_weaken; [|eapply consumes_then; [apply consumes_cls|]].
  - intros s (x & y & -> & (c & -> & Hc) & _). exists c, y. auto.
  - apply consumes_opt. eapply consumes_any_then; [apply consumes_cls|].
    eapply consumes_weaken; [|apply consumes_ret]. auto.
Qed.

Lemma consumes_sep : consumes rx_sep (fun _ => True).
Proof.
  unfold rx_sep. eapply consumes_any_then; [apply consumes_cls|].
  eapply consumes_weaken; [|apply consumes_ret]. auto.
Qed.

Lemma consumes_chr (c : N) : consumes (rx_chr c) (fun pre => pre = [c]).
Proof.
  unfold rx_chr. eapply consumes_weaken;
    [|apply (consumes_then _ _ _ _ (consumes_cls _) (consumes_ret tt))].
  intros s (x & y & -> & (c' & -> & Hc) & ->). apply N.eqb_eq in Hc. subst. reflexivity.
Qed.

Lemma consumes_lit (w : pystr) : consumes (rx_lit w) (fun pre => pre = w).
Proof.
  induction w as [|c t IH]; simpl; [apply consumes_ret|].
  eapply consumes_weaken; [|apply (consumes_then _ _ _ _ (consumes_chr c) IH)].
  intros s (x & y & -> & -> & ->). reflexivity.
Qed.

Lemma consumes_20dd : consumes rx_20dd year_20dd.
Proof.
  unfold rx_20dd. eapply consumes_weaken;
    [|apply (consumes_then _ _ _ _
               (consumes_then _ _ _ _
                  (consumes_then _ _ _ _ (consumes_lit (lit "20")) (consumes_cls isdigit))
                  (consumes_cls isdigit))
               (consumes_ret tt))].
  intros s (x & y & -> & (x1 & y1 & -> & (x2 & y2 & -> & -> & (a & -> & Ha))
                         & (b & -> & Hb)) & ->).
  exists a, b. auto.
Qed.

Lemma consumes_month_name : consumes rx_month_name (fun _ => True).
Proof.
  unfold rx_month_name, rx_mon.
  repeat (apply consumes_alt);
    repeat (first [ apply consumes_lit_ci
                  | apply consumes_opt
                  | eapply consumes_any_then ]).
Qed.

Lemma consumes_DATE_RE :
  consumes DATE_RE (fun pre => exists x y, pre = x ++ y /\ digit_first x /\ year_20dd y).
Proof.
  unfold DATE_RE. apply consumes_alt; (apply consumes_then; [|apply consumes_20dd]).
  - repeat (eapply consumes_first; [|apply consumes_sep || apply consumes_d12]).
    apply consumes_d12.
  - repeat (eapply consumes_first;
              [|apply consumes_plus || apply consumes_month_name]).
    apply consumes_d12.
Qed.

(** The span of a match of [finditer] is the first match at its start. *)
Lemma finditer_from_match {A} (p : rx A) (s : pystr) (pos skip : nat) (km : nat * nat) :
  km ∈ finditer_from p pos skip s ->
  (pos <= fst km)%nat
  /\ exists n, snd km = (fst km + n)%nat
               /\ match_len p (skipn (fst km - pos) s) = Some n.
Proof.
  revert pos skip. induction s as [|c t IH]; intros pos skip Hin.
  - destruct skip; simpl in Hin; [|inversion Hin].
    destruct (match_len p []) as [n|] eqn:E; [|inversion Hin].
    apply elem_of_cons in Hin as [->|Hin]; [|inversion Hin].
    simpl. split; [lia|]. exists n. rewrite Nat.sub_diag. simpl. auto.
  - assert (forall k, km ∈ finditer_from p (S pos) k t ->
                      (pos <= fst km)%nat
                      /\ exists n, snd km = (fst km + n)%nat
                                   /\ match_len p (skipn (fst km - pos) (c :: t)) = Some n) as Hrec.
    { intros k Hk. destruct (IH _ _ Hk) as (Hle & n & Hn & Hm). split; [lia|].
      exists n. split; [exact Hn|].
      replace (fst km - pos)%nat with (S (fst km - S pos)) by lia. exact Hm. }
    destruct skip as [|k]; simpl in Hin; [|apply (Hrec _ Hin)].
    destruct (match_len p (c :: t)) as [n|] eqn:E; [|apply (Hrec _ Hin)].
    apply elem_of_cons in Hin as [->|Hin]; [|apply (Hrec _ Hin)].
    simpl. split; [lia|]. exists n. rewrite Nat.sub_diag. simpl. auto.
Qed.

Lemma findall_consumes {A} (p : rx A) (P : pystr -> Prop) (s m : pystr) :
  consumes p P -> m ∈ findall p s -> P m.
Proof.
  intros Hp Hin. unfold findall in Hin.
  apply list_elem_of_In, in_map_iff in Hin as (km & <- & Hkm%list_elem_of_In).
  apply finditer_from_match in Hkm as (_ & n & Hn & Hm).
  rewrite Nat.sub_0_r in Hm. rewrite Hn, slice_window.
  unfold match_len in Hm. destruct (p (skipn (fst km) s)) as [|[a r] l] eqn:E; [discriminate|].
  injection Hm as <-.
  destruct (Hp (skipn (fst km) s) a r) as (pre & Hs & HP); [rewrite E; left|].
  rewrite Hs, length_app. replace (length pre + length r - length r)%nat with (length pre) by lia.
  rewrite take_app_length. exact HP.
Qed.

(** Property X13. Every substring the miner hands to the date parser
    starts with a character of [\d] (a decimal digit, of any script) and
    ends with the characters [2] and [0] followed by two characters of
    [\d]: [DATE_RE] matches nothing else, so a date of another century
    next to a keyword, or a date without its year, is never a candidate. *)
Theorem date_mentions_shape (txt m : pystr) :
  m ∈ date_mentions txt ->
  exists c mid a b,
    m = c :: mid ++ [50%N; 48%N; a; b]
    /\ isdigit c = true /\ isdigit a = true /\ isdigit b = true.
Proof.
  unfold date_mentions. intros (km & _ & Hm%list_elem_of_In)%list_elem_of_In%in_flat_map.
  destruct (findall_consumes DATE_RE _ _ m consumes_DATE_RE Hm)
    as (x & y & -> & (c & q & -> & Hc) & (a & b & -> & Ha & Hb)).
  exists c, q, a, b. auto.
Qed.

Lemma date_mentions_shape_witness :
  let txt := lit "Deadline: 15 March 2025 (was 1 June 1999)" in
  date_mentions txt = [lit "15 March 2025"]
  /\ exists c mid a b,
       lit "15 March 2025" = c :: mid ++ [50%N; 48%N; a; b]
       /\ isdigit c = true /\ isdigit a = true /\ isdigit b = true.
Proof.
  intros txt.
  assert (date_mentions txt = [lit "15 March 2025"]) as Hm by (vm_compute; reflexivity).
  split; [exact Hm|].
  apply (date_mentions_shape txt). rewrite Hm. left.
Defined.

(** A day in Arabic-Indic digits is a match of [\d{1,2}] as well. *)
Example date_mentions_other_script :
  date_mentions (lit "Deadline: " ++ [1633; 1637]%N ++ lit " March 2026")
  = [[1633; 1637]%N ++ lit " March 2026"].
Proof. vm_compute. reflexivity. Qed.

(** ** The month of a query *)

Lemma contains_prefix (p q hay : pystr) :
  contains (p ++ q) hay = true -> contains p hay = true.
Proof.
  induction hay as [|c t IH]; simpl.
  - intros Hpq%bool_decide_eq_true. apply app_eq_nil in Hpq as [-> _]. reflexivity.
  - intros [Hpq%bool_decide_eq_true|Ht]%orb_prop; apply orb_true_intro.
    + left. apply bool_decide_eq_true.
      apply (f_equal (firstn (length p))) in Hpq.
      rewrite take_take, length_app, take_app_length in Hpq.
      rewrite Nat.min_l in Hpq by lia. exact Hpq.
    + right. apply IH, Ht.
Qed.

Lemma contains_longer (a b hay : pystr) :
  firstn (length a) b = a -> contains a hay = false -> contains b hay = false.
Proof.
  intros Hab Ha. destruct (contains b hay) eqn:Hb; [|reflexivity].
  rewrite <- (firstn_skipn (length a) b), Hab in Hb.
  apply contains_prefix in Hb. congruence.
Qed.

Ltac month_step tl :=
  match goal with
  | |- context [contains (lit ?s) tl] =>
      destruct (contains (lit s) tl) eqn:?;
      [first [ reflexivity
             | exfalso;
               match goal with
               | E1 : contains ?a tl = false, E2 : contains ?b tl = true |- _ =>
                   rewrite (contains_longer a b tl eq_refl E1) in E2; discriminate
               end ]
      |]
  end.

(** Property X14. [extract_month_alias] returns the first of the twelve
    keys of three letters, in the order of the calendar, that occurs in the
    lower-cased text: the full month names and [sept] come in [MONTH_ALIAS]
    after a key that is a part of them, so they are never returned. The key
    returned stands in [MONTH_ALIAS] for the number of its month. *)
Theorem extract_month_alias_abbreviation `{PyText} (text : pystr) :
  extract_month_alias text
  = first_some (fun a => if contains a (lower text) then Some a else None) month_keys
  /\ match extract_month_alias text with
     | Some a => exists i, month_keys !! i = Some a
                           /\ dict_get a MONTH_ALIAS = Some (Z.of_nat i + 1)
     | None => forall a n, dict_get a MONTH_ALIAS = Some n -> contains a (lower text) = false
     end.
Proof.
  assert (extract_month_alias text
          = first_some (fun a => if contains a (lower text) then Some a else None) month_keys)
    as Heq.
  { unfold extract_month_alias. set (tl := lower text).
    cbv [first_some MONTH_ALIAS month_keys map fst snd].
    repeat month_step tl. reflexivity. }
  split; [exact Heq|]. rewrite Heq. set (tl := lower text).
  cbv [first_some month_keys map].
  repeat match goal with
         | |- context [contains (lit ?s) tl] =>
             destruct (contains (lit s) tl) eqn:?;
             [match goal with
              | |- exists i, _ =>
                  first [ exists 0%nat; split; reflexivity | exists 1%nat; split; reflexivity
                        | exists 2%nat; split; reflexivity | exists 3%nat; split; reflexivity
                        | exists 4%nat; split; reflexivity | exists 5%nat; split; reflexivity
                        | exists 6%nat; split; reflexivity | exists 7%nat; split; reflexivity
                        | exists 8%nat; split; reflexivity | exists 9%nat; split; reflexivity
                        | exists 10%nat; split; reflexivity | exists 11%nat; split; reflexivity ]
              end|]
         end.
  intros a n Ha.
  assert (a ∈ map fst MONTH_ALIAS) as Hin.
  { apply dict_get_Some in Ha. apply (list_elem_of_fmap_2 fst _ _ Ha). }
  cbv [MONTH_ALIAS map fst snd] in Hin.
  repeat (apply elem_of_cons in Hin as [->|Hin];
          [first [ assumption
                 | match goal with
                   | E1 : contains ?a tl = false |- contains ?b tl = false =>
                       apply (contains_longer a b tl eq_refl E1)
                   end ]|]).
  inversion Hin.
Qed.

(** A query that names two months: the earlier one in the calendar is
    returned, whatever their order in the text. *)
Example month_alias_example :
  extract_month_alias (lit "Which calls expire in December or in January?") = Some (lit "jan")
  /\ extract_month_alias (lit "Summary of calls") = Some (lit "mar")
  /\ extract_month_alias (lit "Show me all deadlines") = None.
Proof. repeat split; vm_compute; reflexivity. Qed.

(** ** The deadline list of the bot *)

Lemma filter_all {A} (P : A -> Prop) `{!forall x, Decision (P x)} (l : list A) :
  Forall P l -> filter P l = l.
Proof.
  induction 1 as [|x t Hx _ IH]; [reflexivity|].
  rewrite filter_cons, decide_True by exact Hx. rewrite IH. reflexivity.
Qed.

Lemma collect_Ret {A B} (f : A -> result (option B)) (g : A -> option B) (l : list A) :
  Forall (fun x => f x = Ret (g x)) l -> collect f l = Ret (omap g l).
Proof.
  induction 1 as [|x t Hx _ IH]; simpl; [reflexivity|].
  rewrite Hx, IH. simpl. destruct (g x); reflexivity.
Qed.

Lemma omap_Some_map {A B} (g : A -> B) (l : list A) : omap (fun x => Some (g x)) l = map g l.
Proof. induction l as [|x t IH]; [reflexivity|]. cbn. rewrite <- IH. reflexivity. Qed.

Lemma strftime_nonempty (d : date) : strftime d <> [].
Proof. unfold strftime, two_digits. discriminate. Qed.

Section BotFacts.
Context `{PyLib}.

Lemma known_status_str (s : status) : known_status (JStr (status_str s)) = Some s.
Proof. destruct s; reflexivity. Qed.

Lemma merged_obj_fields (r : merged_row) :
  get (merged_obj r) "code" = JStr (mr_code r)
  /\ get (merged_obj r) "programme" = JNull
  /\ get (merged_obj r) "deadline" = JStr (mr_deadline r)
  /\ get (merged_obj r) "status" = JStr (status_str (mr_status r)).
Proof. repeat split; reflexivity. Qed.

(** One turn of the loop of [load_deadlines] on a record of the merged
    file. *)
Lemma load_merged_item (today : date) (r : merged_row) :
  (d ← as_dict (merged_json r); load_item today d)
  = Ret (if decide (mr_code r <> [] /\ mr_deadline r <> []) then Some (loaded r) else None).
Proof.
  change (load_item today (merged_obj r)
          = Ret (if decide (mr_code r <> [] /\ mr_deadline r <> [])
                 then Some (loaded r) else None)).
  destruct (merged_obj_fields r) as (Hc & Hp & Hd & Hs).
  unfold load_item. rewrite Hc, Hp, Hd, Hs, known_status_str. unfold loaded.
  destruct (mr_code r) as [|c t] eqn:Ec.
  { rewrite decide_False by tauto. reflexivity. }
  destruct (mr_deadline r) as [|c' t'] eqn:Ed.
  { rewrite decide_False by tauto. reflexivity. }
  rewrite decide_True by (split; discriminate). reflexivity.
Qed.
End BotFacts.

Lemma load_deadlines_merged_file `{PyLib} (today : date) (merged : list merged_row) :
  load_deadlines today (merged_file merged)
  = Ret (map loaded (filter (fun r => mr_code r <> [] /\ mr_deadline r <> []) merged)).
Proof.
  unfold load_deadlines, merged_file.
  induction merged as [|r t IH]; [reflexivity|].
  cbn [map collect]. rewrite load_merged_item. cbn [mbind result_bind].
  rewrite IH. cbn [mbind result_bind]. rewrite filter_cons.
  destruct (decide (mr_code r <> [] /\ mr_deadline r <> [])); reflexivity.
Qed.

(** Property X15. [load_deadlines] reads the merged file back as it was
    written: every record with a non-empty code and a non-empty deadline
    gives one record, in the order of the file, with the same code, the
    same deadline and the status the file stores; the status is not
    computed again, whatever the day of the reading. A record whose code
    or deadline is empty is left out. *)
Theorem load_deadlines_reads_merged `{PyLib} (today : date) (merged : list merged_row) :
  load_deadlines today (merged_file merged)
  = Ret (map loaded (filter (fun r => mr_code r <> [] /\ mr_deadline r <> []) merged))
  /\ (Forall (fun r => mr_code r <> [] /\ mr_deadline r <> []) merged ->
      load_deadlines today (merged_file merged) = Ret (map loaded merged)).
Proof.
  split; [apply load_deadlines_merged_file|].
  intros Hall. rewrite load_deadlines_merged_file, (filter_all _ _ Hall). reflexivity.
Qed.

Example load_example :
  let merged := [MergedRow (H := Ref.lib) (lit "EXC") (lit "15 Mar 2026") OPEN None;
                 MergedRow (H := Ref.lib) (lit "PRIMA") (lit "01 Jun 2026") OPEN
                   (Some (Ref.Dec 12500 0))] in
  load_deadlines (Date 2026 11 3) (merged_file merged)
  = Ret [DeadlineRow (JStr (lit "EXC")) (JStr (lit "15 Mar 2026")) OPEN;
         DeadlineRow (JStr (lit "PRIMA")) (JStr (lit "01 Jun 2026")) OPEN].
Proof. reflexivity. Qed.

Section ListingFacts.
Context `{PyLib}.

(** What the merged list of a merge is made of. *)
Lemma merged_of_rows (w : world) (pdf_rows : list pdf_row) (fresh_rows : list row)
    (r : merged_row) :
  forallb (fun r => well_dated (pr_deadline r)) pdf_rows = true ->
  forallb (fun r => well_dated (deadline r)) fresh_rows = true ->
  r ∈ merged_of w (final_state pdf_rows fresh_rows) ->
  (mr_code r ∈ map pr_code pdf_rows \/ mr_code r ∈ map code fresh_rows)
  /\ exists d, printable d /\ mr_deadline r = strftime d
               /\ to_d (mr_deadline r) = Ret d /\ the_date (mr_deadline r) = d.
Proof.
  intros Hp Hf Hr. destruct (final_good _ _ Hp Hf) as [_ Hall].
  destruct (merged_of_elem _ _ _ Hr) as (d & Hin & Hrec). split.
  - apply final_keys. apply (list_elem_of_fmap_2 fst _ _ Hin).
  - rewrite Forall_forall in Hall. pose proof (Hall _ Hin) as Hd. simpl in Hd.
    exists d. rewrite Hrec. simpl. split; [exact Hd|]. split; [reflexivity|].
    split; [apply printable_to_d, Hd|].
    unfold the_date, date_of. rewrite (printable_to_d _ Hd). reflexivity.
Qed.

Lemma fmt_entry_loaded (r : merged_row) :
  to_d (mr_deadline r) = Ret (the_date (mr_deadline r)) ->
  fmt_entry None (loaded r) = Ret (Some (merged_entry r))
  /\ Api.fmt_entry None (loaded r) = Ret (Some (merged_entry r)).
Proof.
  intros Hr. unfold fmt_entry, Api.fmt_entry, loaded, strptime_date.
  cbn [dl_deadline dl_code dl_status]. rewrite Hr. split; reflexivity.
Qed.

Lemma fmt_entries_merged (merged : list merged_row) :
  Forall (fun r => to_d (mr_deadline r) = Ret (the_date (mr_deadline r))) merged ->
  collect (fmt_entry None) (map loaded merged) = Ret (map merged_entry merged)
  /\ collect (Api.fmt_entry None) (map loaded merged) = Ret (map merged_entry merged).
Proof.
  induction 1 as [|r t Hr _ [IH IH']]; [split; reflexivity|]. cbn [map collect].
  destruct (fmt_entry_loaded r Hr) as [-> ->]. rewrite IH, IH'. split; reflexivity.
Qed.

Lemma fmt_lines_merged (merged : list merged_row) :
  Forall (fun r => strftime (the_date (mr_deadline r)) = mr_deadline r) merged ->
  map_result fmt_line (map merged_entry merged) = Ret (map merged_line merged).
Proof.
  induction 1 as [|r t Hr _ IH]; [reflexivity|]. cbn [map map_result].
  rewrite IH. unfold fmt_line, merged_entry at 1. rewrite Hr. reflexivity.
Qed.

Lemma merged_entries_sorted (merged : list merged_row) :
  Forall (fun r => to_d (mr_deadline r) = Ret (the_date (mr_deadline r))) merged ->
  StronglySorted deadline_le merged ->
  StronglySorted (key_le (fun e : entry => fst (fst e))) (map merged_entry merged).
Proof.
  intros Hall. apply StronglySorted_map_impl.
  intros a b Ha Hb (da & db & Hda & Hdb & Hle). rewrite Forall_forall in Hall.
  unfold key_le, merged_entry. simpl.
  rewrite (Hall a Ha) in Hda. rewrite (Hall b Hb) in Hdb. congruence.
Qed.
End ListingFacts.

(** Property X16. The bot lists the merged file as the run wrote it. For
    the merged list of a merge whose rows carry non-empty codes, written to
    the file and read by [load_deadlines] on any later day, [fmt_deadlines]
    with no month gives the header and one line for every merged record, in
    the order of the file, with the code escaped, the deadline as stored and
    the status as stored. The listing of [api/bot.py] is the same. *)
Theorem bot_lists_merged_file `{PyLib} (w : world) (pdf_rows : list pdf_row)
    (fresh_rows : list row) (merged : list merged_row) (today : date) :
  forallb (fun r => well_dated (pr_deadline r)) pdf_rows = true ->
  forallb (fun r => well_dated (deadline r)) fresh_rows = true ->
  Forall (fun r => pr_code r <> []) pdf_rows ->
  Forall (fun r => code r <> []) fresh_rows ->
  merge w pdf_rows fresh_rows = Ret merged ->
  merged <> [] ->
  exists DEADLINES,
    load_deadlines today (merged_file merged) = Ret DEADLINES
    /\ length DEADLINES = length merged
    /\ fmt_deadlines DEADLINES None
       = Ret (deadlines_header ++ str_join [10%N] (map merged_line merged))
    /\ Api.fmt_deadlines DEADLINES None = fmt_deadlines DEADLINES None.
Proof.
  intros Hp Hf Hpc Hfc Hm Hne.
  rewrite (merge_Ret w _ _ Hp Hf) in Hm. injection Hm as <-.
  set (merged := merged_of w (final_state pdf_rows fresh_rows)) in *.
  assert (forall r, r ∈ merged ->
            mr_code r <> [] /\ mr_deadline r <> []
            /\ to_d (mr_deadline r) = Ret (the_date (mr_deadline r))
            /\ strftime (the_date (mr_deadline r)) = mr_deadline r) as Hrows.
  { intros r Hr. destruct (merged_of_rows w _ _ r Hp Hf Hr) as (Hc & d & _ & Hs & Hd & Ht).
    split; [|split; [|split]].
    - rewrite Forall_forall in Hpc. rewrite Forall_forall in Hfc.
      destruct Hc as [(x & <- & Hx%list_elem_of_In)%list_elem_of_In%in_map_iff
                     |(x & <- & Hx%list_elem_of_In)%list_elem_of_In%in_map_iff];
        [apply Hpc, Hx|apply Hfc, Hx].
    - rewrite Hs. apply strftime_nonempty.
    - rewrite Ht. exact Hd.
    - rewrite Ht. symmetry. exact Hs. }
  exists (map loaded merged).
  assert (load_deadlines today (merged_file merged) = Ret (map loaded merged)) as Hload.
  { rewrite load_deadlines_merged_file, filter_all; [reflexivity|].
    apply Forall_forall. intros r Hr. destruct (Hrows r Hr) as (? & ? & _). auto. }
  split; [exact Hload|]. split; [apply length_map|].
  assert (Forall (fun r => to_d (mr_deadline r) = Ret (the_date (mr_deadline r))) merged) as Hd.
  { apply Forall_forall. intros r Hr. apply (Hrows r Hr). }
  destruct (fmt_entries_merged merged Hd) as [He He'].
  assert (fmt_listing (map merged_entry merged)
          = Ret (deadlines_header ++ str_join [10%N] (map merged_line merged))) as Hl.
  { unfold fmt_listing.
    rewrite bool_decide_eq_false_2 by (destruct merged; [congruence|discriminate]).
    rewrite sort_by_sorted_id.
    2:{ apply merged_entries_sorted; [exact Hd|].
        apply merged_of_sorted. apply (final_good _ _ Hp Hf). }
    rewrite fmt_lines_merged; [reflexivity|].
    apply Forall_forall. intros r Hr. apply (Hrows r Hr). }
  assert (map loaded merged <> []) as Hne' by (destruct merged; [congruence|discriminate]).
  unfold fmt_deadlines, Api.fmt_deadlines.
  rewrite bool_decide_eq_false_2 by exact Hne'. simpl month_number.
  rewrite He, He'. split; [exact Hl|reflexivity].
Qed.

Lemma bot_lists_merged_file_witness :
  let w : world (H := Ref.lib) :=
    {| TODAY := Date 2025 1 20; http_get := fun _ => TransportError; pdf_dir := [] |} in
  let pdf_rows := [PdfRow (lit "B&B") (lit "03 Apr 2025")] in
  let fresh_rows : list (row (H := Ref.lib)) :=
    [Row (lit "A") [] (lit "05 Jan 2025") CLOSED None] in
  exists DEADLINES : list (deadline_row (H := Ref.lib)),
    load_deadlines (Date 2025 6 1)
      (merged_file [MergedRow (lit "A") (lit "05 Jan 2025") CLOSED None;
                    MergedRow (lit "B&B") (lit "03 Apr 2025") OPEN None]) = Ret DEADLINES
    /\ fmt_deadlines DEADLINES None
       = Ret ([128197%N] ++ lit " <b>Deadlines</b>" ++ [10%N; 8226%N]
              ++ lit " <b>A</b> " ++ [8212%N] ++ lit " 05 Jan 2025 <i>(CLOSED)</i>"
              ++ [10%N; 8226%N]
              ++ lit " <b>B&amp;B</b> " ++ [8212%N] ++ lit " 03 Apr 2025 <i>(OPEN)</i>").
Proof.
  intros w pdf_rows fresh_rows.
  assert (forallb (fun r => well_dated (pr_deadline r)) pdf_rows = true) as Hp by reflexivity.
  assert (forallb (fun r => well_dated (deadline r)) fresh_rows = true) as Hf by reflexivity.
  assert (Forall (fun r => pr_code r <> []) pdf_rows) as Hpc by (repeat constructor; discriminate).
  assert (Forall (fun r => code r <> []) fresh_rows) as Hfc by (repeat constructor; discriminate).
  assert (merge w pdf_rows fresh_rows
          = Ret [MergedRow (lit "A") (lit "05 Jan 2025") CLOSED None;
                 MergedRow (lit "B&B") (lit "03 Apr 2025") OPEN None]) as Hm by reflexivity.
  destruct (bot_lists_merged_file w pdf_rows fresh_rows _ (Date 2025 6 1) Hp Hf Hpc Hfc Hm
              ltac:(discriminate)) as (D & Hload & _ & Hfmt & _).
  exists D. split; [exact Hload|]. rewrite Hfmt. reflexivity.
Defined.

Lemma to_d_Raise (s : pystr) (e : exn) : to_d s = Raise e -> e = ValueError.
Proof.
  unfold to_d. destruct (re_dbY s) as [|[d [|c t]] l]; try congruence.
  destruct (valid_date d); congruence.
Qed.

Lemma month_alias_values (a : pystr) (n : Z) :
  dict_get a MONTH_ALIAS = Some n -> a <> [] /\ 1 <= n <= 12.
Proof.
  intros Ha%dict_get_Some. cbv [MONTH_ALIAS map fst snd] in Ha.
  repeat (apply elem_of_cons in Ha as [[= -> ->]|Ha]; [split; [discriminate|lia]|]).
  inversion Ha.
Qed.

Section MonthFacts.
Context `{PyLib}.

Lemma month_number_values (alias : option pystr) (n : Z) :
  month_number alias = Some n -> 1 <= n <= 12.
Proof.
  unfold month_number. destruct alias as [a|]; [|discriminate].
  case_bool_decide; [discriminate|]. intros Ha. apply (month_alias_values a n Ha).
Qed.

Lemma fmt_entry_dated (mn : option Z) (r : deadline_row) (s : pystr) :
  (forall n, mn = Some n -> 1 <= n <= 12) ->
  dl_deadline r = JStr s ->
  fmt_entry mn r
  = Ret (match row_date r with
         | Some d =>
             if match mn with
                | Some n => bool_decide (month d = n)
                | None => true
                end
             then Some (d, dl_code r, dl_status r) else None
         | None => None
         end).
Proof.
  intros Hmn Hs. unfold fmt_entry, row_date, strptime_date, date_of. rewrite Hs.
  destruct (to_d s) as [d|e] eqn:E.
  - unfold other_month. destruct mn as [n|]; [|reflexivity].
    specialize (Hmn n eq_refl).
    destruct (Z.eqb_spec n 0); [lia|]. simpl.
    destruct (Z.eqb_spec (month d) n).
    + rewrite bool_decide_eq_true_2 by assumption. reflexivity.
    + rewrite bool_decide_eq_false_2 by assumption. reflexivity.
  - apply to_d_Raise in E as ->. reflexivity.
Qed.

Lemma fmt_entries_dated (mn : option Z) (D : list deadline_row) :
  (forall n, mn = Some n -> 1 <= n <= 12) ->
  Forall (fun r => exists s, dl_deadline r = JStr s) D ->
  collect (fmt_entry mn) D = Ret (dated_in mn D).
Proof.
  intros Hmn Hall. unfold dated_in. apply collect_Ret.
  eapply Forall_impl; [exact Hall|]. intros r (s & Hs). apply (fmt_entry_dated mn r s Hmn Hs).
Qed.

Lemma dated_in_codes (mn : option Z) (D : list deadline_row) (e : entry) :
  e ∈ dated_in mn D -> exists r, r ∈ D /\ snd (fst e) = dl_code r.
Proof.
  unfold dated_in. intros (r & Hr & He)%list_elem_of_omap. exists r. split; [exact Hr|].
  destruct (row_date r) as [d|]; [|discriminate].
  destruct (match mn with Some n => bool_decide (month d = n) | None => true end);
    [|discriminate].
  injection He as <-. reflexivity.
Qed.

Lemma fmt_lines_entries (es : list entry) :
  Forall (fun e => exists c, snd (fst e) = JStr c) es ->
  map_result fmt_line es = Ret (map entry_line es).
Proof.
  intros Hall. apply map_result_Ret. eapply Forall_impl; [exact Hall|].
  intros [[d c] st] (c' & Hc). simpl in Hc. subst c. reflexivity.
Qed.
End MonthFacts.

(** Property X17. For records whose codes and deadlines are strings,
    [fmt_deadlines] lists exactly the records whose deadline [strptime]
    reads as a date and, when the alias is a key of [MONTH_ALIAS], whose
    date falls in the month of the alias; a record whose deadline is not a
    date is left out of the listing. The lines are in ascending order of
    the dates, and when no record is left the answer is "No matching
    deadlines.". *)
Theorem fmt_deadlines_by_month `{PyLib} (D : list deadline_row) (alias : option pystr) :
  D <> [] ->
  Forall (fun r => exists c s, dl_code r = JStr c /\ dl_deadline r = JStr s) D ->
  exists es : list entry,
    Permutation es (dated_in (month_number alias) D)
    /\ StronglySorted (key_le (fun e : entry => fst (fst e))) es
    /\ fmt_deadlines D alias
       = Ret (if bool_decide (es = []) then lit "No matching deadlines."
              else deadlines_header ++ str_join [10%N] (map entry_line es)).
Proof.
  intros Hne Hall.
  set (mn := month_number alias).
  exists (sort_by (fun e : entry => fst (fst e)) (dated_in mn D)).
  assert (Permutation (sort_by (fun e : entry => fst (fst e)) (dated_in mn D)) (dated_in mn D))
    as Hperm by (symmetry; apply sort_by_perm).
  split; [exact Hperm|]. split; [apply sort_by_sorted|].
  unfold fmt_deadlines. rewrite bool_decide_eq_false_2 by exact Hne. fold mn.
  rewrite fmt_entries_dated.
  2:{ intros n Hn. apply (month_number_values alias n Hn). }
  2:{ eapply Forall_impl; [exact Hall|]. intros r (c & s & _ & Hs). exists s. exact Hs. }
  cbn [mbind result_bind]. unfold fmt_listing.
  destruct (dated_in mn D) as [|e es] eqn:Ed.
  { rewrite bool_decide_eq_true_2 by reflexivity. reflexivity. }
  rewrite bool_decide_eq_false_2 by discriminate.
  rewrite bool_decide_eq_false_2.
  2:{ intros Hnil. rewrite Hnil in Hperm. apply Permutation_nil_l in Hperm. discriminate. }
  rewrite fmt_lines_entries; [reflexivity|].
  apply Forall_forall. intros x Hx. rewrite Hperm, <- Ed in Hx.
  apply dated_in_codes in Hx as (r & Hr & ->).
  rewrite Forall_forall in Hall. destruct (Hall r Hr) as (c & s & Hc & _). exists c. exact Hc.
Qed.

Lemma fmt_deadlines_by_month_witness :
  let D : list (deadline_row (H := Ref.lib)) :=
    [DeadlineRow (JStr (lit "C")) (JStr (lit "30 Jun 2026")) OPEN;
     DeadlineRow (JStr (lit "B")) (JStr (lit "to be announced")) OPEN;
     DeadlineRow (JStr (lit "A")) (JStr (lit "01 Dec 2026")) OPEN;
     DeadlineRow (JStr (lit "D")) (JStr (lit "1 jun 2026")) CLOSED] in
  exists es : list entry,
    Permutation es (dated_in (Some 6) D)
    /\ fmt_deadlines D (Some (lit "jun"))
       = Ret (if bool_decide (es = []) then lit "No matching deadlines."
              else deadlines_header ++ str_join [10%N] (map entry_line es)).
Proof.
  intros D.
  destruct (fmt_deadlines_by_month D (Some (lit "jun")) ltac:(discriminate)) as (es & Hp & _ & Hf).
  { repeat constructor; eexists _, _; split; reflexivity. }
  exists es. split; [exact Hp|exact Hf].
Defined.

(** A listing for June: the record without a date and the record of
    December are left out, and the two of June are in the order of their
    dates. *)
Example listing_example :
  fmt_deadlines (H := Ref.lib)
    [DeadlineRow (JStr (lit "C")) (JStr (lit "30 Jun 2026")) OPEN;
     DeadlineRow (JStr (lit "B")) (JStr (lit "to be announced")) OPEN;
     DeadlineRow (JStr (lit "A")) (JStr (lit "01 Dec 2026")) OPEN;
     DeadlineRow (JStr (lit "D")) (JStr (lit "1 jun 2026")) CLOSED]
    (Some (lit "jun"))
  = Ret ([128197%N] ++ lit " <b>Deadlines</b>" ++ [10%N; 8226%N]
         ++ lit " <b>D</b> " ++ [8212%N] ++ lit " 01 Jun 2026 <i>(CLOSED)</i>"
         ++ [10%N; 8226%N]
         ++ lit " <b>C</b> " ++ [8212%N] ++ lit " 30 Jun 2026 <i>(OPEN)</i>").
Proof. reflexivity. Qed.

Section VariantFacts.
Context `{PyLib}.

Lemma fmt_entry_Raise (mn : option Z) (r : deadline_row) (e : exn) :
  fmt_entry mn r = Raise e -> e = TypeError /\ forall s, dl_deadline r <> JStr s.
Proof.
  unfold fmt_entry, strptime_date. destruct (dl_deadline r) as [| | | |s| |] eqn:Ed;
    try (intros [= <-]; split; [reflexivity|discriminate]).
  destruct (to_d s) as [d|e'] eqn:E.
  - destruct (other_month mn d); discriminate.
  - apply to_d_Raise in E as ->. discriminate.
Qed.

Lemma fmt_entry_variants (mn : option Z) (r : deadline_row) (o : option entry) :
  fmt_entry mn r = Ret o -> Api.fmt_entry mn r = Ret o.
Proof.
  unfold fmt_entry, Api.fmt_entry. destruct (strptime_date (dl_deadline r)) as [d|e]; [auto|].
  destruct e; congruence.
Qed.

Lemma collect_variants (mn : option Z) (D : list deadline_row) (es : list entry) :
  collect (fmt_entry mn) D = Ret es -> collect (Api.fmt_entry mn) D = Ret es.
Proof.
  revert es. induction D as [|r t IH]; simpl; intros es; [auto|].
  intros (o & Ho & (ys & Hys & Hes)%bind_Ret)%bind_Ret.
  rewrite (fmt_entry_variants _ _ _ Ho), (IH _ Hys). exact Hes.
Qed.

Lemma collect_fmt_Raise (mn : option Z) (D : list deadline_row) :
  Exists (fun r => forall s, dl_deadline r <> JStr s) D ->
  collect (fmt_entry mn) D = Raise TypeError.
Proof.
  induction 1 as [r t Hr|r t _ IH]; simpl.
  - destruct (fmt_entry mn r) as [o|e] eqn:E.
    + exfalso. unfold fmt_entry, strptime_date in E.
      destruct (dl_deadline r) eqn:Ed; try discriminate. eapply Hr. reflexivity.
    + apply fmt_entry_Raise in E as [-> _]. reflexivity.
  - destruct (fmt_entry mn r) as [o|e] eqn:E.
    + simpl. rewrite IH. reflexivity.
    + apply fmt_entry_Raise in E as [-> _]. reflexivity.
Qed.

Lemma collect_api_Ret (mn : option Z) (D : list deadline_row) :
  exists es, collect (Api.fmt_entry mn) D = Ret es.
Proof.
  induction D as [|r t [es IH]]; simpl; [eexists; reflexivity|]. rewrite IH.
  unfold Api.fmt_entry. destruct (strptime_date (dl_deadline r)) as [d|e]; simpl.
  - destruct (other_month mn d); eexists; reflexivity.
  - eexists; reflexivity.
Qed.

Lemma collect_fmt_strings (mn : option Z) (D : list deadline_row) :
  Forall (fun r => exists s, dl_deadline r = JStr s) D ->
  exists es, collect (fmt_entry mn) D = Ret es.
Proof.
  induction 1 as [|r t (s & Hs) _ [es IH]]; simpl; [eexists; reflexivity|]. rewrite IH.
  destruct (fmt_entry mn r) as [o|e] eqn:E; simpl; [eexists; reflexivity|].
  apply fmt_entry_Raise in E as [_ Hr]. exfalso. apply (Hr s Hs).
Qed.

Lemma fmt_listing_Raise (es : list entry) (e : exn) :
  fmt_listing es = Raise e -> e = AttributeError.
Proof.
  unfold fmt_listing. case_bool_decide; [discriminate|].
  generalize (sort_by (fun e0 : entry => fst (fst e0)) es). intros l.
  destruct (map_result fmt_line l) as [lines|e'] eqn:E; simpl; [discriminate|].
  intros Heq. inversion Heq; subst. clear Heq.
  revert E. induction l as [|[[d c] st] t IH]; simpl; [discriminate|].
  destruct c; simpl; try congruence.
  destruct (map_result fmt_line t) as [ls|e2]; simpl; [discriminate|].
  intros Heq. inversion Heq; subst. apply IH. reflexivity.
Qed.
End VariantFacts.

(** Property X18. The two listings, of [bot.py] and of [api/bot.py],
    differ only on a deadline that is not a string. When every deadline is
    a string they are equal, and whenever the one of [bot.py] returns, the
    one of [api/bot.py] returns the same text. A record whose deadline is
    not a string makes the listing of [bot.py] raise [TypeError], which its
    [except ValueError] does not catch; the bare [except] of [api/bot.py]
    skips the record, and its listing can only raise on a code that is not
    a string. *)
Theorem fmt_deadlines_variants `{PyLib} (D : list deadline_row) (alias : option pystr) :
  (forall s, fmt_deadlines D alias = Ret s -> Api.fmt_deadlines D alias = Ret s)
  /\ (Forall (fun r => exists s, dl_deadline r = JStr s) D ->
      Api.fmt_deadlines D alias = fmt_deadlines D alias)
  /\ (Exists (fun r => forall s, dl_deadline r <> JStr s) D ->
      fmt_deadlines D alias = Raise TypeError)
  /\ (forall e, Api.fmt_deadlines D alias = Raise e -> e = AttributeError).
Proof.
  unfold fmt_deadlines, Api.fmt_deadlines. set (mn := month_number alias).
  destruct D as [|r0 t0] eqn:ED.
  { rewrite !bool_decide_eq_true_2 by reflexivity.
    split; [auto|]. split; [auto|]. split; [intros Hex; inversion Hex|discriminate]. }
  rewrite !bool_decide_eq_false_2 by discriminate. rewrite <- ED. clear ED r0 t0.
  split; [|split; [|split]].
  - intros s (es & He & Hl)%bind_Ret. rewrite (collect_variants _ _ _ He). exact Hl.
  - intros Hall. destruct (collect_fmt_strings mn D Hall) as [es E].
    rewrite E, (collect_variants _ _ _ E). reflexivity.
  - intros Hex. rewrite (collect_fmt_Raise mn D Hex). reflexivity.
  - intros e. destruct (collect_api_Ret mn D) as [es ->]. simpl. apply fmt_listing_Raise.
Qed.

Section LoadFacts.
Context `{PyLib}.

(** What a turn of the loop of [load_deadlines] appends. *)
Lemma load_item_Some (today : date) (d : item) (r : deadline_row) :
  load_item today d = Ret (Some r) ->
  dl_code r = py_or (get d "code") (get d "programme") /\ truthy (dl_code r) = true
  /\ dl_deadline r = get d "deadline" /\ truthy (dl_deadline r) = true
  /\ match known_status (get d "status") with
     | Some st => dl_status r = st
     | None =>
         exists s, dl_deadline r = JStr s
                   /\ match date_of s with
                      | Some dt => dl_status r = OPEN <-> date_leb today dt = true
                      | None => dl_status r = OPEN
                      end
     end.
Proof.
  unfold load_item.
  destruct (truthy (py_or (get d "code") (get d "programme"))) eqn:Ec; [|discriminate].
  destruct (truthy (get d "deadline")) eqn:Ed; [|discriminate]. simpl.
  destruct (known_status (get d "status")) as [st|] eqn:Es; simpl.
  { intros [= <-]. simpl. auto. }
  unfold strptime_date, date_of.
  destruct (get d "deadline") as [| | | |s| |] eqn:Eg; simpl; try discriminate.
  destruct (to_d s) as [dt|e] eqn:E; simpl.
  - intros [= <-]. simpl. repeat split; try assumption. exists s. split; [reflexivity|].
    rewrite E. destruct (date_leb today dt); split; congruence.
  - pose proof (to_d_Raise _ _ E) as ->. simpl. intros [= <-]. simpl.
    repeat split; try assumption. exists s. split; [reflexivity|]. rewrite E. reflexivity.
Qed.

Lemma load_item_Raise (today : date) (d : item) (e : exn) :
  load_item today d = Raise e -> e = TypeError.
Proof.
  unfold load_item.
  destruct (negb _ || negb _); [discriminate|].
  destruct (known_status (get d "status")); simpl; [discriminate|].
  unfold strptime_date. destruct (get d "deadline") as [| | | |s| |]; simpl; try congruence.
  destruct (to_d s) as [dt|e'] eqn:E; simpl; [discriminate|].
  apply to_d_Raise in E as ->. discriminate.
Qed.

(** A record with a code, a deadline that is not a string and no stored
    status. *)
Lemma load_item_TypeError (today : date) (d : item) :
  truthy (py_or (get d "code") (get d "programme")) = true ->
  truthy (get d "deadline") = true ->
  (forall s, get d "deadline" <> JStr s) ->
  known_status (get d "status") = None ->
  load_item today d = Raise TypeError.
Proof.
  intros Hc Hd Hs Hk. unfold load_item. rewrite Hc, Hd, Hk. simpl.
  unfold strptime_date. destruct (get d "deadline") as [| | | |s| |]; try reflexivity.
  exfalso. apply (Hs s). reflexivity.
Qed.
End LoadFacts.

(** Property X19. Every record [load_deadlines] returns comes from an
    object of the file with a code (under [code], else [programme]) and a
    deadline that are not empty; there are no more of them than objects in
    the file. Its status is the one the file stores when that is OPEN or
    CLOSED, whatever the date; otherwise the deadline is a string, and the
    status is OPEN when [strptime] does not read it as a date, and else
    OPEN exactly when the date is not before the day of the reading. *)
Theorem load_deadlines_status_rule `{PyLib} (today : date) (raw : list (json float))
    (out : list deadline_row) :
  load_deadlines today (FileOf (Some (JArr raw))) = Ret out ->
  (length out <= length raw)%nat
  /\ Forall (fun r =>
       exists d, JObj d ∈ raw
         /\ dl_code r = py_or (get d "code") (get d "programme") /\ truthy (dl_code r) = true
         /\ dl_deadline r = get d "deadline" /\ truthy (dl_deadline r) = true
         /\ match known_status (get d "status") with
            | Some st => dl_status r = st
            | None =>
                exists s, dl_deadline r = JStr s
                          /\ match date_of s with
                             | Some dt => dl_status r = OPEN <-> date_leb today dt = true
                             | None => dl_status r = OPEN
                             end
            end) out.
Proof.
  unfold load_deadlines. revert out. induction raw as [|x t IH]; simpl; intros out.
  - intros [= <-]. split; [simpl; lia|constructor].
  - intros (o & Ho & (ys & Hys & [= <-])%bind_Ret)%bind_Ret.
    destruct (IH ys Hys) as [Hlen Hall].
    assert (Forall (fun r => exists d, JObj d ∈ x :: t
              /\ dl_code r = py_or (get d "code") (get d "programme")
              /\ truthy (dl_code r) = true
              /\ dl_deadline r = get d "deadline" /\ truthy (dl_deadline r) = true
              /\ match known_status (get d "status") with
                 | Some st => dl_status r = st
                 | None =>
                     exists s, dl_deadline r = JStr s
                               /\ match date_of s with
                                  | Some dt => dl_status r = OPEN <-> date_leb today dt = true
                                  | None => dl_status r = OPEN
                                  end
                 end) ys) as Hall'.
    { eapply Forall_impl; [exact Hall|]. intros r (d & Hd & Hrest).
      exists d. split; [right; exact Hd|exact Hrest]. }
    destruct o as [r|]; [|split; [simpl; lia|exact Hall']].
    split; [simpl; lia|]. constructor; [|exact Hall'].
    apply bind_Ret in Ho as (d & Hd & Hitem).
    destruct x; simpl in Hd; try discriminate. injection Hd as ->.
    exists d. split; [left|]. apply (load_item_Some today d r Hitem).
Qed.

Lemma load_deadlines_status_rule_witness :
  let raw : list (json (float (PyLib := Ref.lib))) :=
    [JObj (<[lit "programme" := JStr (lit "LEGACY")]>
          (<[lit "deadline" := JStr (lit "31 Dec 2026")]> ∅));
     JObj (<[lit "code" := JStr (lit "OLD")]>
          (<[lit "deadline" := JStr (lit "01 Jan 2020")]>
          (<[lit "status" := JStr (lit "OPEN")]> ∅)));
     JObj (<[lit "code" := JStr (lit "TBA")]>
          (<[lit "deadline" := JStr (lit "to be announced")]> ∅));
     JObj (<[lit "deadline" := JStr (lit "01 Jan 2027")]> ∅)] in
  let out := [DeadlineRow (JStr (lit "LEGACY")) (JStr (lit "31 Dec 2026")) OPEN;
              DeadlineRow (JStr (lit "OLD")) (JStr (lit "01 Jan 2020")) OPEN;
              DeadlineRow (JStr (lit "TBA")) (JStr (lit "to be announced")) OPEN] in
  load_deadlines (Date 2026 11 3) (FileOf (Some (JArr raw))) = Ret out
  /\ (length out <= length raw)%nat.
Proof.
  intros raw out.
  assert (load_deadlines (Date 2026 11 3) (FileOf (Some (JArr raw))) = Ret out) as Hl
    by reflexivity.
  split; [exact Hl|].
  apply (load_deadlines_status_rule (Date 2026 11 3) raw out Hl).
Defined.

(** Property X20. What [load_deadlines] does with a file it cannot use. A
    missing file gives the empty list. A file that is not JSON raises the
    error of the decoder, which is not the [FileNotFoundError] the function
    catches. In a list of objects, a record with a code, no stored status
    and a deadline that is not empty and not a string makes [strptime]
    raise [TypeError], which leaves the function. *)
Theorem load_deadlines_failures `{PyLib} (today : date) :
  load_deadlines today NoFile = Ret []
  /\ load_deadlines today (FileOf None) = Raise JSONDecodeError
  /\ (forall (items : list item) (d : item),
        d ∈ items ->
        truthy (py_or (get d "code") (get d "programme")) = true ->
        truthy (get d "deadline") = true ->
        (forall s, get d "deadline" <> JStr s) ->
        known_status (get d "status") = None ->
        load_deadlines today (FileOf (Some (JArr (map JObj items)))) = Raise TypeError).
Proof.
  split; [reflexivity|]. split; [reflexivity|].
  intros items d Hin Hc Hd Hs Hk. unfold load_deadlines.
  induction items as [|x t IH]; [inversion Hin|]. cbn [map collect].
  assert ((as_dict (JObj x) ≫= (fun d0 => load_item today d0)) = load_item today x) as ->
    by reflexivity.
  destruct (load_item today x) as [o|e] eqn:E.
  - apply elem_of_cons in Hin as [->|Hin].
    + rewrite (load_item_TypeError today x Hc Hd Hs Hk) in E. discriminate.
    + cbn [mbind result_bind]. rewrite (IH Hin). reflexivity.
  - apply load_item_Raise in E as ->. reflexivity.
Qed.

(** A stored status with a number as deadline passes [load_deadlines];
    the listing of [bot.py] then raises, the one of [api/bot.py] skips the
    record. *)
Example variants_example :
  let raw : list (json (float (PyLib := Ref.lib))) :=
    [JObj (<[lit "code" := JStr (lit "A")]>
          (<[lit "deadline" := JInt 20260630]>
          (<[lit "status" := JStr (lit "OPEN")]> ∅)));
     JObj (<[lit "code" := JStr (lit "B")]>
          (<[lit "deadline" := JStr (lit "01 Dec 2026")]>
          (<[lit "status" := JStr (lit "OPEN")]> ∅)))] in
  exists D,
    load_deadlines (Date 2026 11 3) (FileOf (Some (JArr raw))) = Ret D
    /\ fmt_deadlines D None = Raise TypeError
    /\ Api.fmt_deadlines D None
       = Ret ([128197%N] ++ lit " <b>Deadlines</b>" ++ [10%N; 8226%N]
              ++ lit " <b>B</b> " ++ [8212%N] ++ lit " 01 Dec 2026 <i>(OPEN)</i>").
Proof. intros raw. eexists. repeat split; reflexivity. Qed.

(** Property X21. Later wins, whatever the order of the API rows: the
    deadline of a merged record is one of the deadlines given for its code,
    the last one of [pdf_rows] or one of [fresh_rows], and none of these is
    later than it. *)
Theorem merged_deadline_is_latest `{PyLib} (w : world) (pdf_rows : list pdf_row)
    (fresh_rows : list row) :
  forallb (fun r => well_dated (pr_deadline r)) pdf_rows = true ->
  forallb (fun r => well_dated (deadline r)) fresh_rows = true ->
  exists merged,
    merge w pdf_rows fresh_rows = Ret merged
    /\ Forall (fun r =>
         exists d, mr_deadline r = strftime d
           /\ (last (pdf_dates (mr_code r) pdf_rows) = Some d
               \/ d ∈ api_dates (mr_code r) fresh_rows)
           /\ (forall d', d' ∈ api_dates (mr_code r) fresh_rows -> date_leb d' d = true)
           /\ (forall s, last (pdf_dates (mr_code r) pdf_rows) = Some s -> date_leb s d = true))
         merged.
Proof.
  intros Hp Hf. exists (merged_of w (final_state pdf_rows fresh_rows)).
  split; [apply merge_Ret; assumption|].
  destruct (final_good _ _ Hp Hf) as [Hnd _].
  apply Forall_forall. intros r (d & Hin & Hrec)%merged_of_elem.
  pose proof (dict_get_elem _ _ _ Hnd Hin) as Hget.
  rewrite (final_lookup _ _ _ Hp Hf) in Hget. unfold rule_deadline in Hget.
  destruct (override_fold_latest _ _ _ Hget) as (Hor & Hall & Hcur).
  exists d. split; [rewrite Hrec; reflexivity|]. split; [exact Hor|]. split; assumption.
Qed.

Lemma merged_deadline_is_latest_witness :
  let w : world (H := Ref.lib) :=
    {| TODAY := Date 2025 1 20; http_get := fun _ => TransportError; pdf_dir := [] |} in
  let pdf_rows := [PdfRow (lit "A") (lit "10 Jan 2025")] in
  let fresh_rows : list (row (H := Ref.lib)) :=
    [Row (lit "A") [] (lit "01 Mar 2025") OPEN None;
     Row (lit "A") [] (lit "01 Feb 2025") OPEN None] in
  exists merged,
    merge w pdf_rows fresh_rows = Ret merged
    /\ map mr_deadline merged = [lit "01 Mar 2025"].
Proof.
  intros w pdf_rows fresh_rows.
  assert (forallb (fun r => well_dated (pr_deadline r)) pdf_rows = true) as Hp by reflexivity.
  assert (forallb (fun r => well_dated (deadline r)) fresh_rows = true) as Hf by reflexivity.
  destruct (merged_deadline_is_latest w pdf_rows fresh_rows Hp Hf) as (merged & Hm & _).
  exists merged. split; [exact Hm|].
  assert (merge w pdf_rows fresh_rows
          = Ret [MergedRow (lit "A") (lit "01 Mar 2025") OPEN None]) as Hv by reflexivity.
  rewrite Hv in Hm. injection Hm as <-. reflexivity.
Defined.

(** ** The keywords *)

Lemma ci_eqb_I (x : N) : ci_eqb 207 x = true -> x = 207%N \/ x = 239%N.
Proof.
  unfold ci_eqb. change (tolower 207) with 239%N. change (ci_fixes 239) with (@nil N).
  simpl existsb. rewrite orb_false_r. intros Hx%N.eqb_eq. revert Hx.
  unfold tolower. repeat case_match; lia.
Qed.

Lemma ci_eqb_J (x : N) : ci_eqb 206 x = true -> x = 206%N \/ x = 238%N.
Proof.
  unfold ci_eqb. change (tolower 206) with 238%N. change (ci_fixes 238) with (@nil N).
  simpl existsb. rewrite orb_false_r. intros Hx%N.eqb_eq. revert Hx.
  unfold tolower. repeat case_match; lia.
Qed.

Lemma rx_lit_ci_head (c : N) (w s : pystr) :
  match s with
  | x :: _ => ci_eqb c x = false
  | [] => True
  end ->
  rx_lit_ci (c :: w) s = [].
Proof.
  destruct s as [|x t]; intros Hx; unfold rx_lit_ci; simpl; unfold rx_bind, rx_ci, rx_bind, rx_cls;
    simpl; [reflexivity|]. rewrite Hx. reflexivity.
Qed.

(** A text without the four letters that the first characters of the
    stored Greek keywords match. *)
Lemma KW_RE_english (s : pystr) :
  match s with
  | x :: _ => x <> 206%N /\ x <> 207%N /\ x <> 238%N /\ x <> 239%N
  | [] => True
  end ->
  KW_RE s = KW_EN s.
Proof.
  intros Hs. unfold KW_RE, KW_EN, rx_alt.
  rewrite (rx_lit_ci_head 207), (rx_lit_ci_head 206).
  - rewrite app_nil_r. reflexivity.
  - destruct s as [|x t]; [exact I|]. destruct (ci_eqb 206 x) eqn:E; [|reflexivity].
    apply ci_eqb_J in E. lia.
  - destruct s as [|x t]; [exact I|]. destruct (ci_eqb 207 x) eqn:E; [|reflexivity].
    apply ci_eqb_I in E. lia.
Qed.

Lemma finditer_from_ext {A} (p q : rx A) (P : N -> Prop) (s : pystr) (pos skip : nat) :
  (forall u, match u with x :: _ => P x | [] => True end -> p u = q u) ->
  Forall P s ->
  finditer_from p pos skip s = finditer_from q pos skip s.
Proof.
  intros Hpq. revert pos skip. induction s as [|c t IH]; intros pos skip Hall.
  - destruct skip; simpl; [|reflexivity]. unfold match_len. rewrite (Hpq [] I). reflexivity.
  - apply Forall_cons in Hall as [Hc Ht]. destruct skip as [|k]; simpl; [|apply IH, Ht].
    unfold match_len. rewrite (Hpq (c :: t) Hc).
    destruct (q (c :: t)) as [|[a r] l]; rewrite IH by exact Ht; reflexivity.
Qed.

(** Property X22. The two Greek keywords of [KW_RE] are stored in
    [ingest.py] with the bytes of their UTF-8 form as separate characters,
    and each starts with a letter of Latin-1, U+00CF (I with diaeresis) or
    U+00CE (I with circumflex). In a text that has neither of these two
    letters, in either case, [KW_RE] finds exactly the matches of its three
    English keywords: a keyword written in Greek letters opens no window,
    and a document with no English keyword gives no candidate. *)
Theorem greek_keywords_never_match `{PyLib} (txt : pystr) :
  Forall (fun x => x <> 206%N /\ x <> 207%N /\ x <> 238%N /\ x <> 239%N) txt ->
  finditer KW_RE txt = finditer KW_EN txt
  /\ (finditer KW_EN txt = [] -> date_mentions txt = [] /\ candidates txt = Ret []).
Proof.
  intros Hall.
  assert (finditer KW_RE txt = finditer KW_EN txt) as Heq.
  { unfold finditer.
    apply (finditer_from_ext KW_RE KW_EN
             (fun x => x <> 206%N /\ x <> 207%N /\ x <> 238%N /\ x <> 239%N));
      [apply KW_RE_english|exact Hall]. }
  split; [exact Heq|]. intros Hnone.
  assert (date_mentions txt = []) as Hm.
  { unfold date_mentions. rewrite Heq, Hnone. reflexivity. }
  split; [exact Hm|]. unfold candidates, found. rewrite Hm. reflexivity.
Qed.

Lemma greek_keywords_never_match_witness :
  let txt := [928; 961; 959; 952; 949; 963; 956; 943; 945; 32; 965; 960; 959; 946; 959;
              955; 942; 962; 58; 32]%N ++ lit "15/03/2026" in
  finditer KW_RE txt = [] /\ candidates (H := Ref.lib) txt = Ret [].
Proof.
  intros txt.
  assert (Forall (fun x => x <> 206%N /\ x <> 207%N /\ x <> 238%N /\ x <> 239%N) txt) as Hall.
  { repeat constructor; discriminate. }
  destruct (greek_keywords_never_match (H := Ref.lib) txt Hall) as [Heq Hnone].
  assert (finditer KW_EN txt = []) as Hen by (vm_compute; reflexivity).
  split; [rewrite Heq; exact Hen|]. apply Hnone, Hen.
Defined.

(** ** The candidates as a set *)

Lemma sorted_set_unique (ds ds' : list date) :
  (forall x, x ∈ ds <-> x ∈ ds') ->
  sort_by id (remove_dups ds) = sort_by id (remove_dups ds').
Proof.
  intros Hsame.
  apply (StronglySorted_unique_strong (key_le (@id date))).
  - intros a b _ _. unfold key_le. simpl. apply date_leb_antisym.
  - apply sort_by_sorted.
  - apply sort_by_sorted.
  - rewrite <- !(sort_by_perm id). apply NoDup_Permutation.
    + apply NoDup_remove_dups.
    + apply NoDup_remove_dups.
    + intros x. rewrite !elem_of_remove_dups. apply Hsame.
Qed.

(** Property X23. The candidates of a document depend only on the set of
    the dates the parser gave, not on the order in which the matches were
    found nor on how often a date was found: two texts whose matches parse
    to the same dates have the same candidates. *)
Theorem candidates_of_the_set `{PyLib} (txt txt' : pystr) (ds ds' : list date) :
  found txt = Ret ds ->
  found txt' = Ret ds' ->
  (forall x, x ∈ ds <-> x ∈ ds') ->
  candidates txt = candidates txt'.
Proof.
  intros Hf Hf' Hsame. unfold candidates. rewrite Hf, Hf'. simpl.
  rewrite (sorted_set_unique ds ds' Hsame). reflexivity.
Qed.

Lemma candidates_of_the_set_witness :
  let txt := lit "Deadline: 15 March 2026 or 01.02.2026" in
  let txt' := lit "Submission 1/2/2026; closing date 15-03-2026, deadline 01 Feb 2026" in
  candidates (H := Ref.lib) txt = candidates (H := Ref.lib) txt'
  /\ candidates (H := Ref.lib) txt = Ret [Date 2026 2 1; Date 2026 3 15].
Proof.
  intros txt txt'.
  assert (found (H := Ref.lib) txt = Ret [Date 2026 3 15; Date 2026 2 1]) as Hf by reflexivity.
  set (a := Date 2026 2 1). set (b := Date 2026 3 15).
  assert (found (H := Ref.lib) txt' = Ret [a; b; a; a; b; a; a; b; a]) as Hf' by reflexivity.
  assert (forall x, x ∈ [Date 2026 3 15; Date 2026 2 1] <-> x ∈ [a; b; a; a; b; a; a; b; a])
    as Hsame.
  { intros x. fold a b. rewrite !elem_of_cons, !elem_of_nil. tauto. }
  split; [|reflexivity].
  apply (candidates_of_the_set txt txt' _ _ Hf Hf' Hsame).
Defined.
